(** * frontend-n8n: the response handling of [src/App.tsx]

    A shallow embedding of the pure helpers ([formatJson], [parseJsonSafely],
    [extractIframeContent]), of the webhook client ([sendWebhookRequest]) and
    of the event handlers of the [App] component, together with the part of
    the JavaScript platform they call ([JSON.parse], [JSON.stringify],
    [String.prototype.replace], [String.prototype.match],
    [String.prototype.trim]).

    Strings.  A JavaScript string is modelled by a [string] holding its
    UTF-8 encoding (an unpaired surrogate, which only a JSON escape can
    produce, is held in the same three-byte form).  Every character the
    code inspects is ASCII, so scanning bytes and scanning code units agree.
    In a Rocq literal the backslash is an ordinary character: ["\n"] is the
    two-character sequence backslash, n. *)

From Stdlib Require Import String Ascii List ZArith Lia Bool.
From Stdlib Require Import Floats.SpecFloat.
Import ListNotations.

Set Warnings "-register-all".

Local Open Scope bool_scope.
Local Open Scope string_scope.

(** ** Characters that cannot be written inside a literal *)

Definition QUOTE : ascii := Ascii false true false false false true false false.
Definition LF : ascii := "010"%char.

Definition Q : string := String QUOTE EmptyString.
Definition NL : string := String LF EmptyString.

(** ** [String.prototype.replace] with a global pattern of literal characters

    [replaceAll pat rep s] is [s.replace(/pat/g, rep)] for a pattern [pat]
    made of literal characters and a replacement without [$]: the matches are
    found from left to right and do not overlap.  [skip] counts the
    characters of the current match that are still to be dropped. *)

(** [s.startsWith(pat)] *)
Fixpoint startsWith (pat s : string) : bool :=
  match pat with
  | EmptyString => true
  | String a pat' =>
      match s with
      | String b s' => Ascii.eqb a b && startsWith pat' s'
      | EmptyString => false
      end
  end.

Fixpoint replaceFrom (pat rep : string) (skip : nat) (s : string) : string :=
  match s with
  | EmptyString => EmptyString
  | String c s' =>
      match skip with
      | S k => replaceFrom pat rep k s'
      | O =>
          if startsWith pat s
          then rep ++ replaceFrom pat rep (String.length pat - 1) s'
          else String c (replaceFrom pat rep 0 s')
      end
  end.

Definition replaceAll (pat rep s : string) : string :=
  match pat with
  | EmptyString => s
  | _ => replaceFrom pat rep 0 s
  end.

(** ** [String.prototype.match] for the shape of pattern the code uses

    A pattern is a sequence of items: one character, a greedy repetition of
    a character class, or a greedy repetition that is also capture group 1.
    The matcher backtracks as the JavaScript one does: a repetition first
    takes as many characters as it can and gives them back one at a time. *)

Inductive atom : Type :=
| Chr (c : ascii)
| Cls (negated : bool) (members : list ascii).

Inductive item : Type :=
| One (a : atom)
| Many (a : atom)
| Capture (a : atom).

(** Canonicalize of a pattern with flag [i] and without flag [u]: the upper
    case of a letter; a character outside ASCII never becomes an ASCII one. *)
Definition canonicalize (c : ascii) : ascii :=
  let n := nat_of_ascii c in
  if (97 <=? n)%nat && (n <=? 122)%nat then ascii_of_nat (n - 32) else c.

Definition sameChar (a b : ascii) : bool :=
  Ascii.eqb (canonicalize a) (canonicalize b).

Definition test (a : atom) (c : ascii) : bool :=
  match a with
  | Chr d => sameChar d c
  | Cls negated members => xorb negated (existsb (fun d => sameChar d c) members)
  end.

Fixpoint star {A : Type} (p : ascii -> bool)
    (k : string -> string -> option A) (s : string) : option A :=
  match s with
  | String c s' =>
      if p c then
        match star p (fun taken rest => k (String c taken) rest) s' with
        | Some r => Some r
        | None => k EmptyString s
        end
      else k EmptyString s
  | EmptyString => k EmptyString s
  end.

(** [exec r cap s]: [r] matches a prefix of [s]; the result is the text of
    capture group 1 ([cap] until the group has been passed). *)
Fixpoint exec (r : list item) (cap : string) (s : string) : option string :=
  match r with
  | [] => Some cap
  | One a :: r' =>
      match s with
      | String c s' => if test a c then exec r' cap s' else None
      | EmptyString => None
      end
  | Many a :: r' => star (test a) (fun _ rest => exec r' cap rest) s
  | Capture a :: r' => star (test a) (fun taken rest => exec r' taken rest) s
  end.

(** The first position, from the left, at which the pattern matches. *)
Fixpoint search (r : list item) (s : string) : option string :=
  match exec r EmptyString s with
  | Some cap => Some cap
  | None =>
      match s with
      | String _ s' => search r s'
      | EmptyString => None
      end
  end.

Definition literal (s : string) : list item :=
  map (fun c => One (Chr c)) (list_ascii_of_string s).

(** The pattern of [extractIframeContent], flag [i]: the text <iframe, any
    run of characters other than >, the text srcdoc=, a double or single
    quote, group 1 (any run of characters that are not quotes), a double or
    single quote, any run of characters other than >, and >. *)
Definition iframePattern : list item :=
  literal "<iframe" ++
  [Many (Cls true [">"%char])] ++
  literal "srcdoc=" ++
  [One (Cls false [QUOTE; "'"%char]);
   Capture (Cls true [QUOTE; "'"%char]);
   One (Cls false [QUOTE; "'"%char]);
   Many (Cls true [">"%char]);
   One (Chr ">")].

(** [text.match(iframePattern)]: [None] is [null], [Some cap] is a match
    array whose element 1 is [cap]. *)
Definition iframeMatch (text : string) : option string :=
  search iframePattern text.

(** ** [extractIframeContent] *)

Definition extractIframeContent (text : string) : string :=
  match iframeMatch text with
  | Some (String c rest) =>
      let content := String c rest in
      let content := replaceAll "&quot;" Q content in
      let content := replaceAll "&lt;" "<" content in
      let content := replaceAll "&gt;" ">" content in
      let content := replaceAll "&amp;" "&" content in
      let content := replaceAll "\n" NL content in
      content
  | _ => replaceAll "\n" NL text
  end.

(** ** Numbers

    A JavaScript Number is an IEEE 754 binary64 value: [spec_float] with
    precision 53 and maximal exponent 1024. *)

Definition number : Type := spec_float.

Local Open Scope Z_scope.

(** The Number nearest to [m * 10 ^ e] for [0 <= m], ties to even (the
    Number value of a decimal literal); [neg] is the sign of the literal. *)
Definition numberOfDecimal (neg : bool) (m e : Z) : number :=
  match m with
  | Zpos p =>
      if 0 <=? e
      then binary_round 53 1024 neg (Z.to_pos (Zpos p * 10 ^ e)) 0
      else
        let '(q, e', l) := SFdiv_core_binary 53 1024 (Zpos p) 0 (10 ^ (- e)) 0 in
        binary_round_aux 53 1024 neg q e' l
  | _ => S754_zero neg
  end.

Definition digitChar (d : Z) : ascii := ascii_of_nat (48 + Z.to_nat d).

Fixpoint decimalDigits (fuel : nat) (n : Z) (acc : string) : string :=
  match fuel with
  | O => acc
  | S fuel' =>
      let acc' := String (digitChar (n mod 10)) acc in
      if n <? 10 then acc' else decimalDigits fuel' (n / 10) acc'
  end.

(** The decimal numeral of [0 <= n]. *)
Definition decimalOfZ (n : Z) : string :=
  decimalDigits (S (Z.to_nat (Z.log2 n))) n EmptyString.

Fixpoint zeros (n : nat) : string :=
  match n with
  | O => EmptyString
  | S n' => String "0" (zeros n')
  end.

(** [num / den] scaled by [10 ^ p], as a fraction. *)
Definition scale10 (num den p : Z) : Z * Z :=
  if 0 <=? p then (num * 10 ^ p, den) else (num, den * 10 ^ (- p)).

(** The least [j] with [den <= num * 10 ^ (j + 1)], searched upwards. *)
Fixpoint leadingZeros (fuel : nat) (num den j : Z) : Z :=
  match fuel with
  | O => j
  | S fuel' =>
      if den <=? num * 10 ^ (j + 1) then j
      else leadingZeros fuel' num den (j + 1)
  end.

(** The [n] with [10 ^ (n - 1) <= num / den < 10 ^ n]. *)
Definition decimalExponent (num den : Z) : Z :=
  if den <=? num
  then Z.of_nat (String.length (decimalOfZ (num / den)))
  else - leadingZeros 400 num den 0.

Definition sameNumber (x : number) (m : positive) (e : Z) : bool :=
  match x with
  | S754_finite _ m' e' =>
      let lo := Z.min e e' in
      Zpos m * 2 ^ (e - lo) =? Zpos m' * 2 ^ (e' - lo)
  | _ => false
  end.

(** Number::toString, the choice of digits: the least [k], from [k] on, for
    which some [s] of [k] digits has [s * 10 ^ (n - k)] rounding to the
    number; of two such [s] the nearer, and of two equally near the even. *)
Fixpoint shortestDigits (fuel : nat) (m : positive) (e : Z) (num den n0 k : Z)
    : Z * Z :=
  let '(a, b) := scale10 num den (k - n0) in
  let lo := a / b in
  let r := a mod b in
  match fuel with
  | O => (lo, n0)
  | S fuel' =>
      let hi := if lo + 1 =? 10 ^ k then (10 ^ (k - 1), n0 + 1) else (lo + 1, n0) in
      let okLo := sameNumber (numberOfDecimal false lo (n0 - k)) m e in
      let okHi := sameNumber (numberOfDecimal false (fst hi) (snd hi - k)) m e in
      if r =? 0 then (lo, n0)
      else if okLo && okHi then
        match 2 * r ?= b with
        | Lt => (lo, n0)
        | Gt => hi
        | Eq => if Z.even lo then (lo, n0) else hi
        end
      else if okLo then (lo, n0)
      else if okHi then hi
      else shortestDigits fuel' m e num den n0 (k + 1)
  end.

(** Number::toString, the layout of the digits [s] with exponent [n]. *)
Definition layoutNumber (s n : Z) : string :=
  let digits := decimalOfZ s in
  let k := Z.of_nat (String.length digits) in
  if (k <=? n) && (n <=? 21) then
    digits ++ zeros (Z.to_nat (n - k))
  else if (0 <? n) && (n <=? 21) then
    substring 0 (Z.to_nat n) digits ++ "." ++
    substring (Z.to_nat n) (Z.to_nat (k - n)) digits
  else if (-6 <? n) && (n <=? 0) then
    "0." ++ zeros (Z.to_nat (- n)) ++ digits
  else
    let exponent :=
      "e" ++ (if 0 <=? n - 1 then "+" else "-") ++ decimalOfZ (Z.abs (n - 1)) in
    if k =? 1 then digits ++ exponent
    else substring 0 1 digits ++ "." ++
         substring 1 (Z.to_nat (k - 1)) digits ++ exponent.

(** Number::toString with radix 10. *)
Definition numberToString (x : number) : string :=
  match x with
  | S754_nan => "NaN"
  | S754_zero _ => "0"
  | S754_infinity neg => if neg then "-Infinity" else "Infinity"
  | S754_finite neg m e =>
      let num := if 0 <=? e then Zpos m * 2 ^ e else Zpos m in
      let den := if 0 <=? e then 1 else 2 ^ (- e) in
      let n0 := decimalExponent num den in
      let '(s, n) := shortestDigits 17 m e num den n0 1 in
      (if neg then "-" else EmptyString) ++ layoutNumber s n
  end.

Definition isFiniteNumber (x : number) : bool :=
  match x with
  | S754_zero _ | S754_finite _ _ _ => true
  | _ => false
  end.

Local Close Scope Z_scope.

(** ** Values

    The JavaScript values the component handles.  An object is the list of
    its own enumerable properties in enumeration order. *)

Inductive value : Type :=
| Undefined
| Null
| Bool (b : bool)
| Number (x : number)
| BigInt (z : Z)
| Str (s : string)
| Arr (items : list value)
| Obj (props : list (string * value)).

(** ToBoolean *)
Definition truthy (v : value) : bool :=
  match v with
  | Undefined | Null => false
  | Bool b => b
  | Number (S754_zero _) | Number S754_nan => false
  | Number _ => true
  | BigInt z => negb (Z.eqb z 0)
  | Str s => negb (String.eqb s EmptyString)
  | Arr _ | Obj _ => true
  end.

(** ** [JSON.stringify (value, null, 2)] *)

Definition hexDigit (n : nat) : ascii :=
  nth n (list_ascii_of_string "0123456789abcdef") "0"%char.

Definition hex2 (n : nat) : string :=
  String (hexDigit (n / 16)) (String (hexDigit (n mod 16)) EmptyString).

(** The escapes of QuoteJSONString: the quote, the backslash, the control
    characters, and an unpaired surrogate (bytes ED A0..BF 80..BF). *)
Fixpoint escapeJSON (s : string) : string :=
  match s with
  | EmptyString => EmptyString
  | String c s' =>
      let n := nat_of_ascii c in
      if Ascii.eqb c QUOTE then "\" ++ Q ++ escapeJSON s'
      else if Ascii.eqb c "\" then "\\" ++ escapeJSON s'
      else if (n =? 8)%nat then "\b" ++ escapeJSON s'
      else if (n =? 9)%nat then "\t" ++ escapeJSON s'
      else if (n =? 10)%nat then "\n" ++ escapeJSON s'
      else if (n =? 12)%nat then "\f" ++ escapeJSON s'
      else if (n =? 13)%nat then "\r" ++ escapeJSON s'
      else if (n <? 32)%nat then "\u00" ++ hex2 n ++ escapeJSON s'
      else
        match s' with
        | String c2 (String c3 s'') =>
            let n2 := nat_of_ascii c2 in
            let n3 := nat_of_ascii c3 in
            if (n =? 237)%nat && (160 <=? n2)%nat then
              let low := ((n2 - 128) * 64 + (n3 - 128))%nat in
              "\ud" ++ String (hexDigit (low / 256)) (hex2 (low mod 256))
                ++ escapeJSON s''
            else String c (escapeJSON s')
        | _ => String c (escapeJSON s')
        end
  end.

Definition quoteJSONString (s : string) : string := Q ++ escapeJSON s ++ Q.

Fixpoint join (sep : string) (parts : list string) : string :=
  match parts with
  | [] => EmptyString
  | [x] => x
  | x :: rest => x ++ sep ++ join sep rest
  end.

Definition gap : string := "  ".

(** SerializeJSONProperty of the standard at indentation [indent]: [None]
    is a thrown TypeError (a BigInt), [Some None] is [undefined] (nothing to
    serialize), [Some (Some s)] is the text.  The algorithm has no bound on
    the depth of the value or on the length of the text; an engine has, and
    throws a RangeError beyond it.  What is proved of a serialized text below
    is therefore proved of the text the call has returned. *)
Fixpoint serialize (indent : string) (v : value) : option (option string) :=
  match v with
  | Undefined => Some None
  | Null => Some (Some "null")
  | Bool true => Some (Some "true")
  | Bool false => Some (Some "false")
  | Number x => Some (Some (if isFiniteNumber x then numberToString x else "null"))
  | BigInt _ => None
  | Str s => Some (Some (quoteJSONString s))
  | Arr items =>
      let inner := indent ++ gap in
      let partial :=
        (fix elements (l : list value) : option (list string) :=
           match l with
           | [] => Some []
           | x :: l' =>
               match serialize inner x with
               | None => None
               | Some r =>
                   match elements l' with
                   | None => None
                   | Some rs =>
                       Some (match r with Some t => t | None => "null" end :: rs)
                   end
               end
           end) items in
      match partial with
      | None => None
      | Some [] => Some (Some "[]")
      | Some parts =>
          Some (Some ("[" ++ NL ++ inner ++ join ("," ++ NL ++ inner) parts
                        ++ NL ++ indent ++ "]"))
      end
  | Obj props =>
      let inner := indent ++ gap in
      let partial :=
        (fix members (l : list (string * value)) : option (list string) :=
           match l with
           | [] => Some []
           | (k, x) :: l' =>
               match serialize inner x with
               | None => None
               | Some r =>
                   match members l' with
                   | None => None
                   | Some rs =>
                       Some (match r with
                             | Some t => (quoteJSONString k ++ ": " ++ t) :: rs
                             | None => rs
                             end)
                   end
               end
           end) props in
      match partial with
      | None => None
      | Some [] => Some (Some "{}")
      | Some parts =>
          Some (Some ("{" ++ NL ++ inner ++ join ("," ++ NL ++ inner) parts
                        ++ NL ++ indent ++ "}"))
      end
  end.

Definition JSON_stringify (v : value) : option (option string) :=
  serialize EmptyString v.

(** ** [JSON.parse]

    A recursive-descent reader of the JSON grammar.  [None] is a thrown
    SyntaxError. *)

Definition isJsonWhitespace (c : ascii) : bool :=
  let n := nat_of_ascii c in
  (n =? 32)%nat || (n =? 9)%nat || (n =? 10)%nat || (n =? 13)%nat.

Fixpoint skipWhitespace (s : string) : string :=
  match s with
  | String c s' => if isJsonWhitespace c then skipWhitespace s' else s
  | EmptyString => s
  end.

(** [after pat s]: the text of [s] that follows [pat], when [s] starts with
    [pat]. *)
Fixpoint after (pat s : string) : option string :=
  match pat with
  | EmptyString => Some s
  | String a pat' =>
      match s with
      | String b s' => if Ascii.eqb a b then after pat' s' else None
      | EmptyString => None
      end
  end.

Definition digitValue (c : ascii) : option Z :=
  let n := nat_of_ascii c in
  if (48 <=? n)%nat && (n <=? 57)%nat then Some (Z.of_nat (n - 48)) else None.

Definition hexValue (c : ascii) : option Z :=
  let n := nat_of_ascii c in
  if (48 <=? n)%nat && (n <=? 57)%nat then Some (Z.of_nat (n - 48))
  else if (97 <=? n)%nat && (n <=? 102)%nat then Some (Z.of_nat (n - 87))
  else if (65 <=? n)%nat && (n <=? 70)%nat then Some (Z.of_nat (n - 55))
  else None.

(** The code unit written by the four hexadecimal digits of an escape. *)
Definition hex4 (a b c d : ascii) : option Z :=
  match hexValue a, hexValue b, hexValue c, hexValue d with
  | Some x, Some y, Some z, Some w => Some (((x * 16 + y) * 16 + z) * 16 + w)%Z
  | _, _, _, _ => None
  end.

Definition byte (n : Z) : string := String (ascii_of_N (Z.to_N n)) EmptyString.

(** The UTF-8 bytes of a code point (a surrogate takes the three-byte form). *)
Definition utf8 (cp : Z) : string :=
  (if cp <? 128 then byte cp
   else if cp <? 2048 then byte (192 + cp / 64) ++ byte (128 + cp mod 64)
   else if cp <? 65536 then
     byte (224 + cp / 4096) ++ byte (128 + (cp / 64) mod 64) ++ byte (128 + cp mod 64)
   else
     byte (240 + cp / 262144) ++ byte (128 + (cp / 4096) mod 64) ++
     byte (128 + (cp / 64) mod 64) ++ byte (128 + cp mod 64))%Z.

Definition isHighSurrogate (u : Z) : bool := ((55296 <=? u) && (u <=? 56319))%Z.
Definition isLowSurrogate (u : Z) : bool := ((56320 <=? u) && (u <=? 57343))%Z.

(** The characters of a string literal after its opening quote, up to the
    closing quote: the string denoted and the text that follows. *)
Fixpoint parseStringBody (s : string) : option (string * string) :=
  let continue (piece : string) (rest : string) :=
    match parseStringBody rest with
    | Some (t, rest') => Some (piece ++ t, rest')
    | None => None
    end in
  match s with
  | EmptyString => None
  | String c s' =>
      if Ascii.eqb c QUOTE then Some (EmptyString, s')
      else if Ascii.eqb c "\" then
        match s' with
        | String e s'' =>
            if Ascii.eqb e QUOTE then continue Q s''
            else if Ascii.eqb e "\" then continue "\" s''
            else if Ascii.eqb e "/" then continue "/" s''
            else if Ascii.eqb e "b" then continue (byte 8) s''
            else if Ascii.eqb e "f" then continue (byte 12) s''
            else if Ascii.eqb e "n" then continue (byte 10) s''
            else if Ascii.eqb e "r" then continue (byte 13) s''
            else if Ascii.eqb e "t" then continue (byte 9) s''
            else if Ascii.eqb e "u" then
              match s'' with
              | String h1 (String h2 (String h3 (String h4 s3))) =>
                  match hex4 h1 h2 h3 h4 with
                  | Some u =>
                      match s3 with
                      | String b (String v (String l1 (String l2 (String l3 (String l4 s4))))) =>
                          match hex4 l1 l2 l3 l4 with
                          | Some w =>
                              if Ascii.eqb b "\" && Ascii.eqb v "u"
                                 && isHighSurrogate u && isLowSurrogate w
                              then continue
                                     (utf8 (65536 + (u - 55296) * 1024 + (w - 56320))%Z) s4
                              else continue (utf8 u) s3
                          | None => continue (utf8 u) s3
                          end
                      | _ => continue (utf8 u) s3
                      end
                  | None => None
                  end
              | _ => None
              end
            else None
        | EmptyString => None
        end
      else if (nat_of_ascii c <? 32)%nat then None
      else continue (String c EmptyString) s'
  end.

(** A run of decimal digits: their value after [acc], their count, the rest. *)
Fixpoint takeDigits (s : string) (acc : Z) (count : Z) : Z * Z * string :=
  match s with
  | String c s' =>
      match digitValue c with
      | Some d => takeDigits s' (acc * 10 + d)%Z (count + 1)%Z
      | None => (acc, count, s)
      end
  | EmptyString => (acc, count, s)
  end.

(** A JSON number: sign, integer part without a leading zero, fraction,
    exponent. *)
Definition readSign (s : string) : bool * string :=
  match after "-" s with
  | Some r => (true, r)
  | None => (false, s)
  end.

Definition readInteger (s : string) : option (Z * string) :=
  match after "0" s with
  | Some r => Some (0%Z, r)
  | None =>
      let '(m, count, r) := takeDigits s 0%Z 0%Z in
      if (count =? 0)%Z then None else Some (m, r)
  end.

(** The digits after the point, read after the integer part [m]: the value
    of all the digits and the count of those after the point. *)
Definition readFraction (m : Z) (s : string) : option (Z * Z * string) :=
  match after "." s with
  | Some r =>
      let '(m', count, r') := takeDigits r m 0%Z in
      if (count =? 0)%Z then None else Some (m', count, r')
  | None => Some (m, 0%Z, s)
  end.

Definition readExponent (s : string) : option (Z * string) :=
  match s with
  | String c r =>
      if Ascii.eqb c "e" || Ascii.eqb c "E" then
        let '(negative, r1) :=
          match after "-" r, after "+" r with
          | Some r', _ => (true, r')
          | None, Some r' => (false, r')
          | None, None => (false, r)
          end in
        let '(e, count, r2) := takeDigits r1 0%Z 0%Z in
        if (count =? 0)%Z then None
        else Some ((if negative then - e else e)%Z, r2)
      else Some (0%Z, s)
  | EmptyString => Some (0%Z, s)
  end.

Definition parseNumber (s : string) : option (number * string) :=
  let '(neg, s1) := readSign s in
  match readInteger s1 with
  | None => None
  | Some (m, s2) =>
      match readFraction m s2 with
      | None => None
      | Some (m', scale, s3) =>
          match readExponent s3 with
          | None => None
          | Some (e, s4) => Some (numberOfDecimal neg m' (e - scale)%Z, s4)
          end
      end
  end.

(** An array index is a canonical numeral of at most 2^32 - 2. *)
Definition arrayIndex (k : string) : option Z :=
  if String.eqb k "0" then Some 0%Z
  else
    match after "0" k with
    | Some _ => None
    | None =>
        let '(n, count, rest) := takeDigits k 0%Z 0%Z in
        if (0 <? count)%Z && String.eqb rest EmptyString && (n <=? 4294967294)%Z
        then Some n else None
    end.

(** CreateDataProperty on an object under construction: an existing key
    keeps its place; a new array index goes among the indices, in ascending
    order, before the other keys; any other new key goes last. *)
Fixpoint setProperty (props : list (string * value)) (k : string) (v : value)
    : list (string * value) :=
  match props with
  | [] => [(k, v)]
  | (k', v') :: rest =>
      if String.eqb k' k then (k, v) :: rest
      else if existsb (fun p => String.eqb (fst p) k) rest
      then (k', v') :: setProperty rest k v
      else
        match arrayIndex k, arrayIndex k' with
        | Some i, Some i' =>
            if (i <? i')%Z then (k, v) :: props else (k', v') :: setProperty rest k v
        | Some _, None => (k, v) :: props
        | None, _ => (k', v') :: setProperty rest k v
        end
  end.

Fixpoint parseValue (fuel : nat) (s : string) : option (value * string) :=
  match fuel with
  | O => None
  | S fuel' =>
      match s with
      | EmptyString => None
      | String c rest =>
          if Ascii.eqb c "[" then
            match after "]" (skipWhitespace rest) with
            | Some r => Some (Arr [], r)
            | None => parseElements fuel' rest []
            end
          else if Ascii.eqb c "{" then
            match after "}" (skipWhitespace rest) with
            | Some r => Some (Obj [], r)
            | None => parseMembers fuel' rest []
            end
          else if Ascii.eqb c QUOTE then
            match parseStringBody rest with
            | Some (t, r) => Some (Str t, r)
            | None => None
            end
          else
            match after "null" s, after "true" s, after "false" s with
            | Some r, _, _ => Some (Null, r)
            | None, Some r, _ => Some (Bool true, r)
            | None, None, Some r => Some (Bool false, r)
            | None, None, None =>
                match parseNumber s with
                | Some (x, r) => Some (Number x, r)
                | None => None
                end
            end
      end
  end

(** The elements of an array after the opening bracket; [acc] holds the
    elements read so far, last first. *)
with parseElements (fuel : nat) (s : string) (acc : list value)
    : option (value * string) :=
  match fuel with
  | O => None
  | S fuel' =>
      match parseValue fuel' (skipWhitespace s) with
      | None => None
      | Some (v, r) =>
          match after "," (skipWhitespace r), after "]" (skipWhitespace r) with
          | Some r', _ => parseElements fuel' r' (v :: acc)
          | None, Some r' => Some (Arr (rev (v :: acc)), r')
          | None, None => None
          end
      end
  end

(** The members of an object after the opening brace. *)
with parseMembers (fuel : nat) (s : string) (acc : list (string * value))
    : option (value * string) :=
  match fuel with
  | O => None
  | S fuel' =>
      match after Q (skipWhitespace s) with
      | None => None
      | Some r0 =>
          match parseStringBody r0 with
          | None => None
          | Some (k, r1) =>
              match after ":" (skipWhitespace r1) with
              | None => None
              | Some r2 =>
                  match parseValue fuel' (skipWhitespace r2) with
                  | None => None
                  | Some (v, r3) =>
                      match after "," (skipWhitespace r3),
                            after "}" (skipWhitespace r3) with
                      | Some r4, _ => parseMembers fuel' r4 (setProperty acc k v)
                      | None, Some r4 => Some (Obj (setProperty acc k v), r4)
                      | None, None => None
                      end
                  end
              end
          end
      end
  end.

(** [JSON.parse text]: one value between optional whitespace. *)
Definition JSON_parse (text : string) : option value :=
  match parseValue (2 * String.length text + 2) (skipWhitespace text) with
  | Some (v, rest) =>
      match skipWhitespace rest with
      | EmptyString => Some v
      | _ => None
      end
  | None => None
  end.

(** ** [String.prototype.trim]

    White space and line terminators: TAB, LF, VT, FF, CR, SP, and in UTF-8
    U+00A0, U+1680, U+2000..U+200A, U+2028, U+2029, U+202F, U+205F, U+3000
    and U+FEFF. *)

Fixpoint trimStart (s : string) : string :=
  match s with
  | String a s1 =>
      let n := nat_of_ascii a in
      if ((9 <=? n) && (n <=? 13) || (n =? 32))%nat then trimStart s1
      else
        match s1 with
        | String b s2 =>
            let m := nat_of_ascii b in
            if ((n =? 194) && (m =? 160))%nat then trimStart s2
            else
              match s2 with
              | String c s3 =>
                  let l := nat_of_ascii c in
                  if ((n =? 225) && (m =? 154) && (l =? 128)
                      || (n =? 226) && (m =? 128)
                         && ((128 <=? l) && (l <=? 138) || (l =? 168) || (l =? 169)
                             || (l =? 175))
                      || (n =? 226) && (m =? 129) && (l =? 159)
                      || (n =? 227) && (m =? 128) && (l =? 128)
                      || (n =? 239) && (m =? 187) && (l =? 191))%nat
                  then trimStart s3
                  else s
              | EmptyString => s
              end
        | EmptyString => s
        end
  | EmptyString => s
  end.

Fixpoint trimEnd (s : string) : string :=
  match s with
  | String c s' =>
      match trimStart s with
      | EmptyString => EmptyString
      | _ => String c (trimEnd s')
      end
  | EmptyString => EmptyString
  end.

Definition trim (s : string) : string := trimEnd (trimStart s).

(** * The component

    ** The helpers at the top of [src/App.tsx] *)

(** [formatJson] over the [JSON.stringify] of the platform: [stringify value]
    is what the call returns, [None] when it throws, for whatever reason (a
    BigInt; an engine that runs out of stack on a deep value, or whose
    longest string is shorter than the text).  The result is a string or, as
    [JSON.stringify] gives for [undefined], [undefined] ([None]). *)
Definition formatJsonWith (stringify : value -> option (option string))
    (value : value) : option string :=
  match stringify value with
  | Some text => text
  | None =>
      match value with
      | Str s => Some s
      | _ => Some EmptyString
      end
  end.

(** [formatJson] with the serialization of the standard. *)
Definition formatJson (value : value) : option string :=
  formatJsonWith JSON_stringify value.

Definition parseJsonSafely (text : string) : value :=
  match JSON_parse text with
  | Some parsed => parsed
  | None => Null
  end.

(** ** Types and state of [App] *)

Inductive RubricSource : Type := generada | importada | preestablecida.

Record WebhookError : Type := {
  message : string;
  details : option string
}.

(** What a [throw] or a rejected promise carries: the object literal that
    [sendWebhookRequest] throws, or an [Error] object with its message. *)
Inductive thrown : Type :=
| ThrownObject (e : WebhookError)
| ThrownError (errorMessage : string).

(** How a promise settles. *)
Inductive settled (A : Type) : Type :=
| Fulfilled (a : A)
| Rejected (reason : thrown).

Arguments Fulfilled {A} a.
Arguments Rejected {A} reason.

(** A [File]; [fileText] is what the promise of [file.text()] settles to. *)
Record File : Type := {
  fileName : string;
  fileType : string;
  fileText : settled string
}.

(** An entry of a [FormData]: a file, a blob with its type and file name, or
    a text field. *)
Inductive FormEntry : Type :=
| FormFile (file : File)
| FormBlob (content : string) (type : string) (filename : string)
| FormText (text : string).

Definition FormData : Type := list (string * FormEntry).

(** The arguments of a call of [fetch]. *)
Record Request : Type := {
  requestUrl : string;
  requestMethod : string;
  requestBody : FormData
}.

(** A [Response] together with the text its body is read to. *)
Record Response : Type := {
  status : N;
  statusText : string;
  responseBody : string
}.

(** [response.ok]: the status is in the range 200 to 299. *)
Definition ok (response : Response) : bool :=
  ((200 <=? status response) && (status response <=? 299))%N.

(** What a request comes to: [fetch] or the reading of the body rejects, or
    a response is received and read. *)
Inductive reply : Type :=
| NetworkFailure (reason : thrown)
| Responded (response : Response).

(** The three [import.meta.env] values, with [?? ''] applied. *)
Record Env : Type := {
  rubricWebhookUrl : string;
  gradingWebhookUrl : string;
  spreadsheetWebhookUrl : string
}.

Record State : Type := {
  selectedUniversity : string;
  selectedCourse : string;
  selectedPresetRubricId : string;
  rubricPdf : option File;
  rubricJson : string;
  rubricSource : option RubricSource;
  submissionFile : option File;
  isGeneratingRubric : bool;
  isGrading : bool;
  gradingResponse : value;
  rubricError : option WebhookError;
  gradingError : option WebhookError;
  spreadsheetUrl : string;
  spreadsheetSheetName : string;
  spreadsheetStudentName : string;
  spreadsheetGrade : string;
  spreadsheetSummaryByCriteria : string;
  spreadsheetStrengths : string;
  spreadsheetRecommendations : string;
  isUploadingSpreadsheet : bool;
  spreadsheetResponse : value;
  spreadsheetError : option WebhookError
}.

(** The initial values of the [useState] calls. *)
Definition initialState : State :=
  {| selectedUniversity := EmptyString; selectedCourse := EmptyString;
     selectedPresetRubricId := EmptyString;
     rubricPdf := None; rubricJson := EmptyString; rubricSource := None;
     submissionFile := None;
     isGeneratingRubric := false; isGrading := false; gradingResponse := Null;
     rubricError := None; gradingError := None;
     spreadsheetUrl := EmptyString; spreadsheetSheetName := EmptyString;
     spreadsheetStudentName := EmptyString; spreadsheetGrade := EmptyString;
     spreadsheetSummaryByCriteria := EmptyString; spreadsheetStrengths := EmptyString;
     spreadsheetRecommendations := EmptyString;
     isUploadingSpreadsheet := false; spreadsheetResponse := Null;
     spreadsheetError := None |}.

(** The state after a [useState] setter has been applied. *)
Definition withRubricJson (x : string) (s : State) : State :=
  {| selectedUniversity := selectedUniversity s;
     selectedCourse := selectedCourse s;
     selectedPresetRubricId := selectedPresetRubricId s;
     rubricPdf := rubricPdf s;
     rubricJson := x;
     rubricSource := rubricSource s;
     submissionFile := submissionFile s;
     isGeneratingRubric := isGeneratingRubric s;
     isGrading := isGrading s;
     gradingResponse := gradingResponse s;
     rubricError := rubricError s;
     gradingError := gradingError s;
     spreadsheetUrl := spreadsheetUrl s;
     spreadsheetSheetName := spreadsheetSheetName s;
     spreadsheetStudentName := spreadsheetStudentName s;
     spreadsheetGrade := spreadsheetGrade s;
     spreadsheetSummaryByCriteria := spreadsheetSummaryByCriteria s;
     spreadsheetStrengths := spreadsheetStrengths s;
     spreadsheetRecommendations := spreadsheetRecommendations s;
     isUploadingSpreadsheet := isUploadingSpreadsheet s;
     spreadsheetResponse := spreadsheetResponse s;
     spreadsheetError := spreadsheetError s |}.

Definition withRubricSource (x : option RubricSource) (s : State) : State :=
  {| selectedUniversity := selectedUniversity s;
     selectedCourse := selectedCourse s;
     selectedPresetRubricId := selectedPresetRubricId s;
     rubricPdf := rubricPdf s;
     rubricJson := rubricJson s;
     rubricSource := x;
     submissionFile := submissionFile s;
     isGeneratingRubric := isGeneratingRubric s;
     isGrading := isGrading s;
     gradingResponse := gradingResponse s;
     rubricError := rubricError s;
     gradingError := gradingError s;
     spreadsheetUrl := spreadsheetUrl s;
     spreadsheetSheetName := spreadsheetSheetName s;
     spreadsheetStudentName := spreadsheetStudentName s;
     spreadsheetGrade := spreadsheetGrade s;
     spreadsheetSummaryByCriteria := spreadsheetSummaryByCriteria s;
     spreadsheetStrengths := spreadsheetStrengths s;
     spreadsheetRecommendations := spreadsheetRecommendations s;
     isUploadingSpreadsheet := isUploadingSpreadsheet s;
     spreadsheetResponse := spreadsheetResponse s;
     spreadsheetError := spreadsheetError s |}.

Definition withIsGeneratingRubric (x : bool) (s : State) : State :=
  {| selectedUniversity := selectedUniversity s;
     selectedCourse := selectedCourse s;
     selectedPresetRubricId := selectedPresetRubricId s;
     rubricPdf := rubricPdf s;
     rubricJson := rubricJson s;
     rubricSource := rubricSource s;
     submissionFile := submissionFile s;
     isGeneratingRubric := x;
     isGrading := isGrading s;
     gradingResponse := gradingResponse s;
     rubricError := rubricError s;
     gradingError := gradingError s;
     spreadsheetUrl := spreadsheetUrl s;
     spreadsheetSheetName := spreadsheetSheetName s;
     spreadsheetStudentName := spreadsheetStudentName s;
     spreadsheetGrade := spreadsheetGrade s;
     spreadsheetSummaryByCriteria := spreadsheetSummaryByCriteria s;
     spreadsheetStrengths := spreadsheetStrengths s;
     spreadsheetRecommendations := spreadsheetRecommendations s;
     isUploadingSpreadsheet := isUploadingSpreadsheet s;
     spreadsheetResponse := spreadsheetResponse s;
     spreadsheetError := spreadsheetError s |}.

Definition withIsGrading (x : bool) (s : State) : State :=
  {| selectedUniversity := selectedUniversity s;
     selectedCourse := selectedCourse s;
     selectedPresetRubricId := selectedPresetRubricId s;
     rubricPdf := rubricPdf s;
     rubricJson := rubricJson s;
     rubricSource := rubricSource s;
     submissionFile := submissionFile s;
     isGeneratingRubric := isGeneratingRubric s;
     isGrading := x;
     gradingResponse := gradingResponse s;
     rubricError := rubricError s;
     gradingError := gradingError s;
     spreadsheetUrl := spreadsheetUrl s;
     spreadsheetSheetName := spreadsheetSheetName s;
     spreadsheetStudentName := spreadsheetStudentName s;
     spreadsheetGrade := spreadsheetGrade s;
     spreadsheetSummaryByCriteria := spreadsheetSummaryByCriteria s;
     spreadsheetStrengths := spreadsheetStrengths s;
     spreadsheetRecommendations := spreadsheetRecommendations s;
     isUploadingSpreadsheet := isUploadingSpreadsheet s;
     spreadsheetResponse := spreadsheetResponse s;
     spreadsheetError := spreadsheetError s |}.

Definition withGradingResponse (x : value) (s : State) : State :=
  {| selectedUniversity := selectedUniversity s;
     selectedCourse := selectedCourse s;
     selectedPresetRubricId := selectedPresetRubricId s;
     rubricPdf := rubricPdf s;
     rubricJson := rubricJson s;
     rubricSource := rubricSource s;
     submissionFile := submissionFile s;
     isGeneratingRubric := isGeneratingRubric s;
     isGrading := isGrading s;
     gradingResponse := x;
     rubricError := rubricError s;
     gradingError := gradingError s;
     spreadsheetUrl := spreadsheetUrl s;
     spreadsheetSheetName := spreadsheetSheetName s;
     spreadsheetStudentName := spreadsheetStudentName s;
     spreadsheetGrade := spreadsheetGrade s;
     spreadsheetSummaryByCriteria := spreadsheetSummaryByCriteria s;
     spreadsheetStrengths := spreadsheetStrengths s;
     spreadsheetRecommendations := spreadsheetRecommendations s;
     isUploadingSpreadsheet := isUploadingSpreadsheet s;
     spreadsheetResponse := spreadsheetResponse s;
     spreadsheetError := spreadsheetError s |}.

Definition withRubricError (x : option WebhookError) (s : State) : State :=
  {| selectedUniversity := selectedUniversity s;
     selectedCourse := selectedCourse s;
     selectedPresetRubricId := selectedPresetRubricId s;
     rubricPdf := rubricPdf s;
     rubricJson := rubricJson s;
     rubricSource := rubricSource s;
     submissionFile := submissionFile s;
     isGeneratingRubric := isGeneratingRubric s;
     isGrading := isGrading s;
     gradingResponse := gradingResponse s;
     rubricError := x;
     gradingError := gradingError s;
     spreadsheetUrl := spreadsheetUrl s;
     spreadsheetSheetName := spreadsheetSheetName s;
     spreadsheetStudentName := spreadsheetStudentName s;
     spreadsheetGrade := spreadsheetGrade s;
     spreadsheetSummaryByCriteria := spreadsheetSummaryByCriteria s;
     spreadsheetStrengths := spreadsheetStrengths s;
     spreadsheetRecommendations := spreadsheetRecommendations s;
     isUploadingSpreadsheet := isUploadingSpreadsheet s;
     spreadsheetResponse := spreadsheetResponse s;
     spreadsheetError := spreadsheetError s |}.

Definition withGradingError (x : option WebhookError) (s : State) : State :=
  {| selectedUniversity := selectedUniversity s;
     selectedCourse := selectedCourse s;
     selectedPresetRubricId := selectedPresetRubricId s;
     rubricPdf := rubricPdf s;
     rubricJson := rubricJson s;
     rubricSource := rubricSource s;
     submissionFile := submissionFile s;
     isGeneratingRubric := isGeneratingRubric s;
     isGrading := isGrading s;
     gradingResponse := gradingResponse s;
     rubricError := rubricError s;
     gradingError := x;
     spreadsheetUrl := spreadsheetUrl s;
     spreadsheetSheetName := spreadsheetSheetName s;
     spreadsheetStudentName := spreadsheetStudentName s;
     spreadsheetGrade := spreadsheetGrade s;
     spreadsheetSummaryByCriteria := spreadsheetSummaryByCriteria s;
     spreadsheetStrengths := spreadsheetStrengths s;
     spreadsheetRecommendations := spreadsheetRecommendations s;
     isUploadingSpreadsheet := isUploadingSpreadsheet s;
     spreadsheetResponse := spreadsheetResponse s;
     spreadsheetError := spreadsheetError s |}.

Definition withIsUploadingSpreadsheet (x : bool) (s : State) : State :=
  {| selectedUniversity := selectedUniversity s;
     selectedCourse := selectedCourse s;
     selectedPresetRubricId := selectedPresetRubricId s;
     rubricPdf := rubricPdf s;
     rubricJson := rubricJson s;
     rubricSource := rubricSource s;
     submissionFile := submissionFile s;
     isGeneratingRubric := isGeneratingRubric s;
     isGrading := isGrading s;
     gradingResponse := gradingResponse s;
     rubricError := rubricError s;
     gradingError := gradingError s;
     spreadsheetUrl := spreadsheetUrl s;
     spreadsheetSheetName := spreadsheetSheetName s;
     spreadsheetStudentName := spreadsheetStudentName s;
     spreadsheetGrade := spreadsheetGrade s;
     spreadsheetSummaryByCriteria := spreadsheetSummaryByCriteria s;
     spreadsheetStrengths := spreadsheetStrengths s;
     spreadsheetRecommendations := spreadsheetRecommendations s;
     isUploadingSpreadsheet := x;
     spreadsheetResponse := spreadsheetResponse s;
     spreadsheetError := spreadsheetError s |}.

Definition withSpreadsheetResponse (x : value) (s : State) : State :=
  {| selectedUniversity := selectedUniversity s;
     selectedCourse := selectedCourse s;
     selectedPresetRubricId := selectedPresetRubricId s;
     rubricPdf := rubricPdf s;
     rubricJson := rubricJson s;
     rubricSource := rubricSource s;
     submissionFile := submissionFile s;
     isGeneratingRubric := isGeneratingRubric s;
     isGrading := isGrading s;
     gradingResponse := gradingResponse s;
     rubricError := rubricError s;
     gradingError := gradingError s;
     spreadsheetUrl := spreadsheetUrl s;
     spreadsheetSheetName := spreadsheetSheetName s;
     spreadsheetStudentName := spreadsheetStudentName s;
     spreadsheetGrade := spreadsheetGrade s;
     spreadsheetSummaryByCriteria := spreadsheetSummaryByCriteria s;
     spreadsheetStrengths := spreadsheetStrengths s;
     spreadsheetRecommendations := spreadsheetRecommendations s;
     isUploadingSpreadsheet := isUploadingSpreadsheet s;
     spreadsheetResponse := x;
     spreadsheetError := spreadsheetError s |}.

Definition withSpreadsheetError (x : option WebhookError) (s : State) : State :=
  {| selectedUniversity := selectedUniversity s;
     selectedCourse := selectedCourse s;
     selectedPresetRubricId := selectedPresetRubricId s;
     rubricPdf := rubricPdf s;
     rubricJson := rubricJson s;
     rubricSource := rubricSource s;
     submissionFile := submissionFile s;
     isGeneratingRubric := isGeneratingRubric s;
     isGrading := isGrading s;
     gradingResponse := gradingResponse s;
     rubricError := rubricError s;
     gradingError := gradingError s;
     spreadsheetUrl := spreadsheetUrl s;
     spreadsheetSheetName := spreadsheetSheetName s;
     spreadsheetStudentName := spreadsheetStudentName s;
     spreadsheetGrade := spreadsheetGrade s;
     spreadsheetSummaryByCriteria := spreadsheetSummaryByCriteria s;
     spreadsheetStrengths := spreadsheetStrengths s;
     spreadsheetRecommendations := spreadsheetRecommendations s;
     isUploadingSpreadsheet := isUploadingSpreadsheet s;
     spreadsheetResponse := spreadsheetResponse s;
     spreadsheetError := x |}.

(** [const hasRubric = rubricJson.trim().length > 0] *)
Definition hasRubric (s : State) : bool :=
  (0 <? String.length (trim (rubricJson s)))%nat.

(** ** Asynchronous code

    An [io A] is the run of an [async] function: it returns, throws, applies
    a state setter, or awaits a request or the text of a file.  A handler
    reads the state of the render it was created in and its setters act on
    the state current when they are called. *)

Inductive io (A : Type) : Type :=
| Ret (a : A)
| Raise (e : thrown)
| Update (f : State -> State) (k : io A)
| Fetch (request : Request) (k : reply -> io A)
| ReadText (file : File) (k : settled string -> io A).

Arguments Ret {A} a.
Arguments Raise {A} e.
Arguments Update {A} f k.
Arguments Fetch {A} request k.
Arguments ReadText {A} file k.

Fixpoint bind {A B : Type} (m : io A) (f : A -> io B) : io B :=
  match m with
  | Ret a => f a
  | Raise e => Raise e
  | Update g k => Update g (bind k f)
  | Fetch request k => Fetch request (fun r => bind (k r) f)
  | ReadText file k => ReadText file (fun r => bind (k r) f)
  end.

(** [try { m } catch (error) { handler error }] *)
Fixpoint tryCatch {A : Type} (m : io A) (handler : thrown -> io A) : io A :=
  match m with
  | Ret a => Ret a
  | Raise e => handler e
  | Update g k => Update g (tryCatch k handler)
  | Fetch request k => Fetch request (fun r => tryCatch (k r) handler)
  | ReadText file k => ReadText file (fun r => tryCatch (k r) handler)
  end.

(** [try { m } finally { final }] *)
Fixpoint tryFinally {A : Type} (m : io A) (final : io unit) : io A :=
  match m with
  | Ret a => bind final (fun _ => Ret a)
  | Raise e => bind final (fun _ => Raise e)
  | Update g k => Update g (tryFinally k final)
  | Fetch request k => Fetch request (fun r => tryFinally (k r) final)
  | ReadText file k => ReadText file (fun r => tryFinally (k r) final)
  end.

Definition set (f : State -> State) : io unit := Update f (Ret tt).

Declare Scope io_scope.
Delimit Scope io_scope with io.
Notation "x <- m ;; k" := (bind m (fun x => k))
  (at level 61, m at next level, right associativity) : io_scope.
Notation "m ;; k" := (bind m (fun _ => k))
  (at level 61, right associativity) : io_scope.
Local Open Scope io_scope.

(** ** [sendWebhookRequest]

    [webhookResult] is the part after the two [await]s: what the function
    returns or throws once the response and its text are there. *)

Definition webhookResult (r : reply) : settled value :=
  match r with
  | NetworkFailure reason => Rejected reason
  | Responded response =>
      let responseText := responseBody response in
      if negb (ok response) then
        let parsed := parseJsonSafely responseText in
        let details :=
          if truthy parsed then formatJson parsed else Some responseText in
        Rejected (ThrownObject
          {| message :=
               "Error " ++ decimalOfZ (Z.of_N (status response)) ++ ": " ++
               (if String.eqb (statusText response) EmptyString
                then "al invocar el webhook"
                else statusText response);
             details := details |})
      else
        let parsed := parseJsonSafely responseText in
        Fulfilled (match parsed with
                   | Null | Undefined => Str responseText
                   | _ => parsed
                   end)
  end.

Definition settle {A : Type} (r : settled A) : io A :=
  match r with
  | Fulfilled a => Ret a
  | Rejected e => Raise e
  end.

Definition webhookRequest (url : string) (body : FormData) : Request :=
  {| requestUrl := url; requestMethod := "POST"; requestBody := body |}.

Definition sendWebhookRequest (url : string) (body : FormData) : io value :=
  Fetch (webhookRequest url body) (fun r => settle (webhookResult r)).

(** ** The handlers *)

(** [typeof result === 'string' ? extractIframeContent(result) : result] *)
Definition processResult (result : value) : value :=
  match result with
  | Str text => Str (extractIframeContent text)
  | _ => result
  end.

(** A [string | undefined] stored where a string is expected.  A value read
    by [JSON.parse] never serializes to [undefined], so the handlers never
    reach the second case. *)
Definition stored (text : option string) : string :=
  match text with
  | Some t => t
  | None => EmptyString
  end.

(** [typeof processedResult === 'string' ? processedResult
    : formatJson(processedResult)] *)
Definition printable (processedResult : value) : string :=
  match processedResult with
  | Str text => text
  | _ => stored (formatJson processedResult)
  end.

(** [error as WebhookError]: the fields read from what was caught. *)
Definition asWebhookError (error : thrown) : WebhookError :=
  match error with
  | ThrownObject e => e
  | ThrownError m => {| message := m; details := None |}
  end.

Definition validation (text : string) : option WebhookError :=
  Some {| message := text; details := None |}.

Definition handleRubricImport (file : option File) (s : State) : io unit :=
  match file with
  | None => Ret tt
  | Some file =>
      tryCatch
        (ReadText file (fun r =>
           match r with
           | Rejected reason => Raise reason
           | Fulfilled text =>
               let parsed := parseJsonSafely text in
               if negb (truthy parsed) then
                 Raise (ThrownError "El archivo no contiene un JSON válido.")
               else
                 match JSON_stringify parsed with
                 | None => Raise (ThrownError "Do not know how to serialize a BigInt")
                 | Some pretty =>
                     set (withRubricJson (stored pretty)) ;;
                     set (withRubricSource (Some importada)) ;;
                     set (withRubricError None)
                 end
           end))
        (fun error =>
           set (withRubricError
                  (Some {| message :=
                             match error with
                             | ThrownError m => m
                             | _ => "No se pudo leer la rúbrica JSON."
                             end;
                           details := None |})))
  end.

Definition handleGenerateRubric (env : Env) (s : State) : io unit :=
  match rubricPdf s with
  | None =>
      set (withRubricError
             (validation "Selecciona un archivo PDF antes de generar la rúbrica."))
  | Some pdf =>
      if String.eqb (rubricWebhookUrl env) EmptyString then
        set (withRubricError
               (validation
                  "Configura la variable VITE_RUBRIC_WEBHOOK_URL en tu archivo .env."))
      else
        set (withIsGeneratingRubric true) ;;
        set (withRubricError None) ;;
        tryFinally
          (tryCatch
             (let formData := [("pdf", FormFile pdf)] in
              result <- sendWebhookRequest (rubricWebhookUrl env) formData ;;
              let processedResult := processResult result in
              set (withRubricJson (printable processedResult)) ;;
              set (withRubricSource (Some generada)))
             (fun error => set (withRubricError (Some (asWebhookError error)))))
          (set (withIsGeneratingRubric false))
  end.

Definition handleGradeSubmission (env : Env) (s : State) : io unit :=
  if negb (hasRubric s) then
    set (withGradingError
           (validation
              "Necesitas generar o importar una rúbrica JSON antes de corregir."))
  else
    match submissionFile s with
    | None =>
        set (withGradingError (validation "Selecciona un archivo para corregir."))
    | Some submission =>
        if String.eqb (gradingWebhookUrl env) EmptyString then
          set (withGradingError
                 (validation
                    "Configura la variable VITE_GRADING_WEBHOOK_URL en tu archivo .env."))
        else
          set (withIsGrading true) ;;
          set (withGradingError None) ;;
          set (withGradingResponse Null) ;;
          tryFinally
            (tryCatch
               (let rubricBlob :=
                  FormBlob (rubricJson s) "application/json" "rubrica.json" in
                let formData :=
                  [("rubric", rubricBlob); ("submission", FormFile submission)] in
                result <- sendWebhookRequest (gradingWebhookUrl env) formData ;;
                let processedResult := processResult result in
                set (withGradingResponse processedResult))
               (fun error => set (withGradingError (Some (asWebhookError error)))))
            (set (withIsGrading false))
    end.

Definition handleUploadToSpreadsheet (env : Env) (s : State) : io unit :=
  if String.eqb (spreadsheetWebhookUrl env) EmptyString then
    set (withSpreadsheetError
           (validation
              "Configura la variable VITE_SPREADSHEET_WEBHOOK_URL en tu archivo .env."))
  else if String.eqb (trim (spreadsheetUrl s)) EmptyString
          || String.eqb (trim (spreadsheetSheetName s)) EmptyString
          || String.eqb (trim (spreadsheetStudentName s)) EmptyString then
    set (withSpreadsheetError
           (validation
              "Completa la URL de la planilla, el nombre de la hoja y el nombre del alumno antes de enviar."))
  else
    set (withIsUploadingSpreadsheet true) ;;
    set (withSpreadsheetError None) ;;
    set (withSpreadsheetResponse Null) ;;
    tryFinally
      (tryCatch
         (let formData :=
            [("spreadsheet_url", FormText (spreadsheetUrl s));
             ("sheet_name", FormText (spreadsheetSheetName s));
             ("alumno", FormText (spreadsheetStudentName s));
             ("nota", FormText (spreadsheetGrade s));
             ("resumen_por_criterios", FormText (spreadsheetSummaryByCriteria s));
             ("fortalezas", FormText (spreadsheetStrengths s));
             ("recomendaciones", FormText (spreadsheetRecommendations s))] in
          result <- sendWebhookRequest (spreadsheetWebhookUrl env) formData ;;
          let processedResult := processResult result in
          set (withSpreadsheetResponse processedResult))
         (fun error => set (withSpreadsheetError (Some (asWebhookError error)))))
      (set (withIsUploadingSpreadsheet false)).

(** The [disabled] attributes of the three buttons. *)
Definition generateDisabled (s : State) : bool := isGeneratingRubric s.
Definition gradeDisabled (s : State) : bool := isGrading s.
Definition uploadDisabled (s : State) : bool := isUploadingSpreadsheet s.

(** ** Running a handler

    The network answers each request; the setters called before the handler
    first suspends, and those called between two suspensions, are committed
    together.  A run yields the state committed at each suspension, paired
    with what is awaited there, the state at the end, and how the handler
    completed. *)

Inductive awaited : Type :=
| AwaitFetch (request : Request)
| AwaitText (file : File).

Fixpoint run {A : Type} (network : Request -> reply) (m : io A) (s : State)
    : list (State * awaited) * State * settled A :=
  match m with
  | Ret a => ([], s, Fulfilled a)
  | Raise e => ([], s, Rejected e)
  | Update f k => run network k (f s)
  | Fetch request k =>
      let '(frames, s', r) := run network (k (network request)) s in
      ((s, AwaitFetch request) :: frames, s', r)
  | ReadText file k =>
      let '(frames, s', r) := run network (k (fileText file)) s in
      ((s, AwaitText file) :: frames, s', r)
  end.

Definition suspensions {A : Type} (r : list (State * awaited) * State * settled A) :=
  fst (fst r).
Definition finalState {A : Type} (r : list (State * awaited) * State * settled A) :=
  snd (fst r).
Definition completion {A : Type} (r : list (State * awaited) * State * settled A) :=
  snd r.

(** The requests issued during a run. *)
Fixpoint requests (frames : list (State * awaited)) : list Request :=
  match frames with
  | [] => []
  | (_, AwaitFetch request) :: rest => request :: requests rest
  | (_, AwaitText _) :: rest => requests rest
  end.

(** ** Notions used by the statements *)

Fixpoint allChars (p : ascii -> bool) (s : string) : bool :=
  match s with
  | String c s' => p c && allChars p s'
  | EmptyString => true
  end.

(** The language of a pattern: [matches r cap s cap' rest] when [r] matches
    the part of [s] before [rest], with [cap'] the text of group 1. *)
Inductive matches : list item -> string -> string -> string -> string -> Prop :=
| matches_end cap s : matches [] cap s cap s
| matches_one a r c s cap cap' rest :
    test a c = true ->
    matches r cap s cap' rest ->
    matches (One a :: r) cap (String c s) cap' rest
| matches_many a r taken s cap cap' rest :
    allChars (test a) taken = true ->
    matches r cap s cap' rest ->
    matches (Many a :: r) cap (taken ++ s) cap' rest
| matches_capture a r taken s cap cap' rest :
    allChars (test a) taken = true ->
    matches r taken s cap' rest ->
    matches (Capture a :: r) cap (taken ++ s) cap' rest.

(** The pattern matches somewhere in [text]. *)
Definition occursIn (r : list item) (text : string) : Prop :=
  exists before from cap rest,
    text = before ++ from /\ matches r EmptyString from cap rest.

(** [s.includes(sub)] *)
Fixpoint includes (sub s : string) : bool :=
  startsWith sub s ||
  match s with
  | String _ s' => includes sub s'
  | EmptyString => false
  end.

(** [lineBreaksConverted s t]: [t] is [s] with every two-character sequence
    backslash, n turned into a line feed, read from the left, and every
    other character kept. *)
Inductive lineBreaksConverted : string -> string -> Prop :=
| converted_end : lineBreaksConverted EmptyString EmptyString
| converted_escape s t :
    lineBreaksConverted s t ->
    lineBreaksConverted (String "\" (String "n" s)) (String LF t)
| converted_other c s t :
    startsWith "\n" (String c s) = false ->
    lineBreaksConverted s t ->
    lineBreaksConverted (String c s) (String c t).

(** [replaced pat rep s t]: [t] is [s] with every occurrence of the text
    [pat], found reading from the left, turned into [rep], and every other
    character kept. *)
Inductive replaced (pat rep : string) : string -> string -> Prop :=
| replaced_end : replaced pat rep EmptyString EmptyString
| replaced_match s t :
    replaced pat rep s t ->
    replaced pat rep (pat ++ s) (rep ++ t)
| replaced_other c s t :
    startsWith pat (String c s) = false ->
    replaced pat rep s t ->
    replaced pat rep (String c s) (String c t).

(** [decodedInOrder captured result]: [result] is [captured] after the four
    entities have been decoded one after the other, quot, lt, gt and amp,
    and the sequences backslash, n have then been turned into line feeds. *)
Definition decodedInOrder (captured result : string) : Prop :=
  exists a b c d,
    replaced "&quot;" Q captured a
    /\ replaced "&lt;" "<" a b
    /\ replaced "&gt;" ">" b c
    /\ replaced "&amp;" "&" c d
    /\ replaced "\n" NL d result.

(** A value that [JSON.parse] can produce: no [undefined] and no BigInt in
    it. *)
Fixpoint isJson (v : value) : bool :=
  match v with
  | Undefined | BigInt _ => false
  | Null | Bool _ | Number _ | Str _ => true
  | Arr items => forallb isJson items
  | Obj props => forallb (fun p => isJson (snd p)) props
  end.

(** The Number 1. *)
Definition one : number := numberOfDecimal false 1 0.

(** The fields of the state a workflow action owns: its busy flag, its
    result and its error. *)
Definition gradeSlots (s : State) : bool * value * option WebhookError :=
  (isGrading s, gradingResponse s, gradingError s).
Definition uploadSlots (s : State) : bool * value * option WebhookError :=
  (isUploadingSpreadsheet s, spreadsheetResponse s, spreadsheetError s).
Definition generateSlots (s : State)
    : bool * (string * option RubricSource) * option WebhookError :=
  (isGeneratingRubric s, (rubricJson s, rubricSource s), rubricError s).

Definition examplePdf : File :=
  {| fileName := "parcial.pdf"; fileType := "application/pdf";
     fileText := Fulfilled "%PDF-1.4" |}.

Definition exampleEnv : Env :=
  {| rubricWebhookUrl := "https://n8n.example/webhook/rubric";
     gradingWebhookUrl := "https://n8n.example/webhook/grading";
     spreadsheetWebhookUrl := "https://n8n.example/webhook/sheet" |}.

Definition exampleSubmission : File :=
  {| fileName := "tp1.py"; fileType := "text/x-python";
     fileText := Fulfilled "print(1)" |}.

(** The initial state after a rubric text, a PDF and a submission have been
    chosen. *)
Definition stateWith (rubric : string) (pdf submission : option File) : State :=
  {| selectedUniversity := EmptyString; selectedCourse := EmptyString;
     selectedPresetRubricId := EmptyString;
     rubricPdf := pdf; rubricJson := rubric; rubricSource := None;
     submissionFile := submission;
     isGeneratingRubric := false; isGrading := false; gradingResponse := Null;
     rubricError := None; gradingError := None;
     spreadsheetUrl := EmptyString; spreadsheetSheetName := EmptyString;
     spreadsheetStudentName := EmptyString; spreadsheetGrade := EmptyString;
     spreadsheetSummaryByCriteria := EmptyString; spreadsheetStrengths := EmptyString;
     spreadsheetRecommendations := EmptyString;
     isUploadingSpreadsheet := false; spreadsheetResponse := Null;
     spreadsheetError := None |}.

Definition respond (code : N) (text body : string) (_ : Request) : reply :=
  Responded {| status := code; statusText := text; responseBody := body |}.

(** * Further notions

    ** Reading the replacements of [extractIframeContent] as one pass *)

(** One pass over the text, from the left: at each place the first of the
    four entities, or the sequence backslash, n, that starts there is
    replaced and the scan goes on after it. *)
Fixpoint unescapeFrom (skip : nat) (s : string) : string :=
  match s with
  | EmptyString => EmptyString
  | String c s' =>
      match skip with
      | S k => unescapeFrom k s'
      | O =>
          if startsWith "&quot;" s then Q ++ unescapeFrom 5 s'
          else if startsWith "&lt;" s then "<" ++ unescapeFrom 3 s'
          else if startsWith "&gt;" s then ">" ++ unescapeFrom 3 s'
          else if startsWith "&amp;" s then "&" ++ unescapeFrom 4 s'
          else if startsWith "\n" s then NL ++ unescapeFrom 1 s'
          else String c (unescapeFrom 0 s')
      end
  end.

Definition unescapeOnce (s : string) : string := unescapeFrom 0 s.

(** Equality of two texts up to the case of their letters. *)
Fixpoint equalsIgnoreCase (a b : string) : bool :=
  match a, b with
  | EmptyString, EmptyString => true
  | String x a', String y b' => sameChar x y && equalsIgnoreCase a' b'
  | _, _ => false
  end.

Definition isQuoteChar (c : ascii) : bool :=
  Ascii.eqb c QUOTE || Ascii.eqb c "'".

(** ** Visible text *)

(** A printing ASCII character other than the space. *)
Definition visibleChar (c : ascii) : bool :=
  let n := nat_of_ascii c in
  (33 <=? n)%nat && (n <=? 126)%nat.

(** The text starts with a visible character. *)
Definition startsVisible (s : string) : bool :=
  match s with
  | String c _ => visibleChar c
  | EmptyString => false
  end.

(** ** The setter calls of a run, and their interleavings *)

(** The setters a handler calls, in order, when the network answers as
    [network] does. *)
Fixpoint updates {A : Type} (network : Request -> reply) (m : io A)
    : list (State -> State) :=
  match m with
  | Ret _ | Raise _ => []
  | Update f k => f :: updates network k
  | Fetch request k => updates network (k (network request))
  | ReadText file k => updates network (k (fileText file))
  end.

Fixpoint applyAll (fs : list (State -> State)) (s : State) : State :=
  match fs with
  | [] => s
  | f :: rest => applyAll rest (f s)
  end.

(** [interleaving l1 l2 l]: [l] holds the elements of [l1] and of [l2], each
    list in its own order. *)
Inductive interleaving {A : Type} : list A -> list A -> list A -> Prop :=
| interleaving_end : interleaving [] [] []
| interleaving_left x l1 l2 l :
    interleaving l1 l2 l -> interleaving (x :: l1) l2 (x :: l)
| interleaving_right x l1 l2 l :
    interleaving l1 l2 l -> interleaving l1 (x :: l2) (x :: l).

(** The setters of each action. *)
Definition generateSetter (f : State -> State) : Prop :=
  (exists x, f = withRubricError x) \/ (exists x, f = withIsGeneratingRubric x)
  \/ (exists x, f = withRubricJson x) \/ (exists x, f = withRubricSource x).

Definition gradeSetter (f : State -> State) : Prop :=
  (exists x, f = withGradingError x) \/ (exists x, f = withIsGrading x)
  \/ (exists x, f = withGradingResponse x).

Definition uploadSetter (f : State -> State) : Prop :=
  (exists x, f = withSpreadsheetError x) \/ (exists x, f = withIsUploadingSpreadsheet x)
  \/ (exists x, f = withSpreadsheetResponse x).

(** ** The rest of the component

    The setters of the fields the handlers above do not write. *)
Definition withSelectedUniversity (x : string) (s : State) : State :=
  {| selectedUniversity := x;
     selectedCourse := selectedCourse s;
     selectedPresetRubricId := selectedPresetRubricId s;
     rubricPdf := rubricPdf s;
     rubricJson := rubricJson s;
     rubricSource := rubricSource s;
     submissionFile := submissionFile s;
     isGeneratingRubric := isGeneratingRubric s;
     isGrading := isGrading s;
     gradingResponse := gradingResponse s;
     rubricError := rubricError s;
     gradingError := gradingError s;
     spreadsheetUrl := spreadsheetUrl s;
     spreadsheetSheetName := spreadsheetSheetName s;
     spreadsheetStudentName := spreadsheetStudentName s;
     spreadsheetGrade := spreadsheetGrade s;
     spreadsheetSummaryByCriteria := spreadsheetSummaryByCriteria s;
     spreadsheetStrengths := spreadsheetStrengths s;
     spreadsheetRecommendations := spreadsheetRecommendations s;
     isUploadingSpreadsheet := isUploadingSpreadsheet s;
     spreadsheetResponse := spreadsheetResponse s;
     spreadsheetError := spreadsheetError s |}.

Definition withSelectedCourse (x : string) (s : State) : State :=
  {| selectedUniversity := selectedUniversity s;
     selectedCourse := x;
     selectedPresetRubricId := selectedPresetRubricId s;
     rubricPdf := rubricPdf s;
     rubricJson := rubricJson s;
     rubricSource := rubricSource s;
     submissionFile := submissionFile s;
     isGeneratingRubric := isGeneratingRubric s;
     isGrading := isGrading s;
     gradingResponse := gradingResponse s;
     rubricError := rubricError s;
     gradingError := gradingError s;
     spreadsheetUrl := spreadsheetUrl s;
     spreadsheetSheetName := spreadsheetSheetName s;
     spreadsheetStudentName := spreadsheetStudentName s;
     spreadsheetGrade := spreadsheetGrade s;
     spreadsheetSummaryByCriteria := spreadsheetSummaryByCriteria s;
     spreadsheetStrengths := spreadsheetStrengths s;
     spreadsheetRecommendations := spreadsheetRecommendations s;
     isUploadingSpreadsheet := isUploadingSpreadsheet s;
     spreadsheetResponse := spreadsheetResponse s;
     spreadsheetError := spreadsheetError s |}.

Definition withSelectedPresetRubricId (x : string) (s : State) : State :=
  {| selectedUniversity := selectedUniversity s;
     selectedCourse := selectedCourse s;
     selectedPresetRubricId := x;
     rubricPdf := rubricPdf s;
     rubricJson := rubricJson s;
     rubricSource := rubricSource s;
     submissionFile := submissionFile s;
     isGeneratingRubric := isGeneratingRubric s;
     isGrading := isGrading s;
     gradingResponse := gradingResponse s;
     rubricError := rubricError s;
     gradingError := gradingError s;
     spreadsheetUrl := spreadsheetUrl s;
     spreadsheetSheetName := spreadsheetSheetName s;
     spreadsheetStudentName := spreadsheetStudentName s;
     spreadsheetGrade := spreadsheetGrade s;
     spreadsheetSummaryByCriteria := spreadsheetSummaryByCriteria s;
     spreadsheetStrengths := spreadsheetStrengths s;
     spreadsheetRecommendations := spreadsheetRecommendations s;
     isUploadingSpreadsheet := isUploadingSpreadsheet s;
     spreadsheetResponse := spreadsheetResponse s;
     spreadsheetError := spreadsheetError s |}.

Definition withRubricPdf (x : option File) (s : State) : State :=
  {| selectedUniversity := selectedUniversity s;
     selectedCourse := selectedCourse s;
     selectedPresetRubricId := selectedPresetRubricId s;
     rubricPdf := x;
     rubricJson := rubricJson s;
     rubricSource := rubricSource s;
     submissionFile := submissionFile s;
     isGeneratingRubric := isGeneratingRubric s;
     isGrading := isGrading s;
     gradingResponse := gradingResponse s;
     rubricError := rubricError s;
     gradingError := gradingError s;
     spreadsheetUrl := spreadsheetUrl s;
     spreadsheetSheetName := spreadsheetSheetName s;
     spreadsheetStudentName := spreadsheetStudentName s;
     spreadsheetGrade := spreadsheetGrade s;
     spreadsheetSummaryByCriteria := spreadsheetSummaryByCriteria s;
     spreadsheetStrengths := spreadsheetStrengths s;
     spreadsheetRecommendations := spreadsheetRecommendations s;
     isUploadingSpreadsheet := isUploadingSpreadsheet s;
     spreadsheetResponse := spreadsheetResponse s;
     spreadsheetError := spreadsheetError s |}.

Definition withSubmissionFile (x : option File) (s : State) : State :=
  {| selectedUniversity := selectedUniversity s;
     selectedCourse := selectedCourse s;
     selectedPresetRubricId := selectedPresetRubricId s;
     rubricPdf := rubricPdf s;
     rubricJson := rubricJson s;
     rubricSource := rubricSource s;
     submissionFile := x;
     isGeneratingRubric := isGeneratingRubric s;
     isGrading := isGrading s;
     gradingResponse := gradingResponse s;
     rubricError := rubricError s;
     gradingError := gradingError s;
     spreadsheetUrl := spreadsheetUrl s;
     spreadsheetSheetName := spreadsheetSheetName s;
     spreadsheetStudentName := spreadsheetStudentName s;
     spreadsheetGrade := spreadsheetGrade s;
     spreadsheetSummaryByCriteria := spreadsheetSummaryByCriteria s;
     spreadsheetStrengths := spreadsheetStrengths s;
     spreadsheetRecommendations := spreadsheetRecommendations s;
     isUploadingSpreadsheet := isUploadingSpreadsheet s;
     spreadsheetResponse := spreadsheetResponse s;
     spreadsheetError := spreadsheetError s |}.

(** *** The catalogs *)

(** An entry of a selection list: the [id] and the [name]. *)
Record Choice : Type := {
  choiceId : string;
  choiceName : string
}.

Record PresetRubric : Type := {
  presetId : string;
  presetName : string;
  presetCourseId : string;
  presetContent : value
}.

Definition UNIVERSITIES : list Choice :=
  [{| choiceId := "utn-frm"; choiceName := "UTN FRM" |};
   {| choiceId := "utn-frsn"; choiceName := "UTN FRSN" |};
   {| choiceId := "utn-fra"; choiceName := "UTN FRA" |};
   {| choiceId := "utn-frba"; choiceName := "UTN FRBA" |}].

Definition fourCourses : list Choice :=
  [{| choiceId := "programacion-1"; choiceName := "Programación 1" |};
   {| choiceId := "programacion-2"; choiceName := "Programación 2" |};
   {| choiceId := "programacion-3"; choiceName := "Programación 3" |};
   {| choiceId := "bases-de-datos-1"; choiceName := "Bases de Datos 1" |}].

(** The object [COURSES_BY_UNIVERSITY], as its list of properties; each
    university has the same four courses, written out four times in the
    source. *)
Definition COURSES_BY_UNIVERSITY : list (string * list Choice) :=
  [("utn-frm", fourCourses); ("utn-frsn", fourCourses);
   ("utn-fra", fourCourses); ("utn-frba", fourCourses)].

Definition PRESET_RUBRICS : list PresetRubric :=
  [{| presetId := "practico-5-listas";
     presetName := "TP Listas";
     presetCourseId := "programacion-1";
     presetContent :=
       Obj
         [("rubric_id", Str "practico-5-listas");
          ("title", Str "Práctico 5: Listas");
          ("version", Str "1.0");
          ("assessment_type", Str "tp");
          ("course", Str "Programación 1");
          ("language_or_stack",
           Arr
             [Str "python"]);
          ("submission",
           Obj
             [("single_file", Bool true);
              ("accepted_extensions",
               Arr
                 [Str ".py"]);
              ("delivery_channel", Str "plataforma");
              ("constraints",
               Arr
                 [Str "El código fuente debe ser entregado en un único archivo Python (.py).";
                  Str "No se especifican restricciones de nombre de archivo, pero se recomienda un nombre descriptivo (ej. 'practico5_apellido.py')."])]);
          ("grading",
           Obj
             [("policy", Str "weighted_average");
              ("rounding", Str "half_up");
              ("total_points", Number (numberOfDecimal false 100 (0)))]);
          ("criteria",
           Arr
             [Obj
                [("id", Str "C1");
                 ("name", Str "Correctitud y Funcionalidad");
                 ("weight", Number (numberOfDecimal false 35 (-2)));
                 ("description", Str "El código funciona correctamente, produce los resultados esperados según las consignas, y los cálculos son precisos.");
                 ("subcriteria", Arr [])];
              Obj
                [("id", Str "C2");
                 ("name", Str "Manipulación de Listas (simples y anidadas)");
                 ("weight", Number (numberOfDecimal false 25 (-2)));
                 ("description", Str "Aplicación correcta de conceptos fundamentales de listas: creación, indexación, slicing, modificación de elementos, uso de métodos integrados (ej. append, remove, sorted) y manejo adecuado de listas anidadas (matrices).");
                 ("subcriteria", Arr [])];
              Obj
                [("id", Str "C3");
                 ("name", Str "Uso de Estructuras Repetitivas y Control de Flujo");
                 ("weight", Number (numberOfDecimal false 15 (-2)));
                 ("description", Str "Implementación efectiva de bucles (for, while) y condicionales (if/else) para recorrer listas, realizar operaciones y presentar resultados, tal como se indica en la 'NOTA' inicial.");
                 ("subcriteria", Arr [])];
              Obj
                [("id", Str "C4");
                 ("name", Str "Legibilidad y Buenas Prácticas de Programación");
                 ("weight", Number (numberOfDecimal false 15 (-2)));
                 ("description", Str "El código es claro, fácil de entender, utiliza nombres de variables significativos, está bien comentado donde sea necesario y sigue convenciones básicas de estilo (ej. indentación adecuada).");
                 ("subcriteria", Arr [])];
              Obj
                [("id", Str "C5");
                 ("name", Str "Resolución de Problemas Específicos");
                 ("weight", Number (numberOfDecimal false 1 (-1)));
                 ("description", Str "Capacidad para abordar y resolver requisitos particulares de las consignas, como la eliminación de duplicados, rotación de elementos o lógicas específicas para manejo de datos (ej. identificación de máximo/mínimo, amplitud térmica).");
                 ("subcriteria", Arr [])]]);
          ("global_descriptors",
           Obj
             [("Excelente", Str "90–100: Demuestra una comprensión profunda y aplicación impecable de todos los conceptos de listas, con código robusto, eficiente y de alta calidad.");
              ("Muy Bueno", Str "80–89: El trabajo es mayormente correcto y funcional, con una sólida comprensión de listas. Puede haber pequeñas ineficiencias o detalles menores en la legibilidad.");
              ("Aprobado", Str "60–79: El trabajo cumple con la mayoría de los requisitos, pero puede presentar errores menores de lógica, implementación de listas o fallos en el cumplimiento de algunas consignas. La legibilidad es aceptable.");
              ("Insuficiente", Str "<60: El trabajo presenta errores significativos, varias consignas no están resueltas o las soluciones son incorrectas. Demuestra falta de comprensión fundamental de las estructuras de listas o de programación básica.")]);
          ("penalties",
           Arr
             [Obj
                [("description", Str "Plagio detectado en cualquier parte del código.");
                 ("penalty_percent", Number (numberOfDecimal false 100 (0)))];
              Obj
                [("description", Str "Entrega fuera de formato o con extensiones incorrectas.");
                 ("penalty_percent", Number (numberOfDecimal false 10 (0)))]]);
          ("mandatory_fail_conditions", Arr []);
          ("scoring_notes",
           Arr
             [Str ("Recuerde que, como indica la " ++ Q ++ "NOTA" ++ Q ++ " en el práctico, para mostrar listas o sus elementos, *siempre* se deben utilizar estructuras repetitivas (bucles).")]);
          ("tasks",
           Arr
             [Obj
                [("label", Str "T1");
                 ("prompt_excerpt", Str "Crear una lista con las notas de 10 estudiantes. Mostrar la lista, promedio, nota más alta y más baja.");
                 ("points", Number (numberOfDecimal false 10 (0)));
                 ("links_to_criteria",
                  Arr
                    [Str "C1";
                     Str "C2";
                     Str "C3"])];
              Obj
                [("label", Str "T2");
                 ("prompt_excerpt", Str "Pedir al usuario que cargue 5 productos, mostrar ordenada alfabéticamente (usando sorted()), eliminar un producto solicitado.");
                 ("points", Number (numberOfDecimal false 10 (0)));
                 ("links_to_criteria",
                  Arr
                    [Str "C1";
                     Str "C2";
                     Str "C3";
                     Str "C5"])];
              Obj
                [("label", Str "T3");
                 ("prompt_excerpt", Str "Generar una lista con 15 números enteros al azar (1-100), separar en listas de pares e impares, mostrar cuántos números tiene cada lista.");
                 ("points", Number (numberOfDecimal false 10 (0)));
                 ("links_to_criteria",
                  Arr
                    [Str "C1";
                     Str "C2";
                     Str "C3"])];
              Obj
                [("label", Str "T4");
                 ("prompt_excerpt", Str "Dada una lista con valores repetidos, crear una nueva lista sin elementos repetidos y mostrarla.");
                 ("points", Number (numberOfDecimal false 10 (0)));
                 ("links_to_criteria",
                  Arr
                    [Str "C1";
                     Str "C2";
                     Str "C3";
                     Str "C5"])];
              Obj
                [("label", Str "T5");
                 ("prompt_excerpt", Str "Crear lista de nombres de 8 estudiantes. Preguntar si agregar o eliminar un estudiante, mostrar lista actualizada.");
                 ("points", Number (numberOfDecimal false 10 (0)));
                 ("links_to_criteria",
                  Arr
                    [Str "C1";
                     Str "C2";
                     Str "C3"])];
              Obj
                [("label", Str "T6");
                 ("prompt_excerpt", Str "Dada una lista con 7 números, rotar todos los elementos una posición hacia la derecha (el último pasa a ser el primero).");
                 ("points", Number (numberOfDecimal false 10 (0)));
                 ("links_to_criteria",
                  Arr
                    [Str "C1";
                     Str "C2";
                     Str "C5"])];
              Obj
                [("label", Str "T7");
                 ("prompt_excerpt", Str "Crear matriz 7x2 (temp mín/máx). Calcular promedio mín/máx. Mostrar día de mayor amplitud térmica.");
                 ("points", Number (numberOfDecimal false 10 (0)));
                 ("links_to_criteria",
                  Arr
                    [Str "C1";
                     Str "C2";
                     Str "C3";
                     Str "C5"])];
              Obj
                [("label", Str "T8");
                 ("prompt_excerpt", Str "Crear matriz 5x3 (notas de estudiantes en materias). Mostrar promedio de cada estudiante y de cada materia.");
                 ("points", Number (numberOfDecimal false 10 (0)));
                 ("links_to_criteria",
                  Arr
                    [Str "C1";
                     Str "C2";
                     Str "C3"])];
              Obj
                [("label", Str "T9");
                 ("prompt_excerpt", Str "Representar tablero Ta-Te-Ti (3x3) con listas anidadas. Inicializar con guiones. Permitir jugadas de 'X' y 'O', mostrar tablero tras cada jugada.");
                 ("points", Number (numberOfDecimal false 10 (0)));
                 ("links_to_criteria",
                  Arr
                    [Str "C1";
                     Str "C2";
                     Str "C3";
                     Str "C5"])];
              Obj
                [("label", Str "T10");
                 ("prompt_excerpt", Str "Matriz 4x7 de ventas (productos x días). Mostrar total vendido por producto, día con mayores ventas totales, producto más vendido en la semana.");
                 ("points", Number (numberOfDecimal false 10 (0)));
                 ("links_to_criteria",
                  Arr
                    [Str "C1";
                     Str "C2";
                     Str "C3";
                     Str "C5"])]]);
          ("metadata",
           Obj
             [("institution", Str "Universidad Tecnológica Nacional (UTN)");
              ("instructor", Null);
              ("date", Null);
              ("source_pdf_title", Str "Práctico 5: Listas");
              ("pages_parsed",
               Arr
                 [Number (numberOfDecimal false 1 (0));
                  Number (numberOfDecimal false 2 (0))]);
              ("notes",
               Arr
                 [Str "El PDF no especifica explícitamente el formato de entrega del archivo de código, se asume .py."])])] |}].

Definition universities : list Choice := UNIVERSITIES.
Definition presetRubrics : list PresetRubric := PRESET_RUBRICS.

(** [coursesByUniversity[key]] on the own properties of the object: [None]
    is [undefined].  The properties inherited from [Object.prototype] are
    left out; the keys looked up are the values of the university list. *)
Fixpoint property {A : Type} (object : list (string * A)) (key : string)
    : option A :=
  match object with
  | [] => None
  | (k, v) :: rest => if String.eqb k key then Some v else property rest key
  end.

(** *** Derived values of a render *)

(** [availableCourses]: [None] is the [undefined] that the lookup gives for
    a key the object does not have. *)
Definition availableCourses (s : State) : option (list Choice) :=
  if String.eqb (selectedUniversity s) EmptyString then Some []
  else property COURSES_BY_UNIVERSITY (selectedUniversity s).

Definition availablePresetRubrics (s : State) : list PresetRubric :=
  if String.eqb (selectedCourse s) EmptyString then []
  else filter (fun rubric => String.eqb (presetCourseId rubric) (selectedCourse s))
         presetRubrics.

(** The text a value of [RubricSource] is in a template literal. *)
Definition sourceText (source : RubricSource) : string :=
  match source with
  | generada => "generada"
  | importada => "importada"
  | preestablecida => "preestablecida"
  end.

Definition rubricTitle (s : State) : string :=
  match rubricSource s with
  | Some source =>
      if negb (hasRubric s) then "Rúbrica JSON"
      else "Rúbrica JSON (" ++ sourceText source ++ ")"
  | None => "Rúbrica JSON"
  end.

(** *** [downloadFile] and the handlers that do not await *)

Record Blob : Type := {
  blobContent : string;
  blobType : string
}.

(** The calls [downloadFile] makes on the document; the object URL stands
    for the blob it was created for, and the link is known by its [href]
    and [download] attributes. *)
Inductive domCall : Type :=
| CreateObjectURL (blob : Blob)
| AppendChild (href : Blob) (download : string)
| Click (href : Blob) (download : string)
| Remove (href : Blob) (download : string)
| RevokeObjectURL (blob : Blob).

Definition downloadFile (content filename mime : string) : list domCall :=
  let blob := {| blobContent := content; blobType := mime |} in
  [CreateObjectURL blob;
   AppendChild blob filename;
   Click blob filename;
   Remove blob filename;
   RevokeObjectURL blob].

Definition handleRubricDownload (s : State) : list domCall :=
  if negb (hasRubric s) then []
  else downloadFile (rubricJson s) "rubrica.json" "application/json".

(** [const [file] = event.target.files ?? []; setRubricPdf(file ?? null)] *)
Definition handleRubricPdfChange (files : list File) : io unit :=
  set (withRubricPdf (hd_error files)).

Definition handleSubmissionChange (files : list File) : io unit :=
  set (withSubmissionFile (hd_error files)).

Definition handlePresetRubricSelection (value : string) : io unit :=
  set (withSelectedPresetRubricId value) ;;
  if String.eqb value EmptyString then Ret tt
  else
    match find (fun rubric => String.eqb (presetId rubric) value) presetRubrics with
    | None => Ret tt
    | Some preset =>
        match JSON_stringify (presetContent preset) with
        | None => Raise (ThrownError "Do not know how to serialize a BigInt")
        | Some printable =>
            set (withRubricJson (stored printable)) ;;
            set (withRubricSource (Some preestablecida)) ;;
            set (withRubricError None)
        end
    end.

(** *** The three selection lists

    What the user can do on the lists of the first section: each list
    offers the empty option and its entries, the course list is disabled
    without a university, the preset list without a course or without
    presets.  The two effects reset the dependent selections when the
    university or the course has changed. *)

Inductive event : Type :=
| SelectUniversity (value : string)
| SelectCourse (value : string)
| SelectPreset (value : string).

Definition listed (value : string) (ids : list string) : bool :=
  String.eqb value EmptyString || existsb (String.eqb value) ids.

Definition offered (s : State) (e : event) : bool :=
  match e with
  | SelectUniversity value => listed value (map choiceId universities)
  | SelectCourse value =>
      negb (String.eqb (selectedUniversity s) EmptyString)
      && match availableCourses s with
         | Some courses => listed value (map choiceId courses)
         | None => false
         end
  | SelectPreset value =>
      negb (String.eqb (selectedCourse s) EmptyString)
      && negb (Nat.eqb (List.length (availablePresetRubrics s)) 0)
      && listed value (map presetId (availablePresetRubrics s))
  end.

(** The effect on [selectedUniversity]. *)
Definition universityEffect (before : State) (s : State) : State :=
  if String.eqb (selectedUniversity before) (selectedUniversity s) then s
  else withSelectedPresetRubricId EmptyString (withSelectedCourse EmptyString s).

(** The effect on [selectedCourse]. *)
Definition courseEffect (before : State) (s : State) : State :=
  if String.eqb (selectedCourse before) (selectedCourse s) then s
  else withSelectedPresetRubricId EmptyString s.

(** The state after an event has been handled and the effects have run. *)
Definition dispatch (network : Request -> reply) (e : event) (s : State) : State :=
  match e with
  | SelectUniversity value =>
      let s1 := withSelectedUniversity value s in
      let s2 := universityEffect s s1 in
      courseEffect s1 s2
  | SelectCourse value =>
      let s1 := withSelectedCourse value s in
      courseEffect s s1
  | SelectPreset value =>
      finalState (run network (handlePresetRubricSelection value) s)
  end.

(** The selections agree with the catalogs: the lookup of the courses is
    defined, a selected course is one of the selected university, and a
    selected preset is one of the selected course. *)
Definition contextConsistent (s : State) : bool :=
  match availableCourses s with
  | None => false
  | Some courses =>
      listed (selectedCourse s) (map choiceId courses)
      && listed (selectedPresetRubricId s)
           (map presetId (availablePresetRubrics s))
  end.

(** * Properties *)

(** Case analysis on the tests and matches of a hypothesis that some code
    returned a result. *)
Ltac split_match H :=
  repeat match type of H with
    | match ?x with _ => _ end = Some _ => destruct x eqn:?; try discriminate H
    | (if ?b then _ else _) = Some _ => destruct b eqn:?; try discriminate H
    end.

(** ** The platform model on known results *)

Example numberToString_examples :
  map (fun d => numberToString (numberOfDecimal false (fst d) (snd d)))
      [(1, 0); (1, -1); (25, -1); (1, 21); (1, 20); (15, -8); (1, -6); (5, -324);
       (30000000000000004, -17); (9007199254740993, 0); (1, 400)]%Z
  = ["1"; "0.1"; "2.5"; "1e+21"; "100000000000000000000"; "1.5e-7"; "0.000001";
     "5e-324"; "0.30000000000000004"; "9007199254740992"; "Infinity"].
Proof. vm_compute. reflexivity. Qed.

Example JSON_parse_examples :
  JSON_parse "not json" = None
  /\ JSON_parse ("{" ++ Q ++ "x" ++ Q ++ ":1}") = Some (Obj [("x", Number one)])
  /\ JSON_parse " [true, null , -0.5e1] "
     = Some (Arr [Bool true; Null; Number (numberOfDecimal true 5 0)])
  /\ JSON_parse "01" = None
  /\ JSON_parse "[1,]" = None
  /\ JSON_parse (Q ++ "aé\n" ++ Q) = Some (Str ("aé" ++ NL))
  /\ JSON_parse ("{" ++ Q ++ "b" ++ Q ++ ":1," ++ Q ++ "2" ++ Q ++ ":2,"
                     ++ Q ++ "b" ++ Q ++ ":3}")
     = Some (Obj [("2", Number (numberOfDecimal false 2 0));
                  ("b", Number (numberOfDecimal false 3 0))]).
Proof. vm_compute. repeat split. Qed.

Example parseJsonSafely_examples :
  parseJsonSafely "not json" = Null
  /\ parseJsonSafely ("{" ++ Q ++ "x" ++ Q ++ ":1}") = Obj [("x", Number one)].
Proof. vm_compute. split; reflexivity. Qed.

Example JSON_stringify_examples :
  JSON_stringify (Arr []) = Some (Some "[]")
  /\ JSON_stringify (Obj [("a", Undefined)]) = Some (Some "{}")
  /\ JSON_stringify Undefined = Some None
  /\ JSON_stringify (Arr [BigInt 1]) = None
  /\ JSON_stringify (Str ("a" ++ Q ++ "\" ++ NL))
     = Some (Some (Q ++ "a\" ++ Q ++ "\\\n" ++ Q))
  /\ JSON_stringify (Obj [("k", Arr [Number one; Undefined])])
     = Some (Some ("{" ++ NL ++ "  " ++ Q ++ "k" ++ Q ++ ": [" ++ NL
                     ++ "    1," ++ NL ++ "    null" ++ NL ++ "  ]" ++ NL ++ "}")).
Proof. vm_compute. repeat split. Qed.

Example trim_examples :
  trim ("  a b " ++ NL) = "a b" /\ trim (" " ++ NL ++ " ") = EmptyString
  /\ trim " é " = "é".
Proof. vm_compute. repeat split. Qed.

(** ** Replacement *)

Lemma replaceFrom_line_breaks (n : nat) :
  forall s, (String.length s < n)%nat ->
    lineBreaksConverted s (replaceFrom "\n" NL 0 s).
Proof.
  induction n as [|n IH]; intros s Hlen; [lia|].
  destruct s as [|c s]; [constructor|].
  cbn [replaceFrom].
  destruct (startsWith "\n" (String c s)) eqn:Hp.
  - cbn [startsWith] in Hp.
    destruct s as [|d s]; [rewrite andb_false_r in Hp; discriminate|].
    apply andb_prop in Hp as [Hc Hd].
    apply andb_prop in Hd as [Hd _].
    apply Ascii.eqb_eq in Hc, Hd. subst c d.
    cbn. apply converted_escape. apply IH. cbn in Hlen. lia.
  - apply converted_other; [exact Hp|]. apply IH. cbn in Hlen. lia.
Qed.

Lemma replaceAll_line_breaks (s : string) :
  lineBreaksConverted s (replaceAll "\n" NL s).
Proof.
  apply (replaceFrom_line_breaks (S (String.length s))). lia.
Qed.

Lemma lineBreaksConverted_functional (s t u : string) :
  lineBreaksConverted s t -> lineBreaksConverted s u -> t = u.
Proof.
  intros H; revert u.
  induction H as [|s t H IH|c s t Hp H IH]; intros u Hu; inversion Hu; subst.
  - reflexivity.
  - f_equal. auto.
  - match goal with
    | E : startsWith _ _ = false |- _ => discriminate E
    end.
  - discriminate Hp.
  - f_equal. auto.
Qed.

Lemma startsWith_cons (a c : ascii) (p s : string) :
  startsWith (String a p) (String c s) = Ascii.eqb a c && startsWith p s.
Proof. reflexivity. Qed.

Lemma startsWith_split (p : string) :
  forall s, startsWith p s = true -> exists t, s = p ++ t.
Proof.
  induction p as [|a p IH]; intros s H; [exists s; reflexivity|].
  destruct s as [|b s]; [discriminate|].
  cbn [startsWith] in H. apply andb_prop in H as [Hab Hp].
  apply Ascii.eqb_eq in Hab. subst b.
  destruct (IH _ Hp) as [t ->]. exists t. reflexivity.
Qed.

Lemma startsWith_append (p s : string) : startsWith p (p ++ s) = true.
Proof.
  induction p as [|a p IH]; [reflexivity|].
  cbn [append startsWith]. rewrite Ascii.eqb_refl, IH. reflexivity.
Qed.

Lemma append_cancel (p s t : string) : p ++ s = p ++ t -> s = t.
Proof.
  induction p as [|a p IH]; cbn [append]; intros H; [exact H|].
  injection H as H. exact (IH H).
Qed.

Lemma append_length (p s : string) :
  String.length (p ++ s) = (String.length p + String.length s)%nat.
Proof.
  induction p as [|a p IH]; [reflexivity|]. cbn. rewrite IH. reflexivity.
Qed.

(** After a match the characters of the pattern are passed over. *)
Lemma replaceFrom_skip (pat rep p s : string) :
  replaceFrom pat rep (String.length p) (p ++ s) = replaceFrom pat rep 0 s.
Proof.
  induction p as [|a p IH]; [reflexivity|].
  cbn [String.length append replaceFrom]. exact IH.
Qed.

Lemma replaceFrom_replaced (pat rep : string) (n : nat) :
  pat <> EmptyString ->
  forall s, (String.length s < n)%nat ->
    replaced pat rep s (replaceFrom pat rep 0 s).
Proof.
  intros Hpat. induction n as [|n IH]; intros s Hlen; [lia|].
  destruct s as [|c s]; [constructor|].
  cbn [replaceFrom].
  destruct (startsWith pat (String c s)) eqn:Hp.
  - destruct (startsWith_split _ _ Hp) as [t Ht].
    destruct pat as [|a p]; [contradiction|].
    cbn [append] in Ht. injection Ht as -> ->.
    replace (String.length (String a p) - 1)%nat with (String.length p)
      by (cbn [String.length]; lia).
    rewrite replaceFrom_skip.
    apply (replaced_match (String a p) rep t). apply IH.
    cbn [String.length] in Hlen. rewrite append_length in Hlen. lia.
  - apply replaced_other; [exact Hp|]. apply IH. cbn in Hlen. lia.
Qed.

Lemma replaceAll_replaced (pat rep s : string) :
  pat <> EmptyString -> replaced pat rep s (replaceAll pat rep s).
Proof.
  intros Hpat. destruct pat as [|a p]; [contradiction|].
  apply (replaceFrom_replaced (String a p) rep (S (String.length s))); [exact Hpat|lia].
Qed.

(** What [replaced] says of a text, by its first character. *)
Lemma replaced_inv (pat rep s t : string) :
  pat <> EmptyString ->
  replaced pat rep s t ->
  match s with
  | EmptyString => t = EmptyString
  | String c s' =>
      if startsWith pat s
      then exists s0 t0, s = pat ++ s0 /\ t = rep ++ t0 /\ replaced pat rep s0 t0
      else exists t', t = String c t' /\ replaced pat rep s' t'
  end.
Proof.
  intros Hpat H. destruct H as [|s0 t0 H|c s' t' Hp H].
  - reflexivity.
  - pose proof (startsWith_append pat s0) as Hs.
    destruct pat as [|a p]; [contradiction|].
    cbn [append] in Hs |- *. rewrite Hs. exists s0, t0. auto.
  - rewrite Hp. exists t'. auto.
Qed.

(** [replaced] determines its result. *)
Lemma replaced_functional (pat rep : string) :
  pat <> EmptyString ->
  forall s t u, replaced pat rep s t -> replaced pat rep s u -> t = u.
Proof.
  intros Hpat s t u H. revert u.
  induction H as [|s t H IH|c s t Hp H IH]; intros u Hu;
    apply (replaced_inv _ _ _ _ Hpat) in Hu.
  - exact (eq_sym Hu).
  - pose proof (startsWith_append pat s) as Hs.
    destruct pat as [|a p]; [contradiction|].
    cbn [append] in Hu, Hs. rewrite Hs in Hu.
    destruct Hu as (s0 & t0 & Heq & -> & Hr).
    cbn [append] in Heq. injection Heq as Heq.
    apply append_cancel in Heq. subst s0. f_equal. exact (IH _ Hr).
  - rewrite Hp in Hu. destruct Hu as (t' & -> & Hr). f_equal. exact (IH _ Hr).
Qed.

(** The only text [replaced] relates a text to is the one [replaceAll]
    computes. *)
Lemma replaced_replaceAll (pat rep s t : string) :
  pat <> EmptyString -> replaced pat rep s t -> t = replaceAll pat rep s.
Proof.
  intros Hpat H.
  exact (replaced_functional pat rep Hpat _ _ _ H (replaceAll_replaced pat rep s Hpat)).
Qed.

(** ** The matcher finds what the pattern denotes *)

Lemma star_some {A : Type} (p : ascii -> bool) (s : string) :
  forall (k : string -> string -> option A) (r : A),
    star p k s = Some r ->
    exists taken rest,
      s = taken ++ rest /\ allChars p taken = true /\ k taken rest = Some r.
Proof.
  induction s as [|c s IH]; intros k r H; cbn in H.
  - exists EmptyString, EmptyString. auto.
  - destruct (p c) eqn:Hc.
    + destruct (star p (fun taken rest => k (String c taken) rest) s) as [r'|] eqn:Hs.
      * injection H as <-.
        destruct (IH _ _ Hs) as (taken & rest & -> & Hall & Hk).
        exists (String c taken), rest. cbn. rewrite Hc. auto.
      * exists EmptyString, (String c s). auto.
    + exists EmptyString, (String c s). auto.
Qed.

Lemma star_none {A : Type} (p : ascii -> bool) (s : string) :
  forall (k : string -> string -> option A),
    star p k s = None ->
    forall taken rest,
      s = taken ++ rest -> allChars p taken = true -> k taken rest = None.
Proof.
  induction s as [|c s IH]; intros k H taken rest Heq Hall; cbn in H.
  - destruct taken; [|discriminate]. cbn in Heq. subst rest. exact H.
  - destruct taken as [|c' taken].
    + cbn in Heq. subst rest.
      destruct (p c); [|exact H].
      destruct (star p (fun taken rest => k (String c taken) rest) s); [discriminate|exact H].
    + cbn in Heq. injection Heq as <- ->. cbn in Hall.
      apply andb_prop in Hall as [Hc Hall]. rewrite Hc in H.
      destruct (star p (fun t r => k (String c t) r) (taken ++ rest)) eqn:Hs;
        [discriminate|].
      exact (IH _ Hs taken rest eq_refl Hall).
Qed.

Lemma exec_sound (r : list item) :
  forall cap s c, exec r cap s = Some c -> exists rest, matches r cap s c rest.
Proof.
  induction r as [|i r IH]; intros cap s c H; cbn in H.
  - injection H as <-. exists s. constructor.
  - destruct i as [a|a|a].
    + destruct s as [|d s]; [discriminate|].
      destruct (test a d) eqn:Ht; [|discriminate].
      destruct (IH _ _ _ H) as [rest Hm]. exists rest. constructor; assumption.
    + apply star_some in H as (taken & rest0 & -> & Hall & Hk).
      destruct (IH _ _ _ Hk) as [rest Hm]. exists rest. constructor; assumption.
    + apply star_some in H as (taken & rest0 & -> & Hall & Hk).
      destruct (IH _ _ _ Hk) as [rest Hm]. exists rest. constructor; assumption.
Qed.

Lemma exec_complete (r : list item) :
  forall cap s, exec r cap s = None -> forall c rest, ~ matches r cap s c rest.
Proof.
  induction r as [|i r IH]; intros cap s H c rest Hm; cbn in H; [discriminate|].
  inversion Hm as [ | a r' d s' cap0 c0 rest0 Ht Hm'
                    | a r' taken s' cap0 c0 rest0 Hall Hm'
                    | a r' taken s' cap0 c0 rest0 Hall Hm' ]; subst.
  - rewrite Ht in H. exact (IH _ _ H _ _ Hm').
  - pose proof (star_none _ _ _ H taken s' eq_refl Hall) as Hk.
    exact (IH _ _ Hk _ _ Hm').
  - pose proof (star_none _ _ _ H taken s' eq_refl Hall) as Hk.
    exact (IH _ _ Hk _ _ Hm').
Qed.

Lemma search_sound (r : list item) (s : string) :
  forall c, search r s = Some c ->
    exists before from rest, s = before ++ from /\ matches r EmptyString from c rest.
Proof.
  induction s as [|d s IH]; intros c H; cbn in H.
  - destruct (exec r EmptyString EmptyString) eqn:He; [|discriminate].
    injection H as <-. apply exec_sound in He as [rest Hm].
    exists EmptyString, EmptyString, rest. auto.
  - destruct (exec r EmptyString (String d s)) eqn:He.
    + injection H as <-. apply exec_sound in He as [rest Hm].
      exists EmptyString, (String d s), rest. auto.
    + destruct (IH _ H) as (before & from & rest & -> & Hm).
      exists (String d before), from, rest. auto.
Qed.

Lemma search_complete (r : list item) (s : string) :
  search r s = None -> ~ occursIn r s.
Proof.
  induction s as [|d s IH]; intros H (before & from & cap & rest & Heq & Hm); cbn in H.
  - destruct (exec r EmptyString EmptyString) eqn:He; [discriminate|].
    destruct before; [|discriminate]. cbn in Heq. subst from.
    exact (exec_complete _ _ _ He _ _ Hm).
  - destruct (exec r EmptyString (String d s)) eqn:He; [discriminate|].
    destruct before as [|d' before].
    + cbn in Heq. subst from. exact (exec_complete _ _ _ He _ _ Hm).
    + cbn in Heq. injection Heq as <- ->.
      apply (IH H). exists before, from, cap, rest. auto.
Qed.

(** The pattern of the code is found exactly in the texts that hold an
    occurrence of it. *)
Lemma iframeMatch_none_iff (text : string) :
  iframeMatch text = None <-> ~ occursIn iframePattern text.
Proof.
  split.
  - apply search_complete.
  - intros Hno. unfold iframeMatch.
    destruct (search iframePattern text) eqn:Hs; [|reflexivity].
    exfalso. apply Hno.
    destruct (search_sound _ _ _ Hs) as (before & from & rest & Heq & Hm).
    exists before, from, s, rest. auto.
Qed.

(** ** [extractIframeContent] *)

Lemma extractIframeContent_iframe_example :
  extractIframeContent
    ("<iframe srcdoc=" ++ Q ++ "{&quot;a&quot;:1}" ++ Q ++ "></iframe>")
  = "{" ++ Q ++ "a" ++ Q ++ ":1}".
Proof. reflexivity. Qed.

(** C3: when the pattern matches with a non-empty group 1, the result is the
    captured text decoded in the order of the specification: the entities
    quot, lt, gt and amp replaced one after the other, each everywhere, and
    then every backslash-n turned into a line feed; it is the only text the
    captured one decodes to.  On the iframe whose srcdoc is
    [{&quot;a&quot;:1}] the result is the text {, quote, a, quote, :1}. *)
Theorem extractIframeContent_match :
  (forall text captured result : string,
      iframeMatch text = Some captured ->
      captured <> EmptyString ->
      (decodedInOrder captured result <-> result = extractIframeContent text))
  /\ iframeMatch ("<iframe srcdoc=" ++ Q ++ "{&quot;a&quot;:1}" ++ Q ++ "></iframe>")
     = Some "{&quot;a&quot;:1}"
  /\ extractIframeContent
       ("<iframe srcdoc=" ++ Q ++ "{&quot;a&quot;:1}" ++ Q ++ "></iframe>")
     = "{" ++ Q ++ "a" ++ Q ++ ":1}".
Proof.
  split; [|split; reflexivity].
  intros text captured result Hm Hne. unfold extractIframeContent. rewrite Hm.
  destruct captured as [|x rest]; [contradiction|]. cbv zeta.
  split.
  - intros (a & b & c & d & H1 & H2 & H3 & H4 & H5).
    apply replaced_replaceAll in H1; [|discriminate].
    apply replaced_replaceAll in H2; [|discriminate].
    apply replaced_replaceAll in H3; [|discriminate].
    apply replaced_replaceAll in H4; [|discriminate].
    apply replaced_replaceAll in H5; [|discriminate].
    subst a b c d. exact H5.
  - intros ->.
    exists (replaceAll "&quot;" Q (String x rest)).
    exists (replaceAll "&lt;" "<" (replaceAll "&quot;" Q (String x rest))).
    exists (replaceAll "&gt;" ">"
              (replaceAll "&lt;" "<" (replaceAll "&quot;" Q (String x rest)))).
    exists (replaceAll "&amp;" "&"
              (replaceAll "&gt;" ">"
                 (replaceAll "&lt;" "<" (replaceAll "&quot;" Q (String x rest))))).
    repeat split; apply replaceAll_replaced; discriminate.
Qed.

Lemma extractIframeContent_match_witness :
  iframeMatch "<IFRAME id='r' srcdoc='a &lt; b\n&amp;amp; &gt;&quot;'>"
  = Some "a &lt; b\n&amp;amp; &gt;&quot;"
  /\ decodedInOrder "a &lt; b\n&amp;amp; &gt;&quot;"
       ("a < b" ++ NL ++ "&amp; >" ++ Q)
  /\ extractIframeContent "<IFRAME id='r' srcdoc='a &lt; b\n&amp;amp; &gt;&quot;'>"
     = "a < b" ++ NL ++ "&amp; >" ++ Q.
Proof.
  split; [reflexivity|]. split; [|reflexivity].
  apply (proj1 extractIframeContent_match
           "<IFRAME id='r' srcdoc='a &lt; b\n&amp;amp; &gt;&quot;'>"
           "a &lt; b\n&amp;amp; &gt;&quot;");
    [reflexivity | discriminate | reflexivity].
Defined.

(** C4: when the pattern does not match, the result is the whole input with
    every backslash-n turned into a line feed and every other character
    kept; the function is total, so it returns a string on every input. *)
Theorem extractIframeContent_no_match (text : string) :
  iframeMatch text = None ->
  extractIframeContent text = replaceAll "\n" NL text
  /\ lineBreaksConverted text (extractIframeContent text).
Proof.
  intros Hm. unfold extractIframeContent. rewrite Hm.
  split; [reflexivity|apply replaceAll_line_breaks].
Qed.

Lemma extractIframeContent_no_match_witness :
  extractIframeContent "uno\ndos <b>&amp;</b>\n" = "uno" ++ NL ++ "dos <b>&amp;</b>" ++ NL
  /\ lineBreaksConverted "uno\ndos <b>&amp;</b>\n"
       (extractIframeContent "uno\ndos <b>&amp;</b>\n").
Proof.
  destruct (extractIframeContent_no_match "uno\ndos <b>&amp;</b>\n" eq_refl) as [H1 H2].
  split; [rewrite H1; reflexivity | exact H2].
Defined.

(** ** What [JSON.parse] reads, [JSON.stringify] writes *)

Lemma setProperty_isJson (k : string) (v : value) :
  isJson v = true ->
  forall props,
    forallb (fun p => isJson (snd p)) props = true ->
    forallb (fun p => isJson (snd p)) (setProperty props k v) = true.
Proof.
  intros Hv props. induction props as [|[k' v'] props IH]; intros Hall; cbn in *.
  - rewrite Hv. reflexivity.
  - apply andb_prop in Hall as [Hv' Hall].
    repeat match goal with
      | |- context [if ?b then _ else _] => destruct b
      | |- context [match ?x with Some _ => _ | None => _ end] => destruct x
      end; cbn; rewrite ?Hv, ?Hv', ?Hall, ?IH; auto.
Qed.

Lemma forallb_rev {A : Type} (f : A -> bool) (l : list A) :
  forallb f (rev l) = forallb f l.
Proof.
  induction l as [|x l IH]; [reflexivity|].
  cbn. rewrite forallb_app, IH. cbn. rewrite andb_true_r. apply andb_comm.
Qed.

Lemma parse_isJson (fuel : nat) :
  (forall s v r, parseValue fuel s = Some (v, r) -> isJson v = true)
  /\ (forall s acc v r,
         forallb isJson acc = true ->
         parseElements fuel s acc = Some (v, r) -> isJson v = true)
  /\ (forall s acc v r,
         forallb (fun p => isJson (snd p)) acc = true ->
         parseMembers fuel s acc = Some (v, r) -> isJson v = true).
Proof.
  induction fuel as [|fuel (IHv & IHe & IHm)]; [repeat split; intros; discriminate|].
  repeat split.
  - intros s v r H. cbn [parseValue] in H.
    split_match H; try (injection H as <- <-; reflexivity).
    + exact (IHe _ [] _ _ eq_refl H).
    + exact (IHm _ [] _ _ eq_refl H).
  - intros s acc v r Hacc H. cbn [parseElements] in H.
    destruct (parseValue fuel (skipWhitespace s)) as [[v0 r0]|] eqn:Hv0;
      [|discriminate].
    apply IHv in Hv0.
    split_match H.
    + eapply IHe; [|exact H]. cbn. rewrite Hv0, Hacc. reflexivity.
    + injection H as <- <-.
      change (forallb isJson (rev (v0 :: acc)) = true).
      rewrite forallb_rev. cbn. rewrite Hv0, Hacc. reflexivity.
  - intros s acc v r Hacc H. cbn [parseMembers] in H.
    destruct (after Q (skipWhitespace s)) as [r0|]; [|discriminate].
    destruct (parseStringBody r0) as [[k r1]|]; [|discriminate].
    destruct (after ":" (skipWhitespace r1)) as [r2|]; [|discriminate].
    destruct (parseValue fuel (skipWhitespace r2)) as [[v0 r3]|] eqn:Hv0;
      [|discriminate].
    apply IHv in Hv0.
    split_match H.
    + eapply IHm; [|exact H]. apply setProperty_isJson; assumption.
    + injection H as <- <-.
      change (forallb (fun p => isJson (snd p)) (setProperty acc k v0) = true).
      apply setProperty_isJson; assumption.
Qed.

Lemma JSON_parse_isJson (text : string) (v : value) :
  JSON_parse text = Some v -> isJson v = true.
Proof.
  unfold JSON_parse. intros H.
  destruct (parseValue _ _) as [[v0 r]|] eqn:Hv; [|discriminate].
  destruct (skipWhitespace r); [|discriminate].
  injection H as <-.
  exact (proj1 (parse_isJson _) _ _ _ Hv).
Qed.

Lemma parseJsonSafely_isJson (text : string) :
  isJson (parseJsonSafely text) = true.
Proof.
  unfold parseJsonSafely.
  destruct (JSON_parse text) eqn:H; [exact (JSON_parse_isJson _ _ H)|reflexivity].
Qed.

(** A value without [undefined] and BigInt serializes to a string. *)
Lemma serialize_isJson :
  forall v indent, isJson v = true -> exists t, serialize indent v = Some (Some t).
Proof.
  fix serialize_isJson 1.
  intros v. destruct v as [ | |b|x|z|s|items|props]; intros indent Hv;
    try discriminate Hv; cbn [serialize].
  - eexists; reflexivity.
  - destruct b; eexists; reflexivity.
  - eexists; reflexivity.
  - eexists; reflexivity.
  - cbn [isJson] in Hv.
    assert (exists parts,
      (fix elements (l : list value) : option (list string) :=
         match l with
         | [] => Some []
         | x :: l' =>
             match serialize (indent ++ gap) x with
             | None => None
             | Some r =>
                 match elements l' with
                 | None => None
                 | Some rs =>
                     Some (match r with Some t => t | None => "null" end :: rs)
                 end
             end
         end) items = Some parts) as [parts ->].
    { induction items as [|x items IH]; [eexists; reflexivity|].
      cbn in Hv. apply andb_prop in Hv as [Hx Hitems].
      destruct (serialize_isJson x (indent ++ gap) Hx) as [t ->].
      destruct (IH Hitems) as [rs ->]. eexists; reflexivity. }
    destruct parts; eexists; reflexivity.
  - cbn [isJson] in Hv.
    assert (exists parts,
      (fix members (l : list (string * value)) : option (list string) :=
         match l with
         | [] => Some []
         | (k, x) :: l' =>
             match serialize (indent ++ gap) x with
             | None => None
             | Some r =>
                 match members l' with
                 | None => None
                 | Some rs =>
                     Some (match r with
                           | Some t => (quoteJSONString k ++ ": " ++ t) :: rs
                           | None => rs
                           end)
                 end
             end
         end) props = Some parts) as [parts ->].
    { induction props as [|[k x] props IH]; [eexists; reflexivity|].
      cbn in Hv. apply andb_prop in Hv as [Hx Hprops].
      destruct (serialize_isJson x (indent ++ gap) Hx) as [t ->].
      destruct (IH Hprops) as [rs ->]. eexists; reflexivity. }
    destruct parts; eexists; reflexivity.
Qed.

Lemma formatJson_isJson (v : value) :
  isJson v = true -> exists t, formatJson v = Some t /\ JSON_stringify v = Some (Some t).
Proof.
  intros H. destruct (serialize_isJson v EmptyString H) as [t Ht].
  exists t. unfold formatJson, formatJsonWith, JSON_stringify. rewrite Ht. auto.
Qed.

(** ** The fuel of the reader is enough

    Every call of the reader on the text that remains is made with more
    fuel than twice the length of that text, so the amount [JSON_parse]
    starts with is never used up: more fuel gives the same result. *)

Lemma skipWhitespace_length (s : string) :
  (String.length (skipWhitespace s) <= String.length s)%nat.
Proof.
  induction s as [|c s IH]; cbn; [lia|].
  destruct (isJsonWhitespace c); cbn; lia.
Qed.

Lemma after_length (pat : string) :
  forall s r, after pat s = Some r ->
    String.length s = (String.length pat + String.length r)%nat.
Proof.
  induction pat as [|a pat IH]; intros s r H; cbn in H.
  - injection H as <-. reflexivity.
  - destruct s as [|b s]; [discriminate|].
    destruct (Ascii.eqb a b); [|discriminate].
    cbn. rewrite (IH _ _ H). reflexivity.
Qed.

Lemma takeDigits_length (s : string) :
  forall acc count,
    (String.length (snd (takeDigits s acc count)) <= String.length s)%nat.
Proof.
  induction s as [|c s IH]; intros acc count; cbn; [lia|].
  destruct (digitValue c); cbn; [|lia].
  specialize (IH (acc * 10 + z)%Z (count + 1)%Z). lia.
Qed.

Lemma parseStringBody_length (n : nat) :
  forall s t r, (String.length s < n)%nat ->
    parseStringBody s = Some (t, r) -> (String.length r < String.length s)%nat.
Proof.
  induction n as [|n IH]; intros s t r Hn H; [lia|].
  destruct s as [|c s]; [discriminate|].
  cbn [parseStringBody] in H. cbn [String.length] in *.
  repeat match type of H with
    | (if ?b then _ else _) = Some _ => destruct b; try discriminate H
    | match parseStringBody ?x with _ => _ end = Some _ =>
        let E := fresh "E" in
        destruct (parseStringBody x) as [[? ?]|] eqn:E; [|discriminate H];
        apply IH in E; [|cbn [String.length]; lia]
    | match ?x with _ => _ end = Some _ =>
        destruct x; try discriminate H; cbn [String.length] in *
    end;
    injection H as <- <-; cbn [String.length] in *; lia.
Qed.

Lemma readSign_length (s : string) :
  (String.length (snd (readSign s)) <= String.length s)%nat.
Proof.
  unfold readSign. destruct (after "-" s) as [r|] eqn:H; cbn; [|lia].
  apply after_length in H. lia.
Qed.

Lemma readInteger_length (s : string) (m : Z) (r : string) :
  readInteger s = Some (m, r) -> (String.length r <= String.length s)%nat.
Proof.
  unfold readInteger. intros H.
  destruct (after "0" s) as [r0|] eqn:H0.
  - injection H as <- <-. apply after_length in H0. lia.
  - pose proof (takeDigits_length s 0%Z 0%Z) as Hd.
    destruct (takeDigits s 0%Z 0%Z) as [[m0 count] r0].
    destruct (count =? 0)%Z; [discriminate|]. injection H as <- <-. exact Hd.
Qed.

Lemma readFraction_length (m : Z) (s : string) (m' scale : Z) (r : string) :
  readFraction m s = Some (m', scale, r) ->
  (String.length r <= String.length s)%nat.
Proof.
  unfold readFraction. intros H.
  destruct (after "." s) as [r0|] eqn:H0.
  - pose proof (takeDigits_length r0 m 0%Z) as Hd.
    destruct (takeDigits r0 m 0%Z) as [[m0 count] r1].
    destruct (count =? 0)%Z; [discriminate|]. injection H as <- <- <-.
    apply after_length in H0. cbn in Hd. lia.
  - injection H as <- <- <-. lia.
Qed.

Lemma readExponent_length (s : string) (e : Z) (r : string) :
  readExponent s = Some (e, r) -> (String.length r <= String.length s)%nat.
Proof.
  unfold readExponent. intros H.
  destruct s as [|c s]; [injection H as <- <-; lia|].
  destruct (Ascii.eqb c "e" || Ascii.eqb c "E"); [|injection H as <- <-; lia].
  assert (forall r1, (String.length r1 <= String.length s)%nat ->
            forall negative : bool,
              (let '(e0, count, r2) := takeDigits r1 0%Z 0%Z in
               if (count =? 0)%Z then None
               else Some ((if negative then - e0 else e0)%Z, r2)) = Some (e, r) ->
              (String.length r <= String.length (String c s))%nat) as Hgo.
  { intros r1 Hr1 negative Hd.
    pose proof (takeDigits_length r1 0%Z 0%Z) as Hlen.
    destruct (takeDigits r1 0%Z 0%Z) as [[e0 count] r2].
    destruct (count =? 0)%Z; [discriminate|]. injection Hd as <- <-.
    cbn in *. lia. }
  destruct (after "-" s) as [r1|] eqn:Hm.
  - apply after_length in Hm. apply (Hgo r1 ltac:(lia) true H).
  - destruct (after "+" s) as [r1|] eqn:Hp.
    + apply after_length in Hp. apply (Hgo r1 ltac:(lia) false H).
    + apply (Hgo s ltac:(lia) false H).
Qed.

Lemma parseNumber_length (s : string) (x : number) (r : string) :
  parseNumber s = Some (x, r) -> (String.length r <= String.length s)%nat.
Proof.
  unfold parseNumber. intros H.
  pose proof (readSign_length s) as Hs.
  destruct (readSign s) as [neg s1]. cbn in Hs.
  destruct (readInteger s1) as [[m s2]|] eqn:Hi; [|discriminate].
  destruct (readFraction m s2) as [[[m' scale] s3]|] eqn:Hf; [|discriminate].
  destruct (readExponent s3) as [[e s4]|] eqn:He; [|discriminate].
  injection H as <- <-.
  apply readInteger_length in Hi. apply readFraction_length in Hf.
  apply readExponent_length in He. lia.
Qed.

Lemma parse_length (fuel : nat) :
  (forall s v r, parseValue fuel s = Some (v, r) ->
     (String.length r <= String.length s)%nat)
  /\ (forall s acc v r, parseElements fuel s acc = Some (v, r) ->
        (String.length r <= String.length s)%nat)
  /\ (forall s acc v r, parseMembers fuel s acc = Some (v, r) ->
        (String.length r <= String.length s)%nat).
Proof.
  induction fuel as [|fuel (IHv & IHe & IHm)]; [repeat split; intros; discriminate|].
  repeat split.
  - intros s v r H. cbn [parseValue] in H.
    destruct s as [|c rest]; [discriminate|]. cbn [String.length].
    destruct (Ascii.eqb c "[").
    { destruct (after "]" (skipWhitespace rest)) as [r0|] eqn:Ha.
      - injection H as <- <-. apply after_length in Ha.
        pose proof (skipWhitespace_length rest). lia.
      - apply IHe in H. lia. }
    destruct (Ascii.eqb c "{").
    { destruct (after "}" (skipWhitespace rest)) as [r0|] eqn:Ha.
      - injection H as <- <-. apply after_length in Ha.
        pose proof (skipWhitespace_length rest). lia.
      - apply IHm in H. lia. }
    destruct (Ascii.eqb c QUOTE).
    { destruct (parseStringBody rest) as [[t r0]|] eqn:Hb; [|discriminate].
      injection H as <- <-.
      apply (parseStringBody_length (S (String.length rest))) in Hb; lia. }
    destruct (after "null" (String c rest)) as [r0|] eqn:H1.
    { injection H as <- <-. apply after_length in H1. cbn in H1. lia. }
    destruct (after "true" (String c rest)) as [r0|] eqn:H2.
    { injection H as <- <-. apply after_length in H2. cbn in H2. lia. }
    destruct (after "false" (String c rest)) as [r0|] eqn:H3.
    { injection H as <- <-. apply after_length in H3. cbn in H3. lia. }
    destruct (parseNumber (String c rest)) as [[x r0]|] eqn:Hn; [|discriminate].
    injection H as <- <-. apply parseNumber_length in Hn. cbn in Hn. lia.
  - intros s acc v r H. cbn [parseElements] in H.
    destruct (parseValue fuel (skipWhitespace s)) as [[v0 r0]|] eqn:Hv0;
      [|discriminate].
    apply IHv in Hv0.
    pose proof (skipWhitespace_length s). pose proof (skipWhitespace_length r0).
    destruct (after "," (skipWhitespace r0)) as [r1|] eqn:Hc.
    { apply after_length in Hc. apply IHe in H. cbn in Hc. lia. }
    destruct (after "]" (skipWhitespace r0)) as [r1|] eqn:Hb; [|discriminate].
    injection H as <- <-. apply after_length in Hb. cbn in Hb. lia.
  - intros s acc v r H. cbn [parseMembers] in H.
    pose proof (skipWhitespace_length s).
    destruct (after Q (skipWhitespace s)) as [r0|] eqn:Hq; [|discriminate].
    apply after_length in Hq.
    destruct (parseStringBody r0) as [[k r1]|] eqn:Hk; [|discriminate].
    apply (parseStringBody_length (S (String.length r0))) in Hk; [|lia].
    pose proof (skipWhitespace_length r1).
    destruct (after ":" (skipWhitespace r1)) as [r2|] eqn:Hcolon; [|discriminate].
    apply after_length in Hcolon.
    pose proof (skipWhitespace_length r2).
    destruct (parseValue fuel (skipWhitespace r2)) as [[v0 r3]|] eqn:Hv0;
      [|discriminate].
    apply IHv in Hv0.
    pose proof (skipWhitespace_length r3).
    destruct (after "," (skipWhitespace r3)) as [r4|] eqn:Hc.
    { apply after_length in Hc. apply IHm in H. cbn in Hc. lia. }
    destruct (after "}" (skipWhitespace r3)) as [r4|] eqn:Hb; [|discriminate].
    injection H as <- <-. apply after_length in Hb. cbn in Hb. lia.
Qed.

Lemma parse_fuel (fuel : nat) :
  (forall s more, (2 * String.length s + 1 <= fuel)%nat -> (fuel <= more)%nat ->
     parseValue more s = parseValue fuel s)
  /\ (forall s acc more,
        (2 * String.length s + 2 <= fuel)%nat -> (fuel <= more)%nat ->
        parseElements more s acc = parseElements fuel s acc)
  /\ (forall s acc more,
        (2 * String.length s + 2 <= fuel)%nat -> (fuel <= more)%nat ->
        parseMembers more s acc = parseMembers fuel s acc).
Proof.
  induction fuel as [|fuel (IHv & IHe & IHm)]; [repeat split; intros; lia|].
  repeat split.
  - intros s [|more] Hs Hm; [lia|]. cbn [parseValue].
    destruct s as [|c rest]; [reflexivity|]. cbn [String.length] in Hs.
    rewrite (IHe rest [] more), (IHm rest [] more) by lia. reflexivity.
  - intros s acc [|more] Hs Hm; [lia|]. cbn [parseElements].
    pose proof (skipWhitespace_length s).
    rewrite (IHv (skipWhitespace s) more) by lia.
    destruct (parseValue fuel (skipWhitespace s)) as [[v0 r0]|] eqn:Hv0;
      [|reflexivity].
    apply (proj1 (parse_length fuel)) in Hv0.
    pose proof (skipWhitespace_length r0).
    destruct (after "," (skipWhitespace r0)) as [r1|] eqn:Hc; [|reflexivity].
    apply after_length in Hc. cbn in Hc.
    apply IHe; lia.
  - intros s acc [|more] Hs Hm; [lia|]. cbn [parseMembers].
    pose proof (skipWhitespace_length s).
    destruct (after Q (skipWhitespace s)) as [r0|] eqn:Hq; [|reflexivity].
    apply after_length in Hq. cbn in Hq.
    destruct (parseStringBody r0) as [[k r1]|] eqn:Hk; [|reflexivity].
    apply (parseStringBody_length (S (String.length r0))) in Hk; [|lia].
    pose proof (skipWhitespace_length r1).
    destruct (after ":" (skipWhitespace r1)) as [r2|] eqn:Hcolon; [|reflexivity].
    apply after_length in Hcolon. cbn in Hcolon.
    pose proof (skipWhitespace_length r2).
    rewrite (IHv (skipWhitespace r2) more) by lia.
    destruct (parseValue fuel (skipWhitespace r2)) as [[v0 r3]|] eqn:Hv0;
      [|reflexivity].
    apply (proj1 (parse_length fuel)) in Hv0.
    pose proof (skipWhitespace_length r3).
    destruct (after "," (skipWhitespace r3)) as [r4|] eqn:Hc; [|reflexivity].
    apply after_length in Hc. cbn in Hc.
    apply IHm; lia.
Qed.

(** [JSON_parse] does not depend on its fuel: any larger amount reads the
    same value, or fails alike. *)
Lemma JSON_parse_fuel (text : string) (more : nat) :
  (2 * String.length text + 2 <= more)%nat ->
  parseValue more (skipWhitespace text)
  = parseValue (2 * String.length text + 2) (skipWhitespace text).
Proof.
  intros H. pose proof (skipWhitespace_length text).
  apply (proj1 (parse_fuel _)); lia.
Qed.

(** ** [formatJson] *)

(** C8: [formatJson] returns what [JSON.stringify (value, null, 2)] returns;
    when that call throws, whatever made it throw, it returns the value
    itself if that is a string and the empty string otherwise; being a total
    function it never raises; and on the object with the one property x, of
    value 1, it returns the three lines {, two spaces and the member, }. *)
Theorem formatJson_spec :
  (forall stringify value text,
      stringify value = Some text -> formatJsonWith stringify value = text)
  /\ (forall stringify s,
        stringify (Str s) = None -> formatJsonWith stringify (Str s) = Some s)
  /\ (forall stringify value,
        stringify value = None ->
        (forall s, value <> Str s) ->
        formatJsonWith stringify value = Some EmptyString)
  /\ (forall value, formatJson value = formatJsonWith JSON_stringify value)
  /\ formatJson (Obj [("x", Number one)])
     = Some ("{" ++ NL ++ "  " ++ Q ++ "x" ++ Q ++ ": 1" ++ NL ++ "}").
Proof.
  split; [|split; [|split; [|split]]].
  - intros stringify value text H. unfold formatJsonWith. rewrite H. reflexivity.
  - intros stringify s H. unfold formatJsonWith. rewrite H. reflexivity.
  - intros stringify value H Hs. unfold formatJsonWith. rewrite H.
    destruct value; try reflexivity. contradiction (Hs s). reflexivity.
  - reflexivity.
  - vm_compute. reflexivity.
Qed.

(** On an engine whose texts hold at most twenty characters: a short value
    is serialized, a long string comes back as it is, and an array holding
    it gives the empty string; so does, on any engine, a BigInt. *)
Lemma formatJson_spec_witness :
  let engine :=
    fun value : value =>
      match JSON_stringify value with
      | Some (Some text) =>
          if (20 <? String.length text)%nat then None else Some (Some text)
      | outcome => outcome
      end in
  formatJsonWith engine (Arr [Bool true; Undefined])
  = Some ("[" ++ NL ++ "  true," ++ NL ++ "  null" ++ NL ++ "]")
  /\ formatJsonWith engine (Str "criterios de la entrega")
     = Some "criterios de la entrega"
  /\ formatJsonWith engine (Arr [Str "criterios de la entrega"]) = Some EmptyString
  /\ formatJsonWith JSON_stringify (Obj [("n", BigInt 7)]) = Some EmptyString.
Proof.
  intros engine. split; [|split; [|split]].
  - apply (proj1 formatJson_spec engine). reflexivity.
  - apply (proj1 (proj2 formatJson_spec) engine). reflexivity.
  - apply (proj1 (proj2 (proj2 formatJson_spec)) engine);
      [reflexivity | intros s; discriminate].
  - apply (proj1 (proj2 (proj2 formatJson_spec)) JSON_stringify);
      [reflexivity | intros s; discriminate].
Defined.

(** ** [sendWebhookRequest] *)

Lemma run_sendWebhookRequest (network : Request -> reply) (url : string)
    (body : FormData) (s : State) :
  run network (sendWebhookRequest url body) s
  = ([(s, AwaitFetch (webhookRequest url body))], s,
     webhookResult (network (webhookRequest url body))).
Proof.
  cbn. destruct (webhookResult (network (webhookRequest url body))); reflexivity.
Qed.

(** What [sendWebhookRequest] returns is a value read by [JSON.parse] or a
    string, so [printable] never stores the text of an [undefined]. *)
Lemma webhookResult_isJson (r : reply) (v : value) :
  webhookResult r = Fulfilled v -> isJson v = true.
Proof.
  unfold webhookResult. destruct r as [reason|response]; [discriminate|].
  destruct (negb (ok response)); [discriminate|].
  intros H. injection H as <-.
  pose proof (parseJsonSafely_isJson (responseBody response)) as Hj.
  destruct (parseJsonSafely (responseBody response)); try exact Hj; reflexivity.
Qed.

Lemma printable_defined (v : value) :
  isJson v = true ->
  (exists text, v = Str text /\ printable (processResult v) = extractIframeContent text)
  \/ (processResult v = v
      /\ exists text, formatJson v = Some text /\ printable (processResult v) = text).
Proof.
  intros Hv. destruct (formatJson_isJson v Hv) as (text & Hf & _).
  destruct v; try discriminate Hv;
    try (right; split; [reflexivity|]; exists text; split; [exact Hf|];
         unfold printable; cbn [processResult]; rewrite Hf; reflexivity).
  left. eexists. split; reflexivity.
Qed.

(** C1, as the code has it: on a success status the result is the value
    parsed from the body when the body is JSON for a value other than null,
    and the body text itself when the body is not JSON or is JSON for null;
    one request is issued and the state is not touched. *)
Theorem sendWebhookRequest_success (network : Request -> reply) (url : string)
    (body : FormData) (s : State) (response : Response) :
  network (webhookRequest url body) = Responded response ->
  ok response = true ->
  let r := run network (sendWebhookRequest url body) s in
  requests (suspensions r) = [webhookRequest url body]
  /\ finalState r = s
  /\ (forall v, JSON_parse (responseBody response) = Some v -> v <> Null ->
        completion r = Fulfilled v)
  /\ (JSON_parse (responseBody response) = Some Null ->
        completion r = Fulfilled (Str (responseBody response)))
  /\ (JSON_parse (responseBody response) = None ->
        completion r = Fulfilled (Str (responseBody response))).
Proof.
  intros Hnet Hok r. subst r. rewrite run_sendWebhookRequest, Hnet.
  unfold suspensions, finalState, completion, webhookResult, parseJsonSafely.
  cbn [fst snd requests]. rewrite Hok. cbn [negb].
  repeat split.
  - intros v Hv Hnull. rewrite Hv.
    pose proof (JSON_parse_isJson _ _ Hv) as Hjson.
    destruct v; try reflexivity; [discriminate Hjson|contradiction].
  - intros ->. reflexivity.
  - intros ->. reflexivity.
Qed.

Lemma sendWebhookRequest_success_witness :
  completion
    (run (respond 200 "OK" ("[1, " ++ Q ++ "dos" ++ Q ++ "]"))
       (sendWebhookRequest (gradingWebhookUrl exampleEnv) []) initialState)
  = Fulfilled (Arr [Number one; Str "dos"])
  /\ completion
       (run (respond 200 "OK" "<p>hecho</p>")
          (sendWebhookRequest (gradingWebhookUrl exampleEnv) []) initialState)
     = Fulfilled (Str "<p>hecho</p>").
Proof.
  split.
  - refine (proj1 (proj2 (proj2
      (sendWebhookRequest_success
         (respond 200 "OK" ("[1, " ++ Q ++ "dos" ++ Q ++ "]"))
         (gradingWebhookUrl exampleEnv) [] initialState
         {| status := 200; statusText := "OK";
            responseBody := "[1, " ++ Q ++ "dos" ++ Q ++ "]" |}
         eq_refl eq_refl))) _ _ _).
    + vm_compute. reflexivity.
    + discriminate.
  - refine (proj2 (proj2 (proj2 (proj2
      (sendWebhookRequest_success
         (respond 200 "OK" "<p>hecho</p>")
         (gradingWebhookUrl exampleEnv) [] initialState
         {| status := 200; statusText := "OK"; responseBody := "<p>hecho</p>" |}
         eq_refl eq_refl)))) _).
    vm_compute. reflexivity.
Defined.

(** C1 as stated fails on the body [null]: it is JSON, for the value null,
    and the text of the body is returned instead of that value. *)
Lemma sendWebhookRequest_null_body :
  let response := {| status := 200; statusText := "OK"; responseBody := "null" |} in
  let r := run (fun _ => Responded response)
               (sendWebhookRequest (gradingWebhookUrl exampleEnv) []) initialState in
  ok response = true
  /\ JSON_parse (responseBody response) = Some Null
  /\ completion r = Fulfilled (Str "null")
  /\ completion r <> Fulfilled Null.
Proof.
  vm_compute. repeat split; discriminate.
Qed.

(** C2, as the code has it: on a status outside 200..299 the function throws
    a WebhookError whose message is Error, the status, a colon and the status
    text (or a fixed text when that is empty); its details are the indented
    JSON of the body when the body is JSON for a truthy value, and the body
    text itself when the body is not JSON or is JSON for null, false, 0 or
    the empty string.  For status 500 and the body {error: boom} the message
    contains 500 and the details are the indented form of that object. *)
Theorem sendWebhookRequest_failure :
  (forall (network : Request -> reply) (url : string) (body : FormData)
          (s : State) (response : Response),
      network (webhookRequest url body) = Responded response ->
      ok response = false ->
      exists error,
        completion (run network (sendWebhookRequest url body) s)
        = Rejected (ThrownObject error)
        /\ message error
           = "Error " ++ decimalOfZ (Z.of_N (status response)) ++ ": " ++
             (if String.eqb (statusText response) EmptyString
              then "al invocar el webhook" else statusText response)
        /\ (forall v pretty,
              JSON_parse (responseBody response) = Some v -> truthy v = true ->
              JSON_stringify v = Some (Some pretty) ->
              details error = Some pretty)
        /\ (forall v,
              JSON_parse (responseBody response) = Some v -> truthy v = false ->
              details error = Some (responseBody response))
        /\ (JSON_parse (responseBody response) = None ->
              details error = Some (responseBody response)))
  /\ (forall (url text : string) (body : FormData) (s : State),
        let boom := "{" ++ Q ++ "error" ++ Q ++ ":" ++ Q ++ "boom" ++ Q ++ "}" in
        exists error,
          completion (run (respond 500 text boom) (sendWebhookRequest url body) s)
          = Rejected (ThrownObject error)
          /\ includes "500" (message error) = true
          /\ JSON_parse boom = Some (Obj [("error", Str "boom")])
          /\ JSON_stringify (Obj [("error", Str "boom")])
             = Some (Some ("{" ++ NL ++ "  " ++ Q ++ "error" ++ Q ++ ": "
                             ++ Q ++ "boom" ++ Q ++ NL ++ "}"))
          /\ details error
             = Some ("{" ++ NL ++ "  " ++ Q ++ "error" ++ Q ++ ": "
                       ++ Q ++ "boom" ++ Q ++ NL ++ "}")).
Proof.
  split.
  - intros network url body s response Hnet Hok.
    rewrite run_sendWebhookRequest, Hnet.
    unfold completion, webhookResult, parseJsonSafely. cbn [snd].
    rewrite Hok. cbn [negb].
    eexists. split; [reflexivity|]. cbn [message details].
    split; [reflexivity|]. repeat split.
    + intros v pretty Hv Ht Hs. rewrite Hv, Ht. unfold formatJson, formatJsonWith. rewrite Hs.
      reflexivity.
    + intros v Hv Ht. rewrite Hv, Ht. reflexivity.
    + intros ->. reflexivity.
  - intros url text body s boom.
    rewrite run_sendWebhookRequest. unfold respond, completion. cbn [snd].
    eexists. split; [vm_compute; reflexivity|].
    repeat split; vm_compute; reflexivity.
Qed.

Lemma sendWebhookRequest_failure_witness :
  exists error,
    completion
      (run (respond 404 EmptyString ("[" ++ Q ++ "no existe" ++ Q ++ "]"))
         (sendWebhookRequest (rubricWebhookUrl exampleEnv) []) initialState)
    = Rejected (ThrownObject error)
    /\ message error = "Error 404: al invocar el webhook"
    /\ details error = Some ("[" ++ NL ++ "  " ++ Q ++ "no existe" ++ Q ++ NL ++ "]").
Proof.
  destruct (proj1 sendWebhookRequest_failure
              (respond 404 EmptyString ("[" ++ Q ++ "no existe" ++ Q ++ "]"))
              (rubricWebhookUrl exampleEnv) [] initialState
              {| status := 404; statusText := EmptyString;
                 responseBody := "[" ++ Q ++ "no existe" ++ Q ++ "]" |}
              eq_refl eq_refl)
    as (error & Hr & Hm & Hd & _).
  exists error. split; [exact Hr|]. split; [exact Hm|].
  apply (Hd (Arr [Str "no existe"])); vm_compute; reflexivity.
Defined.

(** C2 as stated fails on the body [0.0] with status 500: it is JSON, its
    indented form is [0], and the details are the body text. *)
Lemma sendWebhookRequest_falsy_body :
  let r := run (respond 500 "Internal Server Error" "0.0")
               (sendWebhookRequest (gradingWebhookUrl exampleEnv) []) initialState in
  JSON_parse "0.0" = Some (Number (S754_zero false))
  /\ JSON_stringify (Number (S754_zero false)) = Some (Some "0")
  /\ r = ([(initialState,
            AwaitFetch (webhookRequest (gradingWebhookUrl exampleEnv) []))],
          initialState,
          Rejected (ThrownObject
            {| message := "Error 500: Internal Server Error";
               details := Some "0.0" |}))
  /\ Some "0.0" <> Some "0".
Proof.
  vm_compute. repeat split; discriminate.
Qed.

(** ** The handlers

    Throughout, [network] is what the webhooks answer and [env] the three
    configured URLs.

    *** The runs of the handlers in closed form *)

Section Handlers.

Variable network : Request -> reply.
Variable env : Env.

Lemma run_handleGenerateRubric (s s0 : State) :
  run network (handleGenerateRubric env s) s0
  = match rubricPdf s with
    | None =>
        ([], withRubricError
               (validation "Selecciona un archivo PDF antes de generar la rúbrica.") s0,
         Fulfilled tt)
    | Some pdf =>
        if String.eqb (rubricWebhookUrl env) EmptyString then
          ([], withRubricError
                 (validation
                    "Configura la variable VITE_RUBRIC_WEBHOOK_URL en tu archivo .env.")
                 s0,
           Fulfilled tt)
        else
          let request := webhookRequest (rubricWebhookUrl env) [("pdf", FormFile pdf)] in
          let s1 := withRubricError None (withIsGeneratingRubric true s0) in
          ([(s1, AwaitFetch request)],
           withIsGeneratingRubric false
             match webhookResult (network request) with
             | Fulfilled result =>
                 withRubricSource (Some generada)
                   (withRubricJson (printable (processResult result)) s1)
             | Rejected error => withRubricError (Some (asWebhookError error)) s1
             end,
           Fulfilled tt)
    end.
Proof.
  unfold handleGenerateRubric.
  destruct (rubricPdf s) as [pdf|]; [|reflexivity].
  destruct (String.eqb (rubricWebhookUrl env) EmptyString); [reflexivity|].
  cbn. destruct (webhookResult _); reflexivity.
Qed.

Lemma run_handleGradeSubmission (s s0 : State) :
  run network (handleGradeSubmission env s) s0
  = if negb (hasRubric s) then
      ([], withGradingError
             (validation
                "Necesitas generar o importar una rúbrica JSON antes de corregir.") s0,
       Fulfilled tt)
    else
      match submissionFile s with
      | None =>
          ([], withGradingError (validation "Selecciona un archivo para corregir.") s0,
           Fulfilled tt)
      | Some submission =>
          if String.eqb (gradingWebhookUrl env) EmptyString then
            ([], withGradingError
                   (validation
                      "Configura la variable VITE_GRADING_WEBHOOK_URL en tu archivo .env.")
                   s0,
             Fulfilled tt)
          else
            let request :=
              webhookRequest (gradingWebhookUrl env)
                [("rubric", FormBlob (rubricJson s) "application/json" "rubrica.json");
                 ("submission", FormFile submission)] in
            let s1 :=
              withGradingResponse Null (withGradingError None (withIsGrading true s0)) in
            ([(s1, AwaitFetch request)],
             withIsGrading false
               match webhookResult (network request) with
               | Fulfilled result => withGradingResponse (processResult result) s1
               | Rejected error => withGradingError (Some (asWebhookError error)) s1
               end,
             Fulfilled tt)
      end.
Proof.
  unfold handleGradeSubmission.
  destruct (negb (hasRubric s)); [reflexivity|].
  destruct (submissionFile s) as [submission|]; [|reflexivity].
  destruct (String.eqb (gradingWebhookUrl env) EmptyString); [reflexivity|].
  cbn. destruct (webhookResult _); reflexivity.
Qed.

Lemma run_handleUploadToSpreadsheet (s s0 : State) :
  run network (handleUploadToSpreadsheet env s) s0
  = if String.eqb (spreadsheetWebhookUrl env) EmptyString then
      ([], withSpreadsheetError
             (validation
                "Configura la variable VITE_SPREADSHEET_WEBHOOK_URL en tu archivo .env.")
             s0,
       Fulfilled tt)
    else if String.eqb (trim (spreadsheetUrl s)) EmptyString
            || String.eqb (trim (spreadsheetSheetName s)) EmptyString
            || String.eqb (trim (spreadsheetStudentName s)) EmptyString then
      ([], withSpreadsheetError
             (validation
                "Completa la URL de la planilla, el nombre de la hoja y el nombre del alumno antes de enviar.")
             s0,
       Fulfilled tt)
    else
      let request :=
        webhookRequest (spreadsheetWebhookUrl env)
          [("spreadsheet_url", FormText (spreadsheetUrl s));
           ("sheet_name", FormText (spreadsheetSheetName s));
           ("alumno", FormText (spreadsheetStudentName s));
           ("nota", FormText (spreadsheetGrade s));
           ("resumen_por_criterios", FormText (spreadsheetSummaryByCriteria s));
           ("fortalezas", FormText (spreadsheetStrengths s));
           ("recomendaciones", FormText (spreadsheetRecommendations s))] in
      let s1 :=
        withSpreadsheetResponse Null
          (withSpreadsheetError None (withIsUploadingSpreadsheet true s0)) in
      ([(s1, AwaitFetch request)],
       withIsUploadingSpreadsheet false
         match webhookResult (network request) with
         | Fulfilled result => withSpreadsheetResponse (processResult result) s1
         | Rejected error => withSpreadsheetError (Some (asWebhookError error)) s1
         end,
       Fulfilled tt).
Proof.
  unfold handleUploadToSpreadsheet.
  destruct (String.eqb (spreadsheetWebhookUrl env) EmptyString); [reflexivity|].
  destruct (String.eqb (trim (spreadsheetUrl s)) EmptyString
            || String.eqb (trim (spreadsheetSheetName s)) EmptyString
            || String.eqb (trim (spreadsheetStudentName s)) EmptyString);
    [reflexivity|].
  cbn. destruct (webhookResult _); reflexivity.
Qed.

Lemma run_handleRubricImport (file : File) (s s0 : State) :
  run network (handleRubricImport (Some file) s) s0
  = ([(s0, AwaitText file)],
     match fileText file with
     | Rejected reason =>
         withRubricError
           (Some {| message :=
                      match reason with
                      | ThrownError m => m
                      | _ => "No se pudo leer la rúbrica JSON."
                      end;
                    details := None |}) s0
     | Fulfilled text =>
         if negb (truthy (parseJsonSafely text)) then
           withRubricError (validation "El archivo no contiene un JSON válido.") s0
         else
           match JSON_stringify (parseJsonSafely text) with
           | None =>
               withRubricError (validation "Do not know how to serialize a BigInt") s0
           | Some pretty =>
               withRubricError None
                 (withRubricSource (Some importada)
                    (withRubricJson (stored pretty) s0))
           end
     end,
     Fulfilled tt).
Proof.
  unfold handleRubricImport. cbn.
  destruct (fileText file) as [text|reason]; [|reflexivity].
  destruct (negb (truthy (parseJsonSafely text))); [reflexivity|].
  destruct (JSON_stringify (parseJsonSafely text)); reflexivity.
Qed.

Lemma hasRubric_blank (s : State) :
  trim (rubricJson s) = EmptyString <-> hasRubric s = false.
Proof.
  unfold hasRubric. destruct (trim (rubricJson s)); cbn; split;
    intros; auto; discriminate.
Qed.

(** ** Importing a rubric *)

(** C5, as the code has it: the import keeps the file when its text is JSON
    for a truthy value: the rubric text becomes the indented form of the
    value that [JSON.stringify] has returned, the provenance becomes
    importada and the rubric error is cleared.  When the text is not JSON,
    or is JSON for null, false, 0 or the empty string, the error with the
    fixed message is stored.  No request is issued in either case. *)
Theorem handleRubricImport_spec (file : File) (text : string) (s : State) :
  fileText file = Fulfilled text ->
  let r := run network (handleRubricImport (Some file) s) s in
  requests (suspensions r) = []
  /\ (forall v pretty,
        JSON_parse text = Some v -> truthy v = true ->
        JSON_stringify v = Some (Some pretty) ->
        finalState r
        = withRubricError None
            (withRubricSource (Some importada) (withRubricJson pretty s)))
  /\ (forall v, JSON_parse text = Some v -> truthy v = false ->
        finalState r
        = withRubricError (validation "El archivo no contiene un JSON válido.") s)
  /\ (JSON_parse text = None ->
        finalState r
        = withRubricError (validation "El archivo no contiene un JSON válido.") s).
Proof.
  intros Htext r. subst r. rewrite run_handleRubricImport, Htext.
  unfold suspensions, finalState, parseJsonSafely. cbn [fst snd requests].
  repeat split.
  - intros v pretty Hv Ht Hp. rewrite Hv, Ht, Hp. reflexivity.
  - intros v Hv Ht. rewrite Hv, Ht. reflexivity.
  - intros ->. reflexivity.
Qed.



(** ** Validation *)

(** C6: with a blank rubric text the grading handler stores the error that
    asks for a rubric and issues no request, whatever file is selected; and
    each of the three handlers, when one of its required inputs is missing,
    completes with a validation error in its own slot, without a request and
    without a suspension. *)
Theorem validation_fails_fast (s : State) :
  (trim (rubricJson s) = EmptyString ->
   let r := run network (handleGradeSubmission env s) s in
   suspensions r = []
   /\ requests (suspensions r) = []
   /\ completion r = Fulfilled tt
   /\ finalState r
      = withGradingError
          (validation "Necesitas generar o importar una rúbrica JSON antes de corregir.")
          s)
  /\ (rubricPdf s = None \/ rubricWebhookUrl env = EmptyString ->
      let r := run network (handleGenerateRubric env s) s in
      suspensions r = [] /\ completion r = Fulfilled tt
      /\ exists text, finalState r = withRubricError (validation text) s)
  /\ (trim (rubricJson s) = EmptyString \/ submissionFile s = None
      \/ gradingWebhookUrl env = EmptyString ->
      let r := run network (handleGradeSubmission env s) s in
      suspensions r = [] /\ completion r = Fulfilled tt
      /\ exists text, finalState r = withGradingError (validation text) s)
  /\ (spreadsheetWebhookUrl env = EmptyString
      \/ trim (spreadsheetUrl s) = EmptyString
      \/ trim (spreadsheetSheetName s) = EmptyString
      \/ trim (spreadsheetStudentName s) = EmptyString ->
      let r := run network (handleUploadToSpreadsheet env s) s in
      suspensions r = [] /\ completion r = Fulfilled tt
      /\ exists text, finalState r = withSpreadsheetError (validation text) s).
Proof.
  split; [|split; [|split]]; intros H r; subst r.
  - rewrite run_handleGradeSubmission.
    apply hasRubric_blank in H. rewrite H. repeat split.
  - rewrite run_handleGenerateRubric.
    destruct (rubricPdf s) as [pdf|]; [|repeat split; eexists; reflexivity].
    destruct H as [H|H]; [discriminate|]. rewrite H.
    repeat split; eexists; reflexivity.
  - rewrite run_handleGradeSubmission.
    destruct (negb (hasRubric s)) eqn:Hr; [repeat split; eexists; reflexivity|].
    destruct (submissionFile s) as [f|]; [|repeat split; eexists; reflexivity].
    destruct H as [H|[H|H]].
    + apply hasRubric_blank in H. rewrite H in Hr. discriminate.
    + discriminate.
    + rewrite H. repeat split; eexists; reflexivity.
  - rewrite run_handleUploadToSpreadsheet.
    destruct (String.eqb (spreadsheetWebhookUrl env) EmptyString) eqn:Hu;
      [repeat split; eexists; reflexivity|].
    destruct H as [H|[H|[H|H]]]; rewrite H in *; [discriminate| | |];
      rewrite ?orb_true_r; repeat split; eexists; reflexivity.
Qed.


(** ** Generating a rubric *)

(** C7: with a PDF selected and the rubric URL configured, a response of
    status 200 whose body is the object with rubric_id r1 leaves the rubric
    text equal to the indented form of that object, the provenance generada,
    no rubric error and the busy flag false; while the request was in
    flight the busy flag was true. *)
Theorem handleGenerateRubric_success (s : State) (pdf : File) (text : string) :
  rubricPdf s = Some pdf ->
  rubricWebhookUrl env <> EmptyString ->
  network (webhookRequest (rubricWebhookUrl env) [("pdf", FormFile pdf)])
  = Responded {| status := 200; statusText := text;
                 responseBody :=
                   "{" ++ Q ++ "rubric_id" ++ Q ++ ":" ++ Q ++ "r1" ++ Q ++ "}" |} ->
  let r := run network (handleGenerateRubric env s) s in
  let pretty :=
    "{" ++ NL ++ "  " ++ Q ++ "rubric_id" ++ Q ++ ": " ++ Q ++ "r1" ++ Q ++ NL ++ "}" in
  JSON_stringify (Obj [("rubric_id", Str "r1")]) = Some (Some pretty)
  /\ rubricJson (finalState r) = pretty
  /\ rubricSource (finalState r) = Some generada
  /\ rubricError (finalState r) = None
  /\ isGeneratingRubric (finalState r) = false
  /\ completion r = Fulfilled tt
  /\ exists inFlight,
       suspensions r
       = [(inFlight,
           AwaitFetch (webhookRequest (rubricWebhookUrl env) [("pdf", FormFile pdf)]))]
       /\ isGeneratingRubric inFlight = true
       /\ rubricError inFlight = None.
Proof.
  intros Hpdf Hurl Hnet r pretty. subst r pretty.
  rewrite run_handleGenerateRubric, Hpdf.
  apply String.eqb_neq in Hurl. rewrite Hurl. cbv zeta. rewrite Hnet.
  unfold suspensions, finalState, completion. cbn [fst snd].
  assert (webhookResult
            (Responded {| status := 200; statusText := text;
                          responseBody :=
                            "{" ++ Q ++ "rubric_id" ++ Q ++ ":" ++ Q ++ "r1" ++ Q ++ "}" |})
          = Fulfilled (Obj [("rubric_id", Str "r1")])) as -> by (vm_compute; reflexivity).
  split; [vm_compute; reflexivity|].
  split; [vm_compute; reflexivity|].
  repeat split. eexists. repeat split.
Qed.


(** ** The three actions keep to their own state *)

(** C9: whatever the network answers and whatever state the setters act on,
    a run of one handler leaves the busy flag, the result and the error of
    the other two actions as they were, at every suspension and at the end;
    so an error is only ever stored in the slot of the action it came from. *)
Theorem actions_are_separate (s s0 : State) :
  (let r := run network (handleGenerateRubric env s) s0 in
   gradeSlots (finalState r) = gradeSlots s0
   /\ uploadSlots (finalState r) = uploadSlots s0
   /\ Forall (fun frame => gradeSlots (fst frame) = gradeSlots s0
                           /\ uploadSlots (fst frame) = uploadSlots s0)
        (suspensions r))
  /\ (let r := run network (handleGradeSubmission env s) s0 in
      generateSlots (finalState r) = generateSlots s0
      /\ uploadSlots (finalState r) = uploadSlots s0
      /\ Forall (fun frame => generateSlots (fst frame) = generateSlots s0
                              /\ uploadSlots (fst frame) = uploadSlots s0)
           (suspensions r))
  /\ (let r := run network (handleUploadToSpreadsheet env s) s0 in
      generateSlots (finalState r) = generateSlots s0
      /\ gradeSlots (finalState r) = gradeSlots s0
      /\ Forall (fun frame => generateSlots (fst frame) = generateSlots s0
                              /\ gradeSlots (fst frame) = gradeSlots s0)
           (suspensions r)).
Proof.
  split; [|split]; intros r; subst r.
  - rewrite run_handleGenerateRubric.
    destruct (rubricPdf s); [|repeat split; constructor].
    destruct (String.eqb _ _); [repeat split; constructor|].
    cbv zeta. destruct (webhookResult _); repeat split; repeat constructor.
  - rewrite run_handleGradeSubmission.
    destruct (negb _); [repeat split; constructor|].
    destruct (submissionFile s); [|repeat split; constructor].
    destruct (String.eqb _ _); [repeat split; constructor|].
    cbv zeta. destruct (webhookResult _); repeat split; repeat constructor.
  - rewrite run_handleUploadToSpreadsheet.
    destruct (String.eqb _ _); [repeat split; constructor|].
    destruct (_ || _); [repeat split; constructor|].
    cbv zeta. destruct (webhookResult _); repeat split; repeat constructor.
Qed.

(** ** The busy flags *)

(** C10: a handler started from its button, which is enabled only while the
    busy flag of its action is false, ends with that flag false, whether the
    validation failed, the webhook answered or the request failed; and the
    flag is true in the states committed while the request is awaited, which
    are the only states of the run between its start and its end. *)
Theorem busy_flag_cleared (s : State) :
  (generateDisabled s = false ->
   let r := run network (handleGenerateRubric env s) s in
   isGeneratingRubric (finalState r) = false
   /\ completion r = Fulfilled tt
   /\ Forall (fun frame => isGeneratingRubric (fst frame) = true
                           /\ exists request, snd frame = AwaitFetch request)
        (suspensions r))
  /\ (gradeDisabled s = false ->
      let r := run network (handleGradeSubmission env s) s in
      isGrading (finalState r) = false
      /\ completion r = Fulfilled tt
      /\ Forall (fun frame => isGrading (fst frame) = true
                              /\ exists request, snd frame = AwaitFetch request)
           (suspensions r))
  /\ (uploadDisabled s = false ->
      let r := run network (handleUploadToSpreadsheet env s) s in
      isUploadingSpreadsheet (finalState r) = false
      /\ completion r = Fulfilled tt
      /\ Forall (fun frame => isUploadingSpreadsheet (fst frame) = true
                              /\ exists request, snd frame = AwaitFetch request)
           (suspensions r)).
Proof.
  split; [|split]; intros Hidle r; subst r.
  - rewrite run_handleGenerateRubric.
    destruct (rubricPdf s); [|repeat split; [exact Hidle|constructor]].
    destruct (String.eqb _ _); [repeat split; [exact Hidle|constructor]|].
    cbv zeta. repeat split. repeat constructor. eexists; reflexivity.
  - rewrite run_handleGradeSubmission.
    destruct (negb _); [repeat split; [exact Hidle|constructor]|].
    destruct (submissionFile s); [|repeat split; [exact Hidle|constructor]].
    destruct (String.eqb _ _); [repeat split; [exact Hidle|constructor]|].
    cbv zeta. repeat split. repeat constructor. eexists; reflexivity.
  - rewrite run_handleUploadToSpreadsheet.
    destruct (String.eqb _ _); [repeat split; [exact Hidle|constructor]|].
    destruct (_ || _); [repeat split; [exact Hidle|constructor]|].
    cbv zeta. repeat split. repeat constructor. eexists; reflexivity.
Qed.

End Handlers.

(** ** The handlers at concrete inputs *)

Lemma handleRubricImport_spec_witness :
  let file := {| fileName := "rubrica.json"; fileType := "application/json";
                 fileText := Fulfilled ("{" ++ Q ++ "criterios" ++ Q ++ ":[]}") |} in
  finalState (run (respond 200 "OK" EmptyString) (handleRubricImport (Some file) initialState)
                initialState)
  = withRubricError None
      (withRubricSource (Some importada)
         (withRubricJson ("{" ++ NL ++ "  " ++ Q ++ "criterios" ++ Q ++ ": []" ++ NL ++ "}")
            initialState)).
Proof.
  intros file.
  apply (proj1 (proj2
           (handleRubricImport_spec (respond 200 "OK" EmptyString) file
              ("{" ++ Q ++ "criterios" ++ Q ++ ":[]}") initialState eq_refl))
           (Obj [("criterios", Arr [])]));
    [vm_compute; reflexivity | reflexivity | vm_compute; reflexivity].
Defined.

(** C5 as stated fails on a file whose text is [0]: the text is JSON and the
    import stores the error instead of the rubric. *)
Lemma handleRubricImport_zero :
  let file := {| fileName := "rubrica.json"; fileType := "application/json";
                 fileText := Fulfilled "0" |} in
  let r := run (respond 200 "OK" EmptyString) (handleRubricImport (Some file) initialState)
               initialState in
  JSON_parse "0" = Some (Number (S754_zero false))
  /\ JSON_stringify (Number (S754_zero false)) = Some (Some "0")
  /\ rubricJson (finalState r) = EmptyString
  /\ rubricSource (finalState r) = None
  /\ rubricError (finalState r)
     = validation "El archivo no contiene un JSON válido."
  /\ rubricJson (finalState r) <> "0".
Proof.
  vm_compute. repeat split; discriminate.
Qed.

Lemma validation_fails_fast_witness :
  let s := stateWith "   " None (Some exampleSubmission) in
  finalState (run (respond 200 "OK" "{}") (handleGradeSubmission exampleEnv s) s)
  = withGradingError
      (validation "Necesitas generar o importar una rúbrica JSON antes de corregir.") s
  /\ suspensions (run (respond 200 "OK" "{}") (handleGenerateRubric exampleEnv s) s) = []
  /\ suspensions (run (respond 200 "OK" "{}") (handleGradeSubmission exampleEnv s) s) = []
  /\ suspensions (run (respond 200 "OK" "{}") (handleUploadToSpreadsheet exampleEnv s) s)
     = [].
Proof.
  intros s.
  destruct (validation_fails_fast (respond 200 "OK" "{}") exampleEnv s)
    as (Hgrade & Hgen & Hgr & Hup).
  split; [|split; [|split]].
  - apply Hgrade. reflexivity.
  - apply Hgen. left. reflexivity.
  - apply Hgr. left. reflexivity.
  - apply Hup. right. left. reflexivity.
Defined.

Lemma handleGenerateRubric_success_witness :
  let s := stateWith EmptyString (Some examplePdf) None in
  let body := "{" ++ Q ++ "rubric_id" ++ Q ++ ":" ++ Q ++ "r1" ++ Q ++ "}" in
  let r := run (respond 200 "OK" body) (handleGenerateRubric exampleEnv s) s in
  rubricJson (finalState r)
  = "{" ++ NL ++ "  " ++ Q ++ "rubric_id" ++ Q ++ ": " ++ Q ++ "r1" ++ Q ++ NL ++ "}"
  /\ rubricSource (finalState r) = Some generada
  /\ rubricError (finalState r) = None
  /\ isGeneratingRubric (finalState r) = false.
Proof.
  intros s body r.
  destruct (handleGenerateRubric_success (respond 200 "OK" body) exampleEnv s
              examplePdf "OK" eq_refl)
    as (_ & Hjson & Hsource & Herror & Hbusy & _).
  - discriminate.
  - reflexivity.
  - auto.
Defined.

Lemma busy_flag_cleared_witness :
  let s := stateWith "{}" (Some examplePdf) (Some exampleSubmission) in
  isGeneratingRubric
    (finalState (run (respond 502 "Bad Gateway" EmptyString) (handleGenerateRubric exampleEnv s) s))
  = false
  /\ isGrading
       (finalState (run (fun _ => NetworkFailure (ThrownError "Failed to fetch"))
                      (handleGradeSubmission exampleEnv s) s))
     = false
  /\ isUploadingSpreadsheet
       (finalState (run (respond 200 "OK" "{}") (handleUploadToSpreadsheet exampleEnv s) s))
     = false.
Proof.
  intros s. split; [|split].
  - apply (proj1 (busy_flag_cleared (respond 502 "Bad Gateway" EmptyString) exampleEnv s)).
    reflexivity.
  - apply (proj1 (proj2 (busy_flag_cleared
                           (fun _ => NetworkFailure (ThrownError "Failed to fetch"))
                           exampleEnv s))).
    reflexivity.
  - apply (proj2 (proj2 (busy_flag_cleared (respond 200 "OK" "{}") exampleEnv s))).
    reflexivity.
Defined.

(** * Further properties

    ** Replacement, once more *)

Lemma replaceFrom_keep (pat rep : string) (c : ascii) (s : string) :
  startsWith pat (String c s) = false ->
  replaceFrom pat rep 0 (String c s) = String c (replaceFrom pat rep 0 s).
Proof.
  intros H. cbn [replaceFrom]. rewrite H. reflexivity.
Qed.

(** A replacement whose pattern starts with [a] and whose replacement is the
    character [r] does not change whether the text starts with [w], when
    [w] holds neither [a] nor [r]. *)
Lemma replaceFrom_keeps_start (a r : ascii) (p w : string) :
  allChars (fun x => negb (Ascii.eqb x a) && negb (Ascii.eqb x r)) w = true ->
  forall s,
    startsWith w (replaceFrom (String a p) (String r EmptyString) 0 s)
    = startsWith w s.
Proof.
  induction w as [|x w IH]; intros Hw s; [reflexivity|].
  cbn [allChars] in Hw. apply andb_prop in Hw as [Hx Hw].
  apply andb_prop in Hx as [Hxa Hxr].
  apply negb_true_iff in Hxa, Hxr.
  destruct s as [|c s]; [reflexivity|].
  cbn [replaceFrom].
  destruct (startsWith (String a p) (String c s)) eqn:Hp.
  - cbn [startsWith] in Hp. apply andb_prop in Hp as [Hac _].
    apply Ascii.eqb_eq in Hac. subst c.
    cbn [append startsWith]. rewrite Hxr, Hxa. reflexivity.
  - cbn [startsWith]. rewrite (IH Hw). reflexivity.
Qed.

Lemma replaceAll_no_line_break_left (n : nat) :
  forall s, (String.length s < n)%nat ->
    includes "\n" (replaceFrom "\n" NL 0 s) = false.
Proof.
  induction n as [|n IH]; intros s Hlen; [lia|].
  destruct s as [|c s]; [reflexivity|].
  cbn [replaceFrom].
  destruct (startsWith "\n" (String c s)) eqn:Hp.
  - destruct (startsWith_split _ _ Hp) as [t Ht]. injection Ht as -> ->.
    cbn. apply IH. cbn in Hlen. lia.
  - cbn [includes].
    rewrite (IH s) by (cbn in Hlen; lia). rewrite orb_false_r.
    change "\n" with (String "\" "n") in Hp |- * at 1.
    rewrite startsWith_cons in Hp |- *.
    pose proof (replaceFrom_keeps_start "\" LF "n" "n" eq_refl s) as K.
    fold NL in K. rewrite K. exact Hp.
Qed.

Lemma replaceAll_no_line_break (s : string) :
  includes "\n" (replaceAll "\n" NL s) = false.
Proof.
  apply (replaceAll_no_line_break_left (S (String.length s))). lia.
Qed.

(** X1: whatever the input, the result of [extractIframeContent] holds no
    sequence backslash, n: each one has become a line feed, and the
    replacements create none. *)
Theorem extractIframeContent_no_escape_left (text : string) :
  includes "\n" (extractIframeContent text) = false.
Proof.
  unfold extractIframeContent.
  destruct (iframeMatch text) as [[|c rest]|]; apply replaceAll_no_line_break.
Qed.

(** ** The five replacements are one pass *)

Lemma replacements_one_pass (n : nat) :
  forall s, (String.length s < n)%nat ->
    replaceFrom "\n" (String LF EmptyString) 0
      (replaceFrom "&amp;" "&" 0
         (replaceFrom "&gt;" ">" 0
            (replaceFrom "&lt;" "<" 0
               (replaceFrom "&quot;" (String QUOTE EmptyString) 0 s))))
    = unescapeFrom 0 s.
Proof.
  induction n as [|n IH]; intros s Hlen; [lia|].
  destruct s as [|c s]; [reflexivity|].
  cbn [unescapeFrom].
  destruct (startsWith "&quot;" (String c s)) eqn:H1.
  { destruct (startsWith_split _ _ H1) as [t Ht]. injection Ht as -> ->.
    cbn. f_equal. apply IH. cbn in Hlen. lia. }
  destruct (startsWith "&lt;" (String c s)) eqn:H2.
  { destruct (startsWith_split _ _ H2) as [t Ht]. injection Ht as -> ->.
    cbn. f_equal. apply IH. cbn in Hlen. lia. }
  destruct (startsWith "&gt;" (String c s)) eqn:H3.
  { destruct (startsWith_split _ _ H3) as [t Ht]. injection Ht as -> ->.
    cbn. f_equal. apply IH. cbn in Hlen. lia. }
  destruct (startsWith "&amp;" (String c s)) eqn:H4.
  { destruct (startsWith_split _ _ H4) as [t Ht]. injection Ht as -> ->.
    cbn. f_equal. apply IH. cbn in Hlen. lia. }
  destruct (startsWith "\n" (String c s)) eqn:H5.
  { destruct (startsWith_split _ _ H5) as [t Ht]. injection Ht as -> ->.
    cbn. f_equal. apply IH. cbn in Hlen. lia. }
  rewrite startsWith_cons in H2, H3, H4, H5.
  rewrite (replaceFrom_keep _ _ _ _ H1).
  rewrite replaceFrom_keep.
  2: { rewrite startsWith_cons, (replaceFrom_keeps_start "&" QUOTE). exact H2.
       reflexivity. }
  rewrite replaceFrom_keep.
  2: { rewrite startsWith_cons, (replaceFrom_keeps_start "&" "<"),
         (replaceFrom_keeps_start "&" QUOTE). exact H3.
       all: reflexivity. }
  rewrite replaceFrom_keep.
  2: { rewrite startsWith_cons, (replaceFrom_keeps_start "&" ">"),
         (replaceFrom_keeps_start "&" "<"), (replaceFrom_keeps_start "&" QUOTE).
       exact H4. all: reflexivity. }
  rewrite replaceFrom_keep.
  2: { rewrite startsWith_cons, (replaceFrom_keeps_start "&" "&"),
         (replaceFrom_keeps_start "&" ">"), (replaceFrom_keeps_start "&" "<"),
         (replaceFrom_keeps_start "&" QUOTE).
       exact H5. all: reflexivity. }
  f_equal. apply IH. cbn in Hlen. lia.
Qed.

(** X2: on a match with a non-empty capture the result is the capture read
    once from the left, each entity and each backslash-n replaced where it
    stands: what a replacement produces is never decoded again, so the text
    ampersand, amp;lt; gives ampersand, lt; and not the sign itself. *)
Theorem extractIframeContent_one_pass (text captured : string) :
  iframeMatch text = Some captured ->
  captured <> EmptyString ->
  extractIframeContent text = unescapeOnce captured.
Proof.
  intros Hm Hne. unfold extractIframeContent. rewrite Hm.
  destruct captured as [|c rest]; [contradiction|].
  apply (replacements_one_pass (S (String.length (String c rest)))). lia.
Qed.

Lemma extractIframeContent_one_pass_witness :
  extractIframeContent
    "<iframe srcdoc='&amp;lt;b&amp;gt; &amp;amp;quot; \&amp;n &lt;&amp;'>"
  = unescapeOnce "&amp;lt;b&amp;gt; &amp;amp;quot; \&amp;n &lt;&amp;"
  /\ unescapeOnce "&amp;lt;b&amp;gt; &amp;amp;quot; \&amp;n &lt;&amp;"
     = "&lt;b&gt; &amp;quot; \&n <&".
Proof.
  split; [|reflexivity].
  apply extractIframeContent_one_pass; [reflexivity | discriminate].
Defined.

(** ** What a match of the iframe pattern is *)

Lemma sameChar_gt (c : ascii) : sameChar ">" c = Ascii.eqb c ">".
Proof. destruct c as [[] [] [] [] [] [] [] []]; reflexivity. Qed.

Lemma sameChar_lt (c : ascii) : sameChar "<" c = Ascii.eqb c "<".
Proof. destruct c as [[] [] [] [] [] [] [] []]; reflexivity. Qed.

Lemma sameChar_quote (c : ascii) : sameChar QUOTE c = Ascii.eqb c QUOTE.
Proof. destruct c as [[] [] [] [] [] [] [] []]; reflexivity. Qed.

Lemma sameChar_apostrophe (c : ascii) : sameChar "'" c = Ascii.eqb c "'".
Proof. destruct c as [[] [] [] [] [] [] [] []]; reflexivity. Qed.

Lemma allChars_ext (p q : ascii -> bool) (s : string) :
  (forall c, p c = q c) -> allChars p s = allChars q s.
Proof.
  intros H. induction s as [|c s IH]; [reflexivity|].
  cbn. rewrite H, IH. reflexivity.
Qed.

Lemma test_not_gt (c : ascii) :
  test (Cls true [">"%char]) c = negb (Ascii.eqb c ">").
Proof. cbn. rewrite sameChar_gt, orb_false_r. reflexivity. Qed.

Lemma test_quote (c : ascii) :
  test (Cls false [QUOTE; "'"%char]) c = isQuoteChar c.
Proof.
  unfold isQuoteChar. cbn.
  rewrite sameChar_quote, sameChar_apostrophe, orb_false_r. reflexivity.
Qed.

Lemma test_not_quote (c : ascii) :
  test (Cls true [QUOTE; "'"%char]) c = negb (isQuoteChar c).
Proof.
  unfold isQuoteChar. cbn.
  rewrite sameChar_quote, sameChar_apostrophe, orb_false_r. reflexivity.
Qed.

Lemma matches_literal (w : string) (r : list item) :
  forall cap s cap' rest,
    matches (literal w ++ r) cap s cap' rest ->
    exists t s',
      s = t ++ s' /\ equalsIgnoreCase w t = true /\ matches r cap s' cap' rest.
Proof.
  induction w as [|a w IH]; intros cap s cap' rest H.
  - exists EmptyString, s. auto.
  - change (literal (String a w) ++ r)%list
      with (One (Chr a) :: (literal w ++ r)%list) in H.
    inversion H as [ | a0 r0 c s0 cap0 cap1 rest0 Ht Hm | | ]; subst.
    destruct (IH _ _ _ _ Hm) as (t & s' & -> & Heq & Hm').
    exists (String c t), s'. cbn in Ht |- *. rewrite Ht, Heq. auto.
Qed.

(** X3: a match is an iframe tag, written in any case, that holds after any
    attributes the text srcdoc=, a quote, the captured text, a quote, and
    further on the closing sign; the captured text holds no quote, and
    neither stretch of attributes holds the closing sign. *)
Theorem iframeMatch_shape (text captured : string) :
  iframeMatch text = Some captured ->
  exists before tag attributes key q1 q2 more rest,
    text = before ++ tag ++ attributes ++ key
             ++ String q1 (captured ++ String q2 (more ++ String ">" rest))
    /\ equalsIgnoreCase "<iframe" tag = true
    /\ equalsIgnoreCase "srcdoc=" key = true
    /\ isQuoteChar q1 = true /\ isQuoteChar q2 = true
    /\ allChars (fun c => negb (Ascii.eqb c ">")) attributes = true
    /\ allChars (fun c => negb (isQuoteChar c)) captured = true
    /\ allChars (fun c => negb (Ascii.eqb c ">")) more = true.
Proof.
  intros H. unfold iframeMatch in H.
  destruct (search_sound _ _ _ H) as (before & from & rest & -> & Hm).
  unfold iframePattern in Hm.
  apply matches_literal in Hm as (tag & s1 & -> & Htag & Hm).
  cbn [app] in Hm.
  inversion Hm as [ | | a r attributes s2 cap0 cap1 rest0 Hattr Hm2 | ]; subst.
  apply (matches_literal "srcdoc="
           [One (Cls false [QUOTE; "'"%char]); Capture (Cls true [QUOTE; "'"%char]);
            One (Cls false [QUOTE; "'"%char]); Many (Cls true [">"%char]);
            One (Chr ">")]) in Hm2 as (key & s3 & -> & Hkey & Hm3).
  inversion Hm3 as [ | a r q1 s4 cap0 cap1 rest0 Hq1 Hm4 | | ]; subst.
  inversion Hm4 as [ | | | a r cap s5 cap0 cap1 rest0 Hcap Hm5 ]; subst.
  inversion Hm5 as [ | a r q2 s6 cap0 cap1 rest0 Hq2 Hm6 | | ]; subst.
  inversion Hm6 as [ | | a r more s7 cap0 cap1 rest0 Hmore Hm7 | ]; subst.
  inversion Hm7 as [ | a r c s8 cap0 cap1 rest0 Hc Hm8 | | ]; subst.
  inversion Hm8; subst.
  change (test (Chr ">") c = true) in Hc. cbn [test] in Hc.
  rewrite sameChar_gt in Hc. apply Ascii.eqb_eq in Hc. subst c.
  rewrite test_quote in Hq1, Hq2.
  rewrite (allChars_ext _ _ _ test_not_gt) in Hattr.
  rewrite (allChars_ext _ _ _ test_not_gt) in Hmore.
  rewrite (allChars_ext _ _ _ test_not_quote) in Hcap.
  exists before, tag, attributes, key, q1, q2, more, rest.
  repeat split; assumption || reflexivity.
Qed.

Lemma iframeMatch_shape_witness :
  exists before tag attributes key q1 q2 more rest,
    "ok <IFrame id=r SRCDOC='hola' width=1>fin"
    = before ++ tag ++ attributes ++ key
        ++ String q1 ("hola" ++ String q2 (more ++ String ">" rest))
    /\ equalsIgnoreCase "<iframe" tag = true
    /\ equalsIgnoreCase "srcdoc=" key = true.
Proof.
  destruct (iframeMatch_shape "ok <IFrame id=r SRCDOC='hola' width=1>fin" "hola"
              eq_refl)
    as (before & tag & attributes & key & q1 & q2 & more & rest & H & Ht & Hk & _).
  exists before, tag, attributes, key, q1, q2, more, rest. auto.
Defined.

(** ** Texts without an opening sign *)

Lemma search_none_without (a : atom) (r : list item) (s : string) :
  allChars (fun c => negb (test a c)) s = true ->
  search (One a :: r) s = None.
Proof.
  induction s as [|c s IH]; intros H; [reflexivity|].
  cbn [allChars] in H. apply andb_prop in H as [Hc Hs].
  apply negb_true_iff in Hc.
  cbn [search exec]. rewrite Hc. exact (IH Hs).
Qed.

(** X4: a text that holds no opening sign has no match, so the result is
    the text with its backslash-n sequences turned into line feeds and
    nothing else changed: no entity is decoded. *)
Theorem extractIframeContent_plain_text (text : string) :
  allChars (fun c => negb (Ascii.eqb c "<")) text = true ->
  iframeMatch text = None
  /\ extractIframeContent text = replaceAll "\n" NL text
  /\ lineBreaksConverted text (extractIframeContent text).
Proof.
  intros H.
  assert (iframeMatch text = None) as Hm.
  { unfold iframeMatch, iframePattern.
    change (literal "<iframe") with (One (Chr "<") :: literal "iframe").
    cbn [app]. apply search_none_without.
    rewrite (allChars_ext _ (fun c => negb (Ascii.eqb c "<"))); [exact H|].
    intros c. cbn [test]. rewrite sameChar_lt. reflexivity. }
  split; [exact Hm|]. unfold extractIframeContent. rewrite Hm.
  split; [reflexivity|apply replaceAll_line_breaks].
Qed.

Lemma extractIframeContent_plain_text_witness :
  extractIframeContent "Nota: 8\nMuy bien &amp; claro"
  = "Nota: 8" ++ NL ++ "Muy bien &amp; claro".
Proof.
  rewrite (proj1 (proj2 (extractIframeContent_plain_text
                           "Nota: 8\nMuy bien &amp; claro" eq_refl))).
  reflexivity.
Defined.

(** ** The outcomes of [sendWebhookRequest] *)

(** X5: the call fulfils exactly when a response arrives with a status in
    200..299; the value it fulfils with is never null nor undefined (it is a
    string or a value read from JSON); and when a response arrives with
    another status the error thrown always carries details. *)
Theorem sendWebhookRequest_outcomes (network : Request -> reply) (url : string)
    (body : FormData) (s : State) :
  let r := run network (sendWebhookRequest url body) s in
  ((exists v, completion r = Fulfilled v)
   <-> exists response,
         network (webhookRequest url body) = Responded response
         /\ ok response = true)
  /\ (forall v, completion r = Fulfilled v ->
        v <> Null /\ v <> Undefined /\ isJson v = true)
  /\ (forall response,
        network (webhookRequest url body) = Responded response ->
        ok response = false ->
        exists error text,
          completion r = Rejected (ThrownObject error)
          /\ details error = Some text).
Proof.
  intros r. subst r. rewrite run_sendWebhookRequest.
  unfold completion. cbn [snd]. repeat split.
  - intros [v Hv]. unfold webhookResult in Hv.
    destruct (network (webhookRequest url body)) as [reason|response];
      [discriminate|].
    exists response. split; [reflexivity|].
    destruct (ok response); [reflexivity|discriminate].
  - intros (response & -> & Hok). unfold webhookResult. rewrite Hok.
    eexists. reflexivity.
  - intros ->. revert H. unfold webhookResult.
    destruct (network (webhookRequest url body)) as [reason|response];
      [discriminate|].
    destruct (negb (ok response)); [discriminate|].
    destruct (parseJsonSafely (responseBody response)); discriminate.
  - intros ->. revert H. unfold webhookResult.
    destruct (network (webhookRequest url body)) as [reason|response];
      [discriminate|].
    destruct (negb (ok response)); [discriminate|].
    pose proof (parseJsonSafely_isJson (responseBody response)) as Hj.
    destruct (parseJsonSafely (responseBody response)); discriminate.
  - exact (webhookResult_isJson _ _ H).
  - intros response -> Hok. unfold webhookResult. rewrite Hok. cbn [negb].
    destruct (truthy (parseJsonSafely (responseBody response))).
    + destruct (formatJson_isJson _ (parseJsonSafely_isJson (responseBody response)))
        as (text & Hf & _).
      eexists. exists text. split; [reflexivity|exact Hf].
    + eexists. eexists. split; reflexivity.
Qed.

Lemma sendWebhookRequest_outcomes_witness :
  (exists v,
     completion (run (respond 204 "No Content" EmptyString)
                   (sendWebhookRequest (gradingWebhookUrl exampleEnv) []) initialState)
     = Fulfilled v)
  /\ exists error text,
       completion (run (respond 503 "Service Unavailable" "<html>caido</html>")
                     (sendWebhookRequest (gradingWebhookUrl exampleEnv) [])
                     initialState)
       = Rejected (ThrownObject error)
       /\ details error = Some text.
Proof.
  split.
  - apply (proj1 (sendWebhookRequest_outcomes
                    (respond 204 "No Content" EmptyString)
                    (gradingWebhookUrl exampleEnv) [] initialState)).
    eexists. split; reflexivity.
  - apply (proj2 (proj2 (sendWebhookRequest_outcomes
                           (respond 503 "Service Unavailable" "<html>caido</html>")
                           (gradingWebhookUrl exampleEnv) [] initialState))
             {| status := 503; statusText := "Service Unavailable";
                responseBody := "<html>caido</html>" |});
      reflexivity.
Defined.

(** ** Serialized values are visible text *)

Lemma startsVisible_append (a b : string) :
  startsVisible a = true -> startsVisible (a ++ b) = true.
Proof. destruct a; [discriminate|]. auto. Qed.

Lemma digitChar_visible (d : Z) :
  (0 <= d < 10)%Z -> visibleChar (digitChar d) = true.
Proof.
  intros H.
  assert (d = 0 \/ d = 1 \/ d = 2 \/ d = 3 \/ d = 4 \/ d = 5 \/ d = 6 \/ d = 7
          \/ d = 8 \/ d = 9)%Z as Hd by lia.
  repeat (destruct Hd as [-> | Hd]; [reflexivity|]). subst d. reflexivity.
Qed.

Lemma decimalDigits_visible (fuel : nat) :
  forall n acc,
    startsVisible acc = true \/ fuel <> O ->
    startsVisible (decimalDigits fuel n acc) = true.
Proof.
  induction fuel as [|fuel IH]; intros n acc H.
  - destruct H as [H|H]; [exact H|contradiction].
  - cbn [decimalDigits].
    assert (startsVisible (String (digitChar (n mod 10)) acc) = true) as Hd.
    { apply digitChar_visible. apply Z.mod_pos_bound. lia. }
    destruct (n <? 10)%Z; [exact Hd|]. apply IH. left. exact Hd.
Qed.

Lemma decimalOfZ_visible (n : Z) : startsVisible (decimalOfZ n) = true.
Proof. apply decimalDigits_visible. right. discriminate. Qed.

Lemma layoutNumber_visible (s n : Z) : startsVisible (layoutNumber s n) = true.
Proof.
  unfold layoutNumber.
  pose proof (decimalOfZ_visible s) as Hd.
  destruct (decimalOfZ s) as [|c digits] eqn:E; [discriminate|].
  repeat match goal with
    | |- context [if ?b then _ else _] => destruct b eqn:?
    end; try exact Hd; try reflexivity.
  match goal with
    | H : (_ && _) = true |- _ => apply andb_prop in H as [Hn _]
    end.
  apply Z.ltb_lt in Hn.
  destruct (Z.to_nat n) as [|k] eqn:Ek; [lia|]. exact Hd.
Qed.

Lemma numberToString_visible (x : number) :
  startsVisible (numberToString x) = true.
Proof.
  destruct x as [neg|neg| |neg m e]; try reflexivity.
  - destruct neg; reflexivity.
  - unfold numberToString.
    destruct (shortestDigits _ _ _ _ _ _ _) as [s n].
    destruct neg; [reflexivity|]. apply layoutNumber_visible.
Qed.

Lemma serialize_visible (v : value) (indent text : string) :
  serialize indent v = Some (Some text) -> startsVisible text = true.
Proof.
  destruct v as [ | |b|x|z|s|items|props]; cbn [serialize]; intros H;
    try discriminate H.
  - injection H as <-. reflexivity.
  - destruct b; injection H as <-; reflexivity.
  - injection H as <-. destruct (isFiniteNumber x); [|reflexivity].
    apply numberToString_visible.
  - injection H as <-. reflexivity.
  - match type of H with
    | match ?p with _ => _ end = _ => destruct p as [[|part parts]|]
    end; try discriminate H; injection H as <-; reflexivity.
  - match type of H with
    | match ?p with _ => _ end = _ => destruct p as [[|part parts]|]
    end; try discriminate H; injection H as <-; reflexivity.
Qed.

Lemma trimStart_visible (s : string) :
  startsVisible s = true -> trimStart s = s.
Proof.
  destruct s as [|a s1]; [discriminate|].
  unfold startsVisible, visibleChar. intros H.
  apply andb_prop in H as [Hlo Hhi].
  apply Nat.leb_le in Hlo, Hhi.
  cbn [trimStart].
  replace ((9 <=? nat_of_ascii a) && (nat_of_ascii a <=? 13)
           || (nat_of_ascii a =? 32))%nat with false.
  2: { symmetry. apply orb_false_iff. split.
       - apply andb_false_iff. right. apply Nat.leb_gt. lia.
       - apply Nat.eqb_neq. lia. }
  destruct s1 as [|b s2]; [reflexivity|].
  replace (nat_of_ascii a =? 194)%nat with false
    by (symmetry; apply Nat.eqb_neq; lia).
  cbn [andb].
  destruct s2 as [|c s3]; [reflexivity|].
  replace (nat_of_ascii a =? 225)%nat with false
    by (symmetry; apply Nat.eqb_neq; lia).
  replace (nat_of_ascii a =? 226)%nat with false
    by (symmetry; apply Nat.eqb_neq; lia).
  replace (nat_of_ascii a =? 227)%nat with false
    by (symmetry; apply Nat.eqb_neq; lia).
  replace (nat_of_ascii a =? 239)%nat with false
    by (symmetry; apply Nat.eqb_neq; lia).
  reflexivity.
Qed.

Lemma trim_visible (s : string) :
  startsVisible s = true -> trim s <> EmptyString.
Proof.
  intros H. unfold trim. rewrite (trimStart_visible _ H).
  destruct s as [|c s]; [discriminate|].
  cbn [trimEnd]. rewrite (trimStart_visible _ H). discriminate.
Qed.

(** X6: [JSON.stringify] never returns [undefined] for what
    [parseJsonSafely] returns; and whenever [JSON.stringify (value, null, 2)]
    returns a text, for any value, [formatJson] returns that text, and the
    text starts with a visible character, so that it is not blank. *)
Theorem JSON_stringify_not_blank :
  (forall text, JSON_stringify (parseJsonSafely text) <> Some None)
  /\ forall value pretty,
       JSON_stringify value = Some (Some pretty) ->
       formatJson value = Some pretty
       /\ startsVisible pretty = true
       /\ trim pretty <> EmptyString.
Proof.
  split.
  - intros text.
    destruct (formatJson_isJson _ (parseJsonSafely_isJson text)) as (t & _ & ->).
    discriminate.
  - intros value pretty Hs.
    pose proof (serialize_visible _ _ _ Hs) as Hv.
    split; [unfold formatJson, formatJsonWith; rewrite Hs; reflexivity|].
    split; [exact Hv|apply trim_visible; exact Hv].
Qed.

Lemma JSON_stringify_not_blank_witness :
  formatJson (Arr [Str " "; Number one])
  = Some ("[" ++ NL ++ "  " ++ Q ++ " " ++ Q ++ "," ++ NL ++ "  1" ++ NL ++ "]")
  /\ trim ("[" ++ NL ++ "  " ++ Q ++ " " ++ Q ++ "," ++ NL ++ "  1" ++ NL ++ "]")
     <> EmptyString.
Proof.
  destruct (proj2 JSON_stringify_not_blank (Arr [Str " "; Number one])
              ("[" ++ NL ++ "  " ++ Q ++ " " ++ Q ++ "," ++ NL ++ "  1" ++ NL ++ "]")
              eq_refl)
    as (Hf & _ & Ht).
  split; [exact Hf|exact Ht].
Defined.

(** ** One request at most, and only with every input *)

Section Requests.

Variable network : Request -> reply.
Variable env : Env.

(** X7: each of the three handlers completes without rejecting and issues
    at most one request; it issues one exactly when all its required inputs
    are there, and the request is then a POST to the configured URL with the
    fields of that action: pdf; rubric (the rubric text as rubrica.json,
    application/json) and submission; or the seven text fields of the
    spreadsheet form, the optional ones as typed. *)
Theorem handlers_requests (s : State) :
  (let r := run network (handleGenerateRubric env s) s in
   completion r = Fulfilled tt
   /\ match rubricPdf s with
      | Some pdf =>
          if String.eqb (rubricWebhookUrl env) EmptyString
          then requests (suspensions r) = []
          else requests (suspensions r)
               = [webhookRequest (rubricWebhookUrl env) [("pdf", FormFile pdf)]]
      | None => requests (suspensions r) = []
      end)
  /\ (let r := run network (handleGradeSubmission env s) s in
      completion r = Fulfilled tt
      /\ match submissionFile s with
         | Some submission =>
             if hasRubric s && negb (String.eqb (gradingWebhookUrl env) EmptyString)
             then requests (suspensions r)
                  = [webhookRequest (gradingWebhookUrl env)
                       [("rubric",
                         FormBlob (rubricJson s) "application/json" "rubrica.json");
                        ("submission", FormFile submission)]]
             else requests (suspensions r) = []
         | None => requests (suspensions r) = []
         end)
  /\ (let r := run network (handleUploadToSpreadsheet env s) s in
      completion r = Fulfilled tt
      /\ if negb (String.eqb (spreadsheetWebhookUrl env) EmptyString)
            && negb (String.eqb (trim (spreadsheetUrl s)) EmptyString)
            && negb (String.eqb (trim (spreadsheetSheetName s)) EmptyString)
            && negb (String.eqb (trim (spreadsheetStudentName s)) EmptyString)
         then requests (suspensions r)
              = [webhookRequest (spreadsheetWebhookUrl env)
                   [("spreadsheet_url", FormText (spreadsheetUrl s));
                    ("sheet_name", FormText (spreadsheetSheetName s));
                    ("alumno", FormText (spreadsheetStudentName s));
                    ("nota", FormText (spreadsheetGrade s));
                    ("resumen_por_criterios",
                     FormText (spreadsheetSummaryByCriteria s));
                    ("fortalezas", FormText (spreadsheetStrengths s));
                    ("recomendaciones", FormText (spreadsheetRecommendations s))]]
         else requests (suspensions r) = []).
Proof.
  split; [|split]; intros r; subst r.
  - rewrite run_handleGenerateRubric.
    destruct (rubricPdf s); [|split; reflexivity].
    destruct (String.eqb _ _); split; reflexivity.
  - rewrite run_handleGradeSubmission.
    destruct (hasRubric s); cbn [negb andb];
      destruct (submissionFile s); try (split; reflexivity).
    destruct (String.eqb _ _); split; reflexivity.
  - rewrite run_handleUploadToSpreadsheet.
    destruct (String.eqb (spreadsheetWebhookUrl env) EmptyString);
      [split; reflexivity|].
    destruct (String.eqb (trim (spreadsheetUrl s)) EmptyString);
      [split; reflexivity|].
    destruct (String.eqb (trim (spreadsheetSheetName s)) EmptyString);
      [split; reflexivity|].
    destruct (String.eqb (trim (spreadsheetStudentName s)) EmptyString);
      split; reflexivity.
Qed.

End Requests.

(** ** The state an action settles in *)

Lemma processResult_not_null (v : value) :
  v <> Null -> v <> Undefined ->
  processResult v <> Null /\ processResult v <> Undefined.
Proof. destruct v; intros H1 H2; split; cbn; congruence. Qed.

Lemma webhookResult_not_null (r : reply) (v : value) :
  webhookResult r = Fulfilled v -> v <> Null /\ v <> Undefined.
Proof.
  unfold webhookResult. destruct r as [reason|response]; [discriminate|].
  destruct (negb (ok response)); [discriminate|].
  pose proof (parseJsonSafely_isJson (responseBody response)) as Hj.
  intros H. injection H as <-.
  destruct (parseJsonSafely (responseBody response)); split; discriminate.
Qed.

Section Settled.

Variable network : Request -> reply.
Variable env : Env.

(** X8: once a request has been issued the action ends with exactly one of
    its error and its result: grading and upload end either without error
    and with a result that is not null, or with the error and a null
    result; generation ends either without error, with the processed
    answer as rubric text and the provenance generada, or with the error
    and the rubric text and provenance it started with. *)
Theorem settled_outcome (s : State) :
  (let r := run network (handleGenerateRubric env s) s in
   requests (suspensions r) <> [] ->
   (rubricError (finalState r) = None
    /\ rubricSource (finalState r) = Some generada
    /\ exists request result,
         requests (suspensions r) = [request]
         /\ webhookResult (network request) = Fulfilled result
         /\ rubricJson (finalState r) = printable (processResult result))
   \/ (exists error,
         rubricError (finalState r) = Some error
         /\ rubricJson (finalState r) = rubricJson s
         /\ rubricSource (finalState r) = rubricSource s))
  /\ (let r := run network (handleGradeSubmission env s) s in
      requests (suspensions r) <> [] ->
      (gradingError (finalState r) = None
       /\ gradingResponse (finalState r) <> Null
       /\ gradingResponse (finalState r) <> Undefined)
      \/ (exists error,
            gradingError (finalState r) = Some error
            /\ gradingResponse (finalState r) = Null))
  /\ (let r := run network (handleUploadToSpreadsheet env s) s in
      requests (suspensions r) <> [] ->
      (spreadsheetError (finalState r) = None
       /\ spreadsheetResponse (finalState r) <> Null
       /\ spreadsheetResponse (finalState r) <> Undefined)
      \/ (exists error,
            spreadsheetError (finalState r) = Some error
            /\ spreadsheetResponse (finalState r) = Null)).
Proof.
  split; [|split]; intros r; subst r.
  - rewrite run_handleGenerateRubric.
    destruct (rubricPdf s) as [pdf|]; [|intros H; contradiction H; reflexivity].
    destruct (String.eqb _ _); [intros H; contradiction H; reflexivity|].
    cbv zeta. intros _. unfold finalState, suspensions. cbn [fst snd requests].
    destruct (webhookResult _) as [result|error] eqn:E.
    + left. repeat split. eexists. exists result. repeat split. exact E.
    + right. eexists. repeat split.
  - rewrite run_handleGradeSubmission.
    destruct (negb (hasRubric s)); [intros H; contradiction H; reflexivity|].
    destruct (submissionFile s); [|intros H; contradiction H; reflexivity].
    destruct (String.eqb _ _); [intros H; contradiction H; reflexivity|].
    cbv zeta. intros _. unfold finalState. cbn [fst snd].
    destruct (webhookResult _) as [result|error] eqn:E.
    + left. split; [reflexivity|].
      destruct (webhookResult_not_null _ _ E) as [H1 H2].
      exact (processResult_not_null _ H1 H2).
    + right. eexists. split; reflexivity.
  - rewrite run_handleUploadToSpreadsheet.
    destruct (String.eqb _ _); [intros H; contradiction H; reflexivity|].
    destruct (_ || _); [intros H; contradiction H; reflexivity|].
    cbv zeta. intros _. unfold finalState. cbn [fst snd].
    destruct (webhookResult _) as [result|error] eqn:E.
    + left. split; [reflexivity|].
      destruct (webhookResult_not_null _ _ E) as [H1 H2].
      exact (processResult_not_null _ H1 H2).
    + right. eexists. split; reflexivity.
Qed.

(** X9: invoking a handler again from the state it ended in, with the same
    inputs and the same answer of the webhook, ends in that same state. *)
Theorem handlers_idempotent (s : State) :
  (let s1 := finalState (run network (handleGenerateRubric env s) s) in
   finalState (run network (handleGenerateRubric env s1) s1) = s1)
  /\ (let s1 := finalState (run network (handleGradeSubmission env s) s) in
      finalState (run network (handleGradeSubmission env s1) s1) = s1)
  /\ (let s1 := finalState (run network (handleUploadToSpreadsheet env s) s) in
      finalState (run network (handleUploadToSpreadsheet env s1) s1) = s1).
Proof.
  split; [|split]; intros s1; subst s1.
  - rewrite (run_handleGenerateRubric network env s s).
    destruct (rubricPdf s) as [pdf|] eqn:Hpdf.
    2: { rewrite run_handleGenerateRubric. cbn. rewrite Hpdf. reflexivity. }
    destruct (String.eqb (rubricWebhookUrl env) EmptyString) eqn:Hurl.
    { rewrite run_handleGenerateRubric. cbn. rewrite Hpdf, Hurl. reflexivity. }
    cbv zeta.
    destruct (webhookResult _) as [result|error] eqn:E;
      rewrite run_handleGenerateRubric; cbn; rewrite Hpdf, Hurl; cbn;
      rewrite E; reflexivity.
  - rewrite (run_handleGradeSubmission network env s s).
    destruct (hasRubric s) eqn:Hr; cbn [negb].
    2: { rewrite run_handleGradeSubmission.
         match goal with
         | |- context [hasRubric ?t] => change (hasRubric t) with (hasRubric s)
         end.
         rewrite Hr. reflexivity. }
    destruct (submissionFile s) as [f|] eqn:Hf.
    2: { rewrite run_handleGradeSubmission.
         match goal with
         | |- context [hasRubric ?t] => change (hasRubric t) with (hasRubric s)
         end.
         rewrite Hr. cbn. rewrite Hf. reflexivity. }
    destruct (String.eqb (gradingWebhookUrl env) EmptyString) eqn:Hurl.
    { rewrite run_handleGradeSubmission.
      match goal with
      | |- context [hasRubric ?t] => change (hasRubric t) with (hasRubric s)
      end.
      rewrite Hr. cbn. rewrite Hf, Hurl. reflexivity. }
    cbv zeta.
    destruct (webhookResult _) as [result|error] eqn:E;
      rewrite run_handleGradeSubmission;
      match goal with
      | |- context [hasRubric ?t] => change (hasRubric t) with (hasRubric s)
      end;
      rewrite Hr; cbn; rewrite Hf, Hurl; cbn; rewrite E; reflexivity.
  - rewrite (run_handleUploadToSpreadsheet network env s s).
    destruct (String.eqb (spreadsheetWebhookUrl env) EmptyString) eqn:Hurl.
    { rewrite run_handleUploadToSpreadsheet. rewrite Hurl. reflexivity. }
    destruct (_ || _) eqn:Hv.
    { unfold finalState. cbn [fst snd].
      rewrite run_handleUploadToSpreadsheet. rewrite Hurl.
      cbn [spreadsheetUrl spreadsheetSheetName spreadsheetStudentName
           withSpreadsheetError].
      rewrite Hv. reflexivity. }
    cbv zeta. unfold finalState. cbn [fst snd].
    destruct (webhookResult _) as [result|error] eqn:E;
      rewrite run_handleUploadToSpreadsheet; rewrite Hurl;
      cbn [spreadsheetUrl spreadsheetSheetName spreadsheetStudentName
           spreadsheetGrade spreadsheetSummaryByCriteria spreadsheetStrengths
           spreadsheetRecommendations
           withSpreadsheetError withSpreadsheetResponse withIsUploadingSpreadsheet];
      rewrite Hv; cbv zeta; rewrite E; reflexivity.
Qed.

End Settled.

Lemma settled_outcome_witness :
  let s := stateWith "{}" (Some examplePdf) (Some exampleSubmission) in
  let r := run (respond 200 "OK" "[1]") (handleGradeSubmission exampleEnv s) s in
  (gradingError (finalState r) = None
   /\ gradingResponse (finalState r) <> Null
   /\ gradingResponse (finalState r) <> Undefined)
  \/ (exists error,
        gradingError (finalState r) = Some error
        /\ gradingResponse (finalState r) = Null).
Proof.
  intros s r.
  apply (proj1 (proj2 (settled_outcome (respond 200 "OK" "[1]") exampleEnv s))).
  vm_compute. discriminate.
Defined.

(** ** Two actions at once *)

Lemma run_updates {A : Type} (network : Request -> reply) (m : io A) :
  forall s, finalState (run network m s) = applyAll (updates network m) s.
Proof.
  unfold finalState.
  induction m as [a|e|f k IH|request k IH|file k IH]; intros s; cbn;
    try reflexivity.
  - apply IH.
  - specialize (IH (network request) s).
    destruct (run network (k (network request)) s) as [[frames s'] r]. exact IH.
  - specialize (IH (fileText file) s).
    destruct (run network (k (fileText file)) s) as [[frames s'] r]. exact IH.
Qed.

Lemma applyAll_app (l1 l2 : list (State -> State)) :
  forall s, applyAll (l1 ++ l2) s = applyAll l2 (applyAll l1 s).
Proof. induction l1 as [|f l1 IH]; intros s; cbn; auto. Qed.

Lemma applyAll_move (x : State -> State) (l1 l2 : list (State -> State)) :
  (forall f, In f l1 -> forall s, f (x s) = x (f s)) ->
  forall s, applyAll (l1 ++ x :: l2) s = applyAll (l1 ++ l2) (x s).
Proof.
  induction l1 as [|f l1 IH]; intros H s; [reflexivity|].
  cbn. rewrite IH by (intros g Hg; apply H; right; exact Hg).
  rewrite (H f (or_introl eq_refl)). reflexivity.
Qed.

Lemma applyAll_interleaving (l1 l2 l : list (State -> State)) :
  (forall f g, In f l1 -> In g l2 -> forall s, f (g s) = g (f s)) ->
  interleaving l1 l2 l ->
  forall s, applyAll l s = applyAll (l1 ++ l2) s.
Proof.
  intros H Hi. induction Hi as [|x l1 l2 l Hi IH|x l1 l2 l Hi IH]; intros s.
  - reflexivity.
  - cbn. apply IH. intros f g Hf Hg. apply H; [right; exact Hf|exact Hg].
  - rewrite applyAll_move
      by (intros f Hf t; apply H; [exact Hf|left; reflexivity]).
    cbn. apply IH. intros f g Hf Hg. apply H; [exact Hf|right; exact Hg].
Qed.

Lemma interleaving_swap {A : Type} (l1 l2 l : list A) :
  interleaving l1 l2 l -> interleaving l2 l1 l.
Proof. induction 1; constructor; assumption. Qed.

Lemma generate_grade_commute (f g : State -> State) :
  generateSetter f -> gradeSetter g -> forall s, f (g s) = g (f s).
Proof.
  intros [[x ->]|[[x ->]|[[x ->]|[x ->]]]] [[y ->]|[[y ->]|[y ->]]] s; reflexivity.
Qed.

Lemma generate_upload_commute (f g : State -> State) :
  generateSetter f -> uploadSetter g -> forall s, f (g s) = g (f s).
Proof.
  intros [[x ->]|[[x ->]|[[x ->]|[x ->]]]] [[y ->]|[[y ->]|[y ->]]] s; reflexivity.
Qed.

Lemma grade_upload_commute (f g : State -> State) :
  gradeSetter f -> uploadSetter g -> forall s, f (g s) = g (f s).
Proof.
  intros [[x ->]|[[x ->]|[x ->]]] [[y ->]|[[y ->]|[y ->]]] s; reflexivity.
Qed.

Lemma generateSetter_intro :
  (forall x, generateSetter (withRubricError x))
  /\ (forall x, generateSetter (withIsGeneratingRubric x))
  /\ (forall x, generateSetter (withRubricJson x))
  /\ (forall x, generateSetter (withRubricSource x)).
Proof. unfold generateSetter. repeat split; eauto 6. Qed.

Lemma gradeSetter_intro :
  (forall x, gradeSetter (withGradingError x))
  /\ (forall x, gradeSetter (withIsGrading x))
  /\ (forall x, gradeSetter (withGradingResponse x)).
Proof. unfold gradeSetter. repeat split; eauto 6. Qed.

Lemma uploadSetter_intro :
  (forall x, uploadSetter (withSpreadsheetError x))
  /\ (forall x, uploadSetter (withIsUploadingSpreadsheet x))
  /\ (forall x, uploadSetter (withSpreadsheetResponse x)).
Proof. unfold uploadSetter. repeat split; eauto 6. Qed.

Ltac setters :=
  repeat (apply Forall_cons;
          [first [ apply generateSetter_intro | apply gradeSetter_intro
                 | apply uploadSetter_intro ] |]);
  apply Forall_nil.

Section Interleavings.

Variable network : Request -> reply.
Variable env : Env.

Lemma updates_handleGenerateRubric (s : State) :
  Forall generateSetter (updates network (handleGenerateRubric env s)).
Proof.
  unfold handleGenerateRubric.
  destruct (rubricPdf s); [|setters].
  destruct (String.eqb _ _); [setters|].
  cbn. destruct (webhookResult _); cbn; setters.
Qed.

Lemma updates_handleGradeSubmission (s : State) :
  Forall gradeSetter (updates network (handleGradeSubmission env s)).
Proof.
  unfold handleGradeSubmission.
  destruct (negb _); [setters|].
  destruct (submissionFile s); [|setters].
  destruct (String.eqb _ _); [setters|].
  cbn. destruct (webhookResult _); cbn; setters.
Qed.

Lemma updates_handleUploadToSpreadsheet (s : State) :
  Forall uploadSetter (updates network (handleUploadToSpreadsheet env s)).
Proof.
  unfold handleUploadToSpreadsheet.
  destruct (String.eqb _ _); [setters|].
  destruct (_ || _); [setters|].
  cbn. destruct (webhookResult _); cbn; setters.
Qed.

Lemma interleaved_runs {A B : Type} (a : io A) (b : io B)
    (l : list (State -> State)) (s0 : State) :
  (forall f g, In f (updates network a) -> In g (updates network b) ->
               forall s, f (g s) = g (f s)) ->
  interleaving (updates network a) (updates network b) l ->
  applyAll l s0 = finalState (run network b (finalState (run network a s0)))
  /\ applyAll l s0 = finalState (run network a (finalState (run network b s0))).
Proof.
  intros H Hi. split.
  - rewrite !run_updates, <- applyAll_app. apply applyAll_interleaving; assumption.
  - rewrite !run_updates, <- applyAll_app.
    apply applyAll_interleaving; [|apply interleaving_swap; exact Hi].
    intros f g Hf Hg s. symmetry. apply H; assumption.
Qed.

(** X10: when two different actions, started from the same render, are in
    flight together, the order in which their setter calls interleave does
    not matter: every interleaving ends in the state that running one
    handler and then the other ends in, in either order. *)
Theorem interleavings_agree (s s0 : State) (l : list (State -> State)) :
  (interleaving (updates network (handleGenerateRubric env s))
     (updates network (handleGradeSubmission env s)) l ->
   applyAll l s0
   = finalState (run network (handleGradeSubmission env s)
                   (finalState (run network (handleGenerateRubric env s) s0)))
   /\ applyAll l s0
      = finalState (run network (handleGenerateRubric env s)
                      (finalState (run network (handleGradeSubmission env s) s0))))
  /\ (interleaving (updates network (handleGenerateRubric env s))
        (updates network (handleUploadToSpreadsheet env s)) l ->
      applyAll l s0
      = finalState (run network (handleUploadToSpreadsheet env s)
                      (finalState (run network (handleGenerateRubric env s) s0)))
      /\ applyAll l s0
         = finalState (run network (handleGenerateRubric env s)
                         (finalState (run network (handleUploadToSpreadsheet env s)
                                        s0))))
  /\ (interleaving (updates network (handleGradeSubmission env s))
        (updates network (handleUploadToSpreadsheet env s)) l ->
      applyAll l s0
      = finalState (run network (handleUploadToSpreadsheet env s)
                      (finalState (run network (handleGradeSubmission env s) s0)))
      /\ applyAll l s0
         = finalState (run network (handleGradeSubmission env s)
                         (finalState (run network (handleUploadToSpreadsheet env s)
                                        s0)))).
Proof.
  pose proof (updates_handleGenerateRubric s) as Hg.
  pose proof (updates_handleGradeSubmission s) as Hc.
  pose proof (updates_handleUploadToSpreadsheet s) as Hu.
  rewrite Forall_forall in Hg, Hc, Hu.
  split; [|split]; intros Hi; apply interleaved_runs; try exact Hi;
    intros f g Hf Hq.
  - apply generate_grade_commute; auto.
  - apply generate_upload_commute; auto.
  - apply grade_upload_commute; auto.
Qed.

End Interleavings.

Lemma interleavings_agree_witness :
  let s := stateWith "{}" (Some examplePdf) (Some exampleSubmission) in
  let network :=
    fun request : Request =>
      if String.eqb (requestUrl request) (rubricWebhookUrl exampleEnv)
      then Responded {| status := 200; statusText := "OK"; responseBody := "[1]" |}
      else NetworkFailure (ThrownError "Failed to fetch") in
  let a := updates network (handleGenerateRubric exampleEnv s) in
  let b := updates network (handleGradeSubmission exampleEnv s) in
  applyAll (firstn 2 a ++ firstn 3 b ++ skipn 3 b ++ skipn 2 a) s
  = finalState (run network (handleGradeSubmission exampleEnv s)
                  (finalState (run network (handleGenerateRubric exampleEnv s) s))).
Proof.
  intros s network a b.
  apply (proj1 (interleavings_agree network exampleEnv s s _)).
  subst a b. vm_compute.
  repeat first [ apply interleaving_end
               | apply interleaving_left
               | apply interleaving_right ].
Defined.

(** ** Once a rubric has been imported *)

Lemma hasRubric_visible (s : State) :
  startsVisible (rubricJson s) = true -> hasRubric s = true.
Proof.
  intros H. apply trim_visible in H. unfold hasRubric.
  destruct (trim (rubricJson s)); [contradiction|reflexivity].
Qed.

(** X11: after the import of a file whose text is JSON for a truthy value
    that [JSON.stringify] has turned into a text, the rubric is present:
    the title names the provenance importada, the download saves the stored
    text, as rubrica.json of type application/json, and a grading started
    with a submission and a configured URL sends that same text in its
    rubric field. *)
Theorem import_makes_rubric_available (network : Request -> reply) (env : Env)
    (file submission : File) (text pretty : string) (s : State) :
  fileText file = Fulfilled text ->
  truthy (parseJsonSafely text) = true ->
  JSON_stringify (parseJsonSafely text) = Some (Some pretty) ->
  let s1 := finalState (run network (handleRubricImport (Some file) s) s) in
  rubricJson s1 = pretty
  /\ hasRubric s1 = true
  /\ rubricTitle s1 = "Rúbrica JSON (importada)"
  /\ handleRubricDownload s1
     = downloadFile pretty "rubrica.json" "application/json"
  /\ (submissionFile s = Some submission ->
      gradingWebhookUrl env <> EmptyString ->
      requests (suspensions (run network (handleGradeSubmission env s1) s1))
      = [webhookRequest (gradingWebhookUrl env)
           [("rubric", FormBlob pretty "application/json" "rubrica.json");
            ("submission", FormFile submission)]]).
Proof.
  intros Htext Ht Hs s1. subst s1.
  rewrite run_handleRubricImport, Htext, Ht. cbn [negb].
  pose proof (serialize_visible _ _ _ Hs) as Hv.
  rewrite Hs. unfold finalState. cbn [fst snd stored].
  assert (hasRubric
            (withRubricError None
               (withRubricSource (Some importada) (withRubricJson pretty s)))
          = true) as Hr by (apply hasRubric_visible; exact Hv).
  split; [reflexivity|]. split; [exact Hr|].
  split; [unfold rubricTitle; rewrite Hr; reflexivity|].
  split; [unfold handleRubricDownload; rewrite Hr; reflexivity|].
  intros Hf Hurl. rewrite run_handleGradeSubmission, Hr. cbn [negb].
  cbn [submissionFile withRubricError withRubricSource withRubricJson].
  rewrite Hf. apply String.eqb_neq in Hurl. rewrite Hurl. reflexivity.
Qed.

Lemma import_makes_rubric_available_witness :
  let file := {| fileName := "rubrica.json"; fileType := "application/json";
                 fileText := Fulfilled ("{" ++ Q ++ "criterios" ++ Q ++ ":[]}") |} in
  let s := stateWith EmptyString None (Some exampleSubmission) in
  let s1 := finalState (run (respond 200 "OK" EmptyString)
                          (handleRubricImport (Some file) s) s) in
  rubricTitle s1 = "Rúbrica JSON (importada)"
  /\ handleRubricDownload s1
     = downloadFile ("{" ++ NL ++ "  " ++ Q ++ "criterios" ++ Q ++ ": []" ++ NL ++ "}")
         "rubrica.json" "application/json".
Proof.
  intros file s s1.
  destruct (import_makes_rubric_available (respond 200 "OK" EmptyString) exampleEnv
              file exampleSubmission ("{" ++ Q ++ "criterios" ++ Q ++ ":[]}")
              ("{" ++ NL ++ "  " ++ Q ++ "criterios" ++ Q ++ ": []" ++ NL ++ "}") s
              eq_refl eq_refl eq_refl)
    as (_ & _ & Ht & Hd & _).
  split; [exact Ht|exact Hd].
Defined.

(** X12: an import never rejects and never issues a request; without a
    file it does nothing at all; when the file cannot be read, or its text
    is refused, the rubric text and its provenance stay as they were and
    only the rubric error is written: with the message of the read failure
    when that is an Error, and a fixed message otherwise. *)
Theorem import_failures_keep_rubric (network : Request -> reply) (s : State) :
  run network (handleRubricImport None s) s = ([], s, Fulfilled tt)
  /\ forall file,
       let r := run network (handleRubricImport (Some file) s) s in
       completion r = Fulfilled tt
       /\ requests (suspensions r) = []
       /\ (forall m, fileText file = Rejected (ThrownError m) ->
             finalState r = withRubricError (validation m) s)
       /\ (forall e, fileText file = Rejected (ThrownObject e) ->
             finalState r
             = withRubricError (validation "No se pudo leer la rúbrica JSON.") s)
       /\ (rubricError (finalState r) <> None ->
             rubricJson (finalState r) = rubricJson s
             /\ rubricSource (finalState r) = rubricSource s).
Proof.
  split; [reflexivity|].
  intros file r. subst r. rewrite run_handleRubricImport.
  unfold completion, finalState, suspensions. cbn [fst snd requests].
  repeat split.
  - intros m ->. reflexivity.
  - intros e ->. reflexivity.
  - destruct (fileText file) as [text|reason]; [|reflexivity].
    destruct (negb _); [reflexivity|].
    destruct (JSON_stringify _); [|reflexivity]. cbn in H. contradiction.
  - destruct (fileText file) as [text|reason]; [|reflexivity].
    destruct (negb _); [reflexivity|].
    destruct (JSON_stringify _); [|reflexivity]. cbn in H. contradiction.
Qed.

Lemma import_failures_keep_rubric_witness :
  let file := {| fileName := "rubrica.json"; fileType := "application/json";
                 fileText := Rejected (ThrownError "NotReadableError") |} in
  let s := stateWith "{}" None None in
  finalState (run (respond 200 "OK" EmptyString) (handleRubricImport (Some file) s) s)
  = withRubricError (validation "NotReadableError") s.
Proof.
  intros file s.
  apply (proj1 (proj2 (proj2 (proj2 (import_failures_keep_rubric
                                       (respond 200 "OK" EmptyString) s) file)))).
  reflexivity.
Defined.

(** ** Selecting a preset rubric *)

Lemma presetRubrics_isJson :
  forallb (fun rubric => isJson (presetContent rubric)) presetRubrics = true.
Proof. vm_compute. reflexivity. Qed.

Lemma find_presetRubrics (value : string) (preset : PresetRubric) :
  find (fun rubric => String.eqb (presetId rubric) value) presetRubrics = Some preset ->
  In preset presetRubrics /\ presetId preset = value.
Proof.
  intros H. apply find_some in H as [Hin Heq].
  apply String.eqb_eq in Heq. auto.
Qed.

Lemma run_handlePresetRubricSelection (network : Request -> reply)
    (value : string) (s0 : State) :
  let r := run network (handlePresetRubricSelection value) s0 in
  suspensions r = []
  /\ completion r = Fulfilled tt
  /\ finalState r
     = match
         (if String.eqb value EmptyString then None
          else find (fun rubric => String.eqb (presetId rubric) value) presetRubrics)
       with
       | Some preset =>
           withRubricError None
             (withRubricSource (Some preestablecida)
                (withRubricJson (stored (formatJson (presetContent preset)))
                   (withSelectedPresetRubricId value s0)))
       | None => withSelectedPresetRubricId value s0
       end.
Proof.
  unfold handlePresetRubricSelection.
  destruct (String.eqb value EmptyString); [repeat split|].
  destruct (find (fun rubric => String.eqb (presetId rubric) value) presetRubrics)
    as [preset|] eqn:Hfind; [|repeat split].
  apply find_presetRubrics in Hfind as [Hin _].
  pose proof presetRubrics_isJson as Hall. rewrite forallb_forall in Hall.
  destruct (formatJson_isJson _ (Hall _ Hin)) as (pretty & Hf & Hs).
  rewrite Hs, Hf. repeat split.
Qed.

(** X13: selecting an entry of the preset list never suspends nor rejects
    and records the chosen id; for the id of a bundled preset the rubric
    text becomes the indented JSON of its content, which is a string and
    not blank, the provenance becomes preestablecida, the rubric error is
    cleared and the title names the provenance; when the id was one of
    those offered for the selected course, the preset loaded is of that
    course; for the empty option or any other id the rubric, its
    provenance and the error are left as they were. *)
Theorem preset_selection (network : Request -> reply) (value : string) (s : State) :
  let r := run network (handlePresetRubricSelection value) s in
  suspensions r = [] /\ completion r = Fulfilled tt
  /\ selectedPresetRubricId (finalState r) = value
  /\ match find (fun rubric => String.eqb (presetId rubric) value) presetRubrics with
     | Some preset =>
         exists pretty,
           JSON_stringify (presetContent preset) = Some (Some pretty)
           /\ rubricJson (finalState r) = pretty
           /\ rubricSource (finalState r) = Some preestablecida
           /\ rubricError (finalState r) = None
           /\ hasRubric (finalState r) = true
           /\ rubricTitle (finalState r) = "Rúbrica JSON (preestablecida)"
           /\ (existsb (String.eqb value)
                 (map presetId (availablePresetRubrics s)) = true ->
               presetCourseId preset = selectedCourse s)
     | None =>
         rubricJson (finalState r) = rubricJson s
         /\ rubricSource (finalState r) = rubricSource s
         /\ rubricError (finalState r) = rubricError s
     end.
Proof.
  intros r. subst r.
  destruct (run_handlePresetRubricSelection network value s) as (Hs & Hc & Hf).
  split; [exact Hs|]. split; [exact Hc|]. rewrite Hf. clear Hs Hc Hf.
  destruct (find _ presetRubrics) as [preset|] eqn:Hfind.
  - destruct (find_presetRubrics _ _ Hfind) as [Hin Hid].
    assert (String.eqb value EmptyString = false) as Hne.
    { destruct Hin as [<-|[]]. subst value. reflexivity. }
    rewrite Hne.
    pose proof presetRubrics_isJson as Hall. rewrite forallb_forall in Hall.
    destruct (formatJson_isJson _ (Hall _ Hin)) as (pretty & Hfmt & Hstr).
    rewrite Hfmt. cbn [stored]. split; [reflexivity|].
    exists pretty.
    assert (hasRubric
              (withRubricError None
                 (withRubricSource (Some preestablecida)
                    (withRubricJson pretty (withSelectedPresetRubricId value s))))
            = true) as Hr.
    { apply hasRubric_visible. exact (serialize_visible _ _ _ Hstr). }
    split; [exact Hstr|]. split; [reflexivity|]. split; [reflexivity|].
    split; [reflexivity|]. split; [exact Hr|].
    split; [unfold rubricTitle; rewrite Hr; reflexivity|].
    intros Hoffered. unfold availablePresetRubrics in Hoffered.
    destruct (String.eqb (selectedCourse s) EmptyString); [discriminate|].
    apply existsb_exists in Hoffered as (id & Hmem & Heq).
    apply in_map_iff in Hmem as (other & <- & Hother).
    apply filter_In in Hother as [Hcat Hcourse].
    apply String.eqb_eq in Heq, Hcourse.
    destruct Hin as [<-|[]]. destruct Hcat as [<-|[]]. exact Hcourse.
  - destruct (String.eqb value EmptyString); repeat split.
Qed.

Lemma preset_selection_witness :
  let s := withSelectedCourse "programacion-1"
             (withSelectedUniversity "utn-frm" initialState) in
  let r := run (respond 200 "OK" EmptyString)
               (handlePresetRubricSelection "practico-5-listas") s in
  rubricTitle (finalState r) = "Rúbrica JSON (preestablecida)"
  /\ hasRubric (finalState r) = true
  /\ [JSON_parse (rubricJson (finalState r))]
     = map (fun rubric => Some (presetContent rubric)) presetRubrics.
Proof.
  intros s r.
  pose proof (preset_selection (respond 200 "OK" EmptyString) "practico-5-listas" s)
    as (_ & _ & _ & H).
  change (find _ presetRubrics) with (hd_error presetRubrics) in H.
  cbn [hd_error presetRubrics PRESET_RUBRICS] in H.
  destruct H as (pretty & _ & _ & _ & _ & Hr & Ht & _).
  split; [exact Ht|]. split; [exact Hr|].
  vm_compute. reflexivity.
Defined.

(** ** The selections stay consistent *)

Lemma contextConsistent_fields (s t : State) :
  selectedUniversity t = selectedUniversity s ->
  selectedCourse t = selectedCourse s ->
  selectedPresetRubricId t = selectedPresetRubricId s ->
  contextConsistent t = contextConsistent s.
Proof.
  intros Hu Hc Hp.
  unfold contextConsistent, availableCourses, availablePresetRubrics.
  rewrite Hu, Hc, Hp. reflexivity.
Qed.

Lemma courses_of_listed_university (value : string) :
  listed value (map choiceId universities) = true ->
  String.eqb value EmptyString = true
  \/ property COURSES_BY_UNIVERSITY value = Some fourCourses.
Proof.
  unfold listed.
  destruct (String.eqb value EmptyString); [auto|].
  cbn [orb map universities UNIVERSITIES choiceId existsb].
  intros H. right.
  repeat match type of H with
    | (String.eqb value ?u || _) = true =>
        let E := fresh "E" in
        destruct (String.eqb value u) eqn:E;
          [apply String.eqb_eq in E; subst value; reflexivity | cbn [orb] in H]
    end.
  discriminate.
Qed.

Section Selections.

Variable network : Request -> reply.

(** X14: the selections of university, course and preset stay consistent
    with the catalogs.  The initial state is consistent, and from a
    consistent state every choice that the three lists offer leads, once
    the effects have run, to a consistent state: the lookup of the courses
    of the selected university is defined, the selected course is empty or
    one of that university, and the selected preset is empty or one of the
    presets of the selected course. *)
Theorem selections_stay_consistent :
  contextConsistent initialState = true
  /\ forall (e : event) (s : State),
       contextConsistent s = true ->
       offered s e = true ->
       contextConsistent (dispatch network e s) = true.
Proof.
  split; [reflexivity|].
  intros [value|value|value] s Hs Ho; cbn [offered dispatch] in *.
  - unfold universityEffect, courseEffect.
    cbn [selectedUniversity selectedCourse withSelectedUniversity].
    destruct (String.eqb (selectedUniversity s) value) eqn:Hsame.
    + apply String.eqb_eq in Hsame. subst value.
      rewrite String.eqb_refl.
      rewrite <- Hs. apply contextConsistent_fields; reflexivity.
    + assert (contextConsistent
                (withSelectedPresetRubricId EmptyString
                   (withSelectedCourse EmptyString (withSelectedUniversity value s)))
              = true) as Hreset.
      { unfold contextConsistent, availableCourses, availablePresetRubrics.
        cbn [selectedUniversity selectedCourse selectedPresetRubricId
             withSelectedPresetRubricId withSelectedCourse withSelectedUniversity].
        destruct (courses_of_listed_university _ Ho) as [-> | Hc];
          [reflexivity|].
        rewrite Hc. destruct (String.eqb value EmptyString); reflexivity. }
      cbn [selectedCourse withSelectedPresetRubricId withSelectedCourse].
      destruct (String.eqb (selectedCourse s) EmptyString); [exact Hreset|].
      rewrite <- Hreset. apply contextConsistent_fields; reflexivity.
  - apply andb_prop in Ho as [Hu Ho].
    unfold courseEffect. cbn [selectedCourse withSelectedCourse].
    destruct (String.eqb (selectedCourse s) value) eqn:Hsame.
    + apply String.eqb_eq in Hsame. subst value.
      rewrite <- Hs. apply contextConsistent_fields; reflexivity.
    + unfold contextConsistent, availableCourses, availablePresetRubrics in *.
      cbn [selectedUniversity selectedCourse selectedPresetRubricId
           withSelectedPresetRubricId withSelectedCourse].
      destruct (if String.eqb (selectedUniversity s) EmptyString then Some []
                else property COURSES_BY_UNIVERSITY (selectedUniversity s))
        as [courses|]; [|discriminate].
      rewrite Ho. reflexivity.
  - apply andb_prop in Ho as [Ho Hlisted]. apply andb_prop in Ho as [Hc _].
    destruct (run_handlePresetRubricSelection network value s) as (_ & _ & Hf).
    assert (selectedUniversity (finalState (run network
              (handlePresetRubricSelection value) s)) = selectedUniversity s
            /\ selectedCourse (finalState (run network
                 (handlePresetRubricSelection value) s)) = selectedCourse s
            /\ selectedPresetRubricId (finalState (run network
                 (handlePresetRubricSelection value) s)) = value)
      as (Hu' & Hc' & Hp').
    { rewrite Hf.
      destruct (if String.eqb value EmptyString then None
                else find (fun rubric => String.eqb (presetId rubric) value)
                       presetRubrics); repeat split. }
    unfold contextConsistent, availableCourses, availablePresetRubrics in *.
    rewrite Hu', Hc', Hp'.
    destruct (if String.eqb (selectedUniversity s) EmptyString then Some []
              else property COURSES_BY_UNIVERSITY (selectedUniversity s))
      as [courses|]; [|discriminate].
    apply andb_prop in Hs as [Hcourse _]. rewrite Hcourse, Hlisted. reflexivity.
Qed.

End Selections.

Lemma selections_stay_consistent_witness :
  let network := respond 200 "OK" EmptyString in
  let s1 := dispatch network (SelectUniversity "utn-fra") initialState in
  let s2 := dispatch network (SelectCourse "programacion-1") s1 in
  let s3 := dispatch network (SelectPreset "practico-5-listas") s2 in
  let s4 := dispatch network (SelectUniversity "utn-frba") s3 in
  contextConsistent s3 = true
  /\ contextConsistent s4 = true
  /\ selectedCourse s4 = EmptyString
  /\ selectedPresetRubricId s4 = EmptyString
  /\ rubricSource s4 = Some preestablecida.
Proof.
  intros network s1 s2 s3 s4.
  pose proof (proj2 (selections_stay_consistent network)) as step.
  assert (contextConsistent s1 = true) as H1
    by (apply step; reflexivity).
  assert (contextConsistent s2 = true) as H2
    by (apply step; [exact H1 | reflexivity]).
  assert (contextConsistent s3 = true) as H3
    by (apply step; [exact H2 | vm_compute; reflexivity]).
  split; [exact H3|].
  split; [apply step; [exact H3 | reflexivity]|].
  vm_compute. repeat split.
Defined.

(** ** The file inputs *)

(** X15: a file input keeps the first file of the selection, and nothing
    when the selection comes back empty; the generation then sends that
    first PDF, the grading that first submission with the rubric text, and
    after an empty selection neither issues a request, whatever file was
    chosen before. *)
Theorem chosen_files_are_sent (network : Request -> reply) (env : Env)
    (pdfs submissions : list File) (s : State) :
  let s1 := finalState (run network (handleSubmissionChange submissions)
                          (finalState (run network (handleRubricPdfChange pdfs) s))) in
  requests (suspensions (run network (handleGenerateRubric env s1) s1))
  = match pdfs with
    | pdf :: _ =>
        if String.eqb (rubricWebhookUrl env) EmptyString then []
        else [webhookRequest (rubricWebhookUrl env) [("pdf", FormFile pdf)]]
    | [] => []
    end
  /\ requests (suspensions (run network (handleGradeSubmission env s1) s1))
     = match submissions with
       | submission :: _ =>
           if hasRubric s && negb (String.eqb (gradingWebhookUrl env) EmptyString)
           then [webhookRequest (gradingWebhookUrl env)
                   [("rubric",
                     FormBlob (rubricJson s) "application/json" "rubrica.json");
                    ("submission", FormFile submission)]]
           else []
       | [] => []
       end.
Proof.
  intros s1. subst s1.
  rewrite run_handleGenerateRubric, run_handleGradeSubmission.
  unfold handleRubricPdfChange, handleSubmissionChange.
  cbn [run set finalState fst snd].
  match goal with
  | |- context [hasRubric ?t] => change (hasRubric t) with (hasRubric s)
  end.
  cbn [rubricPdf submissionFile rubricJson withRubricPdf withSubmissionFile hd_error].
  split.
  - destruct pdfs as [|pdf pdfs]; [reflexivity|]. cbn [hd_error].
    destruct (String.eqb _ _); reflexivity.
  - destruct (hasRubric s); cbn [negb andb];
      destruct submissions as [|submission submissions]; try reflexivity.
    cbn [hd_error]. destruct (String.eqb _ _); reflexivity.
Qed.
